(** * Domain firewall check: probes, orchestrator and report

    A shallow embedding of [DomainCheckApi.py] (the concurrent service,
    [Module Api]) and of [DomainCheckCli.py] (the terminal script,
    [Module Cli]), and the properties of their probes and reports.

    The probes talk to the network, to a [dig] subprocess and to the clock.
    These are modelled by an environment [env] of oracles: every primitive
    call is appended to a log, and its outcome is read from the oracle, which
    sees the whole log of earlier calls.  Nothing is assumed about the
    oracles, so a host may answer two identical calls differently.
    Python exceptions are values of [exn] and travel through the monad [M]
    until a [try_except] catches them. *)

From Stdlib Require Import ZArith QArith Qround String Ascii List Lia.
From stdpp Require Import base gmap sets list strings pretty.

Open Scope string_scope.
Open Scope list_scope.

(** ** Python values stored in a report *)

(** The values the scripts put into their dictionaries: booleans, strings
    (held UTF-8 encoded), floats (clock readings, idealised as rationals),
    lists of strings, and the pair [(ip, result)] that [async_http_head]
    returns. *)
Inductive pyval : Type :=
| VBool (b : bool)
| VStr (s : string)
| VFloat (q : Q)
| VList (l : list string)
| VTuple (ip : string) (b : bool).

(** Truth value of an object, as [if x:] and [or] take it. *)
Definition truthy (v : pyval) : bool :=
  match v with
  | VBool b => b
  | VStr s => negb (String.eqb s "")
  | VFloat q => negb (Qeq_bool q 0)
  | VList l => negb (bool_decide (l = []))
  | VTuple _ _ => true
  end.

(** Truth value of [d.get(k)] and of [d.get(k, False)]: a missing key
    gives [None], respectively [False], both false. *)
Definition get_truthy (o : option pyval) : bool :=
  match o with
  | Some v => truthy v
  | None => false
  end.

(** [d.get(k) == s] for a string literal [s]. *)
Definition get_eq_str (o : option pyval) (s : string) : bool :=
  match o with
  | Some (VStr t) => String.eqb t s
  | _ => false
  end.

(** [round(x, 2)]: the nearest multiple of 1/100, ties to the even one. *)
Definition round_half_even (q : Q) : Z :=
  let f := Qfloor q in
  let r := (q - inject_Z f)%Q in
  match (r ?= 1 # 2)%Q with
  | Lt => f
  | Gt => (f + 1)%Z
  | Eq => if Z.even f then f else (f + 1)%Z
  end.

Definition py_round2 (q : Q) : Q := Qmake (round_half_even (q * 100)) 100.

(** ** Strings *)

Definition CR : ascii := "013"%char.
Definition LF : ascii := "010"%char.
Definition CRLF : string := String CR (String LF "").

(** [str.isspace] on one code point, read off the UTF-8 bytes at the head of
    the string: the rest of the string after that code point when it is
    white space.  The white space of Python: U+0009..U+000D, U+001C..U+0020,
    U+0085, U+00A0, U+1680, U+2000..U+200A, U+2028, U+2029, U+202F, U+205F,
    U+3000. *)
Definition ascii_space (n : N) : bool :=
  ((9 <=? n) && (n <=? 13) || (28 <=? n) && (n <=? 32))%N.

Definition drop_space (s : string) : option string :=
  match s with
  | EmptyString => None
  | String a r =>
    let n := N_of_ascii a in
    if ascii_space n then Some r
    else match r with
    | String b r1 =>
      let m := N_of_ascii b in
      if (n =? 194)%N && ((m =? 133) || (m =? 160))%N then Some r1
      else match r1 with
      | String c r2 =>
        let k := N_of_ascii c in
        if ((n =? 225) && (m =? 154) && (k =? 128))%N
           || ((n =? 226) && (m =? 128)
               && ((128 <=? k) && (k <=? 138) || (k =? 168) || (k =? 169)
                   || (k =? 175)))%N
           || ((n =? 226) && (m =? 129) && (k =? 159))%N
           || ((n =? 227) && (m =? 128) && (k =? 128))%N
        then Some r2 else None
      | EmptyString => None
      end
    | EmptyString => None
    end
  end.

(** The same at the end of a string, on the reversed list of bytes. *)
Definition drop_space_rev (l : list ascii) : option (list ascii) :=
  match l with
  | [] => None
  | a :: r =>
    let n := N_of_ascii a in
    if ascii_space n then Some r
    else match r with
    | b :: r1 =>
      let m := N_of_ascii b in
      if (m =? 194)%N && ((n =? 133) || (n =? 160))%N then Some r1
      else match r1 with
      | c :: r2 =>
        let k := N_of_ascii c in
        if ((k =? 225) && (m =? 154) && (n =? 128))%N
           || ((k =? 226) && (m =? 128)
               && ((128 <=? n) && (n <=? 138) || (n =? 168) || (n =? 169)
                   || (n =? 175)))%N
           || ((k =? 226) && (m =? 129) && (n =? 159))%N
           || ((k =? 227) && (m =? 128) && (n =? 128))%N
        then Some r2 else None
      | [] => None
      end
    | [] => None
    end
  end.

Fixpoint lstrip_fuel (fuel : nat) (s : string) : string :=
  match fuel with
  | O => s
  | S fuel' =>
    match drop_space s with
    | Some r => lstrip_fuel fuel' r
    | None => s
    end
  end.

Fixpoint rstrip_fuel (fuel : nat) (l : list ascii) : list ascii :=
  match fuel with
  | O => l
  | S fuel' =>
    match drop_space_rev l with
    | Some r => rstrip_fuel fuel' r
    | None => l
    end
  end.

Definition lstrip (s : string) : string := lstrip_fuel (String.length s) s.

Definition rstrip (s : string) : string :=
  string_of_list_ascii
    (rev (rstrip_fuel (String.length s) (rev (list_ascii_of_string s)))).

(** [s.strip()] *)
Definition strip (s : string) : string := rstrip (lstrip s).

(** [s.split("\n")]: always at least one piece. *)
Fixpoint split_lines (s : string) : list string :=
  match s with
  | EmptyString => [""]
  | String a r =>
    if Ascii.eqb a LF then "" :: split_lines r
    else match split_lines r with
         | p :: ps => String a p :: ps
         | [] => [String a ""]
         end
  end.

Definition nonempty (s : string) : bool := negb (String.eqb s "").

(** [resp.startswith(b"HTTP")] *)
Definition startswith (s p : string) : bool := String.prefix p s.

(** ** Exceptions *)

(** The exception classes the probes can meet, with the base classes that
    Python's library gives them. *)
Inductive exn : Type :=
| BaseException | Exception | KeyboardInterrupt | SystemExit
| OSError | ConnectionError | ConnectionResetError | ConnectionRefusedError
| ConnectionAbortedError | BrokenPipeError | TimeoutError | FileNotFoundError
| gaierror
| SSLError | SSLCertVerificationError | SSLEOFError | SSLZeroReturnError
| SSLSyscallError
| ValueError | UnicodeError | UnicodeDecodeError | UnicodeEncodeError
| SubprocessError | CalledProcessError | TimeoutExpired
| LookupError | KeyError.

#[global] Instance exn_eq_dec : EqDecision exn.
Proof. solve_decision. Defined.

Definition bases (c : exn) : list exn :=
  match c with
  | BaseException => []
  | Exception | KeyboardInterrupt | SystemExit => [BaseException]
  | OSError | ValueError | SubprocessError | LookupError => [Exception]
  | ConnectionError | TimeoutError | FileNotFoundError | gaierror
  | SSLError => [OSError]
  | ConnectionResetError | ConnectionRefusedError | ConnectionAbortedError
  | BrokenPipeError => [ConnectionError]
  | SSLCertVerificationError => [SSLError; ValueError]
  | SSLEOFError | SSLZeroReturnError | SSLSyscallError => [SSLError]
  | UnicodeError => [ValueError]
  | UnicodeDecodeError | UnicodeEncodeError => [UnicodeError]
  | CalledProcessError | TimeoutExpired => [SubprocessError]
  | KeyError => [LookupError]
  end.

Fixpoint issubclass_fuel (fuel : nat) (c d : exn) : bool :=
  bool_decide (c = d)
  || match fuel with
     | O => false
     | S fuel' => existsb (fun b => issubclass_fuel fuel' b d) (bases c)
     end.

(** [isinstance(e, d)] for an exception [e] of class [c]; no class is more
    than four steps below [BaseException]. *)
Definition isinstance (c d : exn) : bool := issubclass_fuel 5 c d.

(** ** The environment and the monad of the scripts *)

Inductive result (A : Type) : Type :=
| Ok (a : A)
| Raise (e : exn).
Arguments Ok {A} a.
Arguments Raise {A} e.

(** A primitive call, as logged. *)
Inductive call : Type :=
| CTime
| CDig (domain dns : string) (timeout : Z)
| CConnect (host : string) (port : Z) (timeout : Z)
| CClose (host : string) (port : Z)
| CSend (host : string) (data : string)
| CRecv (host : string) (bufsize : nat)
| CTls (domain : string) (timeout : Z).

(** Where a TLS attempt stopped: building the context and the socket, the
    TCP connection to port 443, or the handshake itself. *)
Inductive tls_phase : Type := TlsSetup | TlsConnect | TlsHandshake.

Record env : Type := {
  (** [time.time()] *)
  clock : list call -> Q;
  (** [subprocess.check_output(["dig", "+short", domain, "@" + dns], ...)]
      followed by [.decode()]: the text, or the exception of either *)
  dig_out : list call -> string -> string -> result string;
  (** [socket.create_connection((host, port), timeout)] *)
  connect_out : list call -> string -> Z -> option exn;
  (** [conn.send(data)] *)
  send_out : list call -> string -> string -> option exn;
  (** [conn.recv(n)]: the bytes that have arrived *)
  recv_out : list call -> string -> result string;
  (** wrapping a socket for [domain], connecting it to port 443 and
      handshaking: [None] when the handshake completes *)
  tls_out : list call -> string -> option (tls_phase * exn)
}.

Definition M (A : Type) : Type := env -> list call -> result A * list call.

#[global] Instance M_ret : MRet M := fun A a E log => (Ok a, log).

#[global] Instance M_bind : MBind M := fun A B f m E log =>
  match m E log with
  | (Ok a, log') => f a E log'
  | (Raise e, log') => (Raise e, log')
  end.

Definition raise {A : Type} (e : exn) : M A := fun E log => (Raise e, log).

(** [try: body  except c1: h1  except c2: h2 ...]: the first clause whose
    class the exception is an instance of handles it. *)
Definition try_except {A : Type} (body : M A) (handlers : list (exn * M A))
  : M A :=
  fun E log =>
    match body E log with
    | (Ok a, log') => (Ok a, log')
    | (Raise e, log') =>
      match find (fun h => isinstance e (fst h)) handlers with
      | Some h => snd h E log'
      | None => (Raise e, log')
      end
    end.

(** [await asyncio.gather] over the tasks: the results in the order of the tasks.
    Each task's outcome comes from the oracle at the moment it is issued.
    The tasks are run here one after another, in the order of the list, and
    the first that raises ends the stage.  [asyncio] runs them concurrently
    on a thread pool: the order of their calls within a stage, and the calls
    of the tasks beside one that raises, are not determined by this
    definition.  What is stated of the calls of the service is therefore
    stated of runs that return, and up to the order within a stage. *)
Fixpoint gather {A : Type} (tasks : list (M A)) : M (list A) :=
  match tasks with
  | [] => mret []
  | t :: ts => a ← t; rest ← gather ts; mret (a :: rest)
  end.

(** A [for] loop that updates an accumulator and may raise. *)
Fixpoint for_each {A B : Type} (f : A -> B -> M A) (a : A) (xs : list B)
  : M A :=
  match xs with
  | [] => mret a
  | x :: xs' => a' ← f a x; for_each f a' xs'
  end.

(** *** Primitives *)

Definition of_option (o : option exn) : result unit :=
  match o with
  | None => Ok tt
  | Some e => Raise e
  end.

Definition sys_time : M Q :=
  fun E log => (Ok (clock E log), log ++ [CTime]).

Definition sys_dig (domain dns : string) (timeout : Z) : M string :=
  fun E log => (dig_out E log domain dns, log ++ [CDig domain dns timeout]).

Definition sys_connect (host : string) (port timeout : Z) : M unit :=
  fun E log =>
    (of_option (connect_out E log host port),
     log ++ [CConnect host port timeout]).

Definition sys_close (host : string) (port : Z) : M unit :=
  fun E log => (Ok tt, log ++ [CClose host port]).

Definition sys_send (host data : string) : M unit :=
  fun E log => (of_option (send_out E log host data), log ++ [CSend host data]).

(** [recv(n)] hands over at most [n] of the bytes that have arrived. *)
Definition sys_recv (host : string) (n : nat) : M string :=
  fun E log =>
    (match recv_out E log host with
     | Ok s => Ok (substring 0 n s)
     | Raise e => Raise e
     end, log ++ [CRecv host n]).

Definition sys_tls (domain : string) (timeout : Z) : M unit :=
  fun E log =>
    (of_option (snd <$> tls_out E log domain), log ++ [CTls domain timeout]).

(** ** Reports *)

(** The report dictionary.  [summary] and [timestamp] are [None] when the
    key is absent. *)
Record report : Type := {
  r_domain : string;
  r_dns : gmap string (list string);
  r_connectivity : gmap string (gmap string pyval);
  r_summary : option (gmap string pyval);
  r_timestamp : option Q
}.

(** [conn[ip][key] = v]; [KeyError] when [conn] has no [ip]. *)
Definition setitem2 (conn : gmap string (gmap string pyval))
    (ip key : string) (v : pyval) : M (gmap string (gmap string pyval)) :=
  match conn !! ip with
  | Some rec => mret (<[ip := <[key := v]> rec]> conn)
  | None => raise KeyError
  end.

(** [conn[ip]]; [KeyError] when absent. *)
Definition getitem (conn : gmap string (gmap string pyval)) (ip : string)
  : M (gmap string pyval) :=
  match conn !! ip with
  | Some rec => mret rec
  | None => raise KeyError
  end.

(** [set(ip for ips in d.values() for ip in ips)] *)
Definition address_set (d : gmap string (list string)) : gset string :=
  list_to_set (concat (snd <$> map_to_list d)).

(** [f"tcp_{port}"] *)
Definition tcp_key (port : Z) : string := "tcp_" +:+ pretty port.

(** ** DomainCheckApi.py *)

Module Api.

Definition TEST_DNS : list (string * string) :=
  [("Google(8.8.8.8)", "8.8.8.8");
   ("Cloudflare(1.1.1.1)", "1.1.1.1");
   ("Ali(223.5.5.5)", "223.5.5.5");
   ("114DNS(114.114.114.114)", "114.114.114.114")].

Definition TEST_PORTS : list Z := [80; 443]%Z.

Definition TIMEOUT : Z := 4.

(** *** Probes *)

Definition dig_query (domain dns : string) : M (list string) :=
  try_except
    (out ← sys_dig domain dns TIMEOUT;
     let result := split_lines (strip out) in
     mret (filter (fun r => nonempty r && nonempty (strip r)) result))
    [(Exception, mret [])].

Definition tcp_connect (ip : string) (port : Z) : M bool :=
  try_except
    (_ ← sys_connect ip port TIMEOUT;
     _ ← sys_close ip port;
     mret true)
    [(Exception, mret false)].

Definition tls_handshake (domain : string) : M pyval :=
  try_except
    (_ ← sys_tls domain TIMEOUT;
     mret (VBool true))
    [(SSLError, mret (VStr "TLS-Reset"));
     (Exception, mret (VBool false))].

(** The bytes of
    [f"HEAD / HTTP/1.1\r\nHost: {domain}\r\nConnection: close\r\n\r\n"]. *)
Definition head_request (domain : string) : string :=
  "HEAD / HTTP/1.1" +:+ CRLF +:+ "Host: " +:+ domain +:+ CRLF
  +:+ "Connection: close" +:+ CRLF +:+ CRLF.

Definition http_head (ip domain : string) : M bool :=
  try_except
    (_ ← sys_connect ip 80 TIMEOUT;
     let request := head_request domain in
     _ ← sys_send ip request;
     resp ← sys_recv ip 50;
     mret (startswith resp "HTTP"))
    [(Exception, mret false)].

(** The wrappers that run a probe on the thread pool and tag its result. *)
Definition async_dig_query (domain dns : string) : M (string * list string) :=
  result ← dig_query domain dns; mret (dns, result).

Definition async_tcp_connect (ip : string) (port : Z)
  : M (string * Z * bool) :=
  result ← tcp_connect ip port; mret (ip, port, result).

Definition async_tls_handshake (domain : string) : M pyval :=
  result ← tls_handshake domain; mret result.

Definition async_http_head (ip domain : string) : M (string * bool) :=
  result ← http_head ip domain; mret (ip, result).

(** *** The stages of [check_domain] *)

(** The DNS queries, one per resolver, gathered, and [dns_dict]. *)
Definition dns_stage (domain : string) : M (gmap string (list string)) :=
  let dns_tasks :=
    (fun nd : string * string => (fst nd, async_dig_query domain (snd nd)))
      <$> TEST_DNS in
  dns_results ← gather (snd <$> dns_tasks);
  mret (foldl (fun (d : gmap string (list string))
                   (p : (string * M (string * list string))
                        * (string * list string)) =>
                 <[fst (fst p) := snd (snd p)]> d)
              ∅ (zip dns_tasks dns_results)).

(** The TCP checks of every address on every port, gathered, and their
    results filed under the address. *)
Definition tcp_stage (all_ips : list string)
  : M (gmap string (gmap string pyval)) :=
  let tcp_tasks :=
    flat_map (fun ip => (fun port => async_tcp_connect ip port) <$> TEST_PORTS)
             all_ips in
  tcp_results ← gather tcp_tasks;
  let conn0 : gmap string (gmap string pyval) :=
    foldl (fun c ip => <[ip := ∅]> c) ∅ all_ips in
  for_each (fun c (t : string * Z * bool) =>
              setitem2 c (fst (fst t)) (tcp_key (snd (fst t))) (VBool (snd t)))
           conn0 tcp_results.

(** The TLS and HTTP tasks, built for the addresses whose port answered,
    then the TLS tasks gathered and filed, then the HTTP tasks. *)
Definition tls_http_stage (domain : string) (all_ips : list string)
    (conn : gmap string (gmap string pyval))
  : M (gmap string (gmap string pyval)) :=
  tasks ← for_each
    (fun (acc : list (string * M pyval) * list (string * M (string * bool)))
         ip =>
       c ← getitem conn ip;
       let tls_tasks :=
         if get_truthy (c !! "tcp_443")
         then fst acc ++ [(ip, async_tls_handshake domain)] else fst acc in
       c' ← getitem conn ip;
       let http_tasks :=
         if get_truthy (c' !! "tcp_80")
         then snd acc ++ [(ip, async_http_head ip domain)] else snd acc in
       mret (tls_tasks, http_tasks))
    ([], []) all_ips;
  let tls_tasks := fst tasks in
  let http_tasks := snd tasks in
  conn1 ←
    (if bool_decide (tls_tasks = [])
     then mret conn
     else
       tls_results ← gather (snd <$> tls_tasks);
       for_each (fun c (p : (string * M pyval) * pyval) =>
                   setitem2 c (fst (fst p)) "tls" (snd p))
                conn (zip tls_tasks tls_results));
  if bool_decide (http_tasks = [])
  then mret conn1
  else
    http_results ← gather (snd <$> http_tasks);
    for_each (fun c (p : (string * M (string * bool)) * (string * bool)) =>
                setitem2 c (fst (fst p)) "http"
                         (VTuple (fst (snd p)) (snd (snd p))))
             conn1 (zip http_tasks http_results).

Definition DNS_POLLUTION : string := "DNS污染".
Definition TLS_RESET : string := "TLS-Reset(疑似SNI封锁)".
Definition TCP_FAILED : string := "TCP连接失败".

(** The loop that looks for a record whose [tls] is ["TLS-Reset"], and
    stops at the first. *)
Definition tls_reset_seen (conn : gmap string (gmap string pyval)) : bool :=
  existsb (fun ic => get_eq_str (snd ic !! "tls") "TLS-Reset")
          (map_to_list conn).

(** The loop that clears [all_tcp_failed] at the first record with an open
    port. *)
Definition all_tcp_failed (conn : gmap string (gmap string pyval)) : bool :=
  negb (existsb (fun ic => get_truthy (snd ic !! "tcp_80")
                           || get_truthy (snd ic !! "tcp_443"))
                (map_to_list conn)).

Definition blocked_indicators (dns_pollution : bool)
    (conn : gmap string (gmap string pyval)) : list string :=
  (if dns_pollution then [DNS_POLLUTION] else [])
  ++ (if tls_reset_seen conn then [TLS_RESET] else [])
  ++ (if all_tcp_failed conn then [TCP_FAILED] else []).

(** The summary as it stands after the DNS analysis. *)
Definition dns_summary (all_ips : gset string) : gmap string pyval :=
  <["dns_status" := VStr (if bool_decide (1 < size all_ips)
                          then "疑似 DNS 污染" else "DNS 解析一致")]>
    (<["dns_pollution" := VBool (bool_decide (1 < size all_ips))]>
       (<["all_ips" := VList (elements all_ips)]> ∅)).

(** The summary of a run that reached the end. *)
Definition final_summary (all_ips : gset string)
    (conn : gmap string (gmap string pyval)) (elapsed : Q)
  : gmap string pyval :=
  let dns_pollution := bool_decide (1 < size all_ips) in
  let indicators := blocked_indicators dns_pollution conn in
  let is_blocked := bool_decide (0 < length indicators) in
  <["elapsed_time" := VFloat (py_round2 elapsed)]>
    (<["conclusion" := VStr (if is_blocked
                             then "域名疑似被墙" else "未发现明显封锁")]>
       (<["is_blocked" := VBool is_blocked]>
          (<["blocked_indicators" := VList indicators]>
             (dns_summary all_ips)))).

(** *** [check_domain] *)

Definition check_domain (domain : string) : M report :=
  start_time ← sys_time;
  timestamp ← sys_time;
  dns_dict ← dns_stage domain;
  let all_ips := address_set dns_dict in
  if bool_decide (size all_ips = 0)
  then
    now ← sys_time;
    mret {| r_domain := domain;
            r_dns := dns_dict;
            r_connectivity := ∅;
            r_summary :=
              Some (<["elapsed_time" := VFloat (now - start_time)]>
                      (<["error" := VStr "无法获得有效解析结果"]>
                         (dns_summary all_ips)));
            r_timestamp := Some timestamp |}
  else
    conn ← tcp_stage (elements all_ips);
    conn' ← tls_http_stage domain (elements all_ips) conn;
    now ← sys_time;
    mret {| r_domain := domain;
            r_dns := dns_dict;
            r_connectivity := conn';
            r_summary := Some (final_summary all_ips conn' (now - start_time));
            r_timestamp := Some timestamp |}.

End Api.

(** ** DomainCheckCli.py *)

(** The script's [print] and [time.sleep] calls touch only the terminal and
    are left out; everything that reaches the report is kept. *)
Module Cli.

Definition TEST_DNS : list (string * string) :=
  [("Google(8.8.8.8)", "8.8.8.8");
   ("Cloudflare(1.1.1.1)", "1.1.1.1");
   ("Ali(223.5.5.5)", "223.5.5.5");
   ("114DNS(114.114.114.114)", "114.114.114.114")].

Definition TEST_PORTS : list Z := [80; 443]%Z.

Definition TIMEOUT : Z := 4.

Definition dig_query (domain dns : string) : M (list string) :=
  try_except
    (out ← sys_dig domain dns TIMEOUT;
     let result := split_lines (strip out) in
     mret (filter (fun r => nonempty r) result))
    [(Exception, mret [])].

Definition tcp_connect (ip : string) (port : Z) : M bool :=
  try_except
    (_ ← sys_connect ip port TIMEOUT;
     _ ← sys_close ip port;
     mret true)
    [(Exception, mret false)].

Definition tls_handshake (domain : string) : M pyval :=
  try_except
    (_ ← sys_tls domain TIMEOUT;
     mret (VBool true))
    [(SSLError, mret (VStr "TLS-Reset"));
     (Exception, mret (VBool false))].

(** The bytes of
    [b"HEAD / HTTP/1.1\r\nHost: test\r\nConnection: close\r\n\r\n"]. *)
Definition head_request : string :=
  "HEAD / HTTP/1.1" +:+ CRLF +:+ "Host: test" +:+ CRLF
  +:+ "Connection: close" +:+ CRLF +:+ CRLF.

Definition http_head (ip : string) : M bool :=
  try_except
    (_ ← sys_connect ip 80 TIMEOUT;
     let request := head_request in
     _ ← sys_send ip request;
     resp ← sys_recv ip 50;
     mret (startswith resp "HTTP"))
    [(Exception, mret false)].

(** The body of the loop over the addresses. *)
Definition probe_ip (domain : string)
    (conn : gmap string (gmap string pyval)) (ip : string)
  : M (gmap string (gmap string pyval)) :=
  let conn0 := <[ip := ∅]> conn in
  conn1 ← for_each (fun c p =>
                      ok ← tcp_connect ip p;
                      setitem2 c ip (tcp_key p) (VBool ok))
                   conn0 TEST_PORTS;
  open443 ← tcp_connect ip 443;
  conn2 ← (if open443 : bool
           then tls ← tls_handshake domain; setitem2 conn1 ip "tls" tls
           else mret conn1);
  open80 ← tcp_connect ip 80;
  if open80 : bool
  then head ← http_head ip; setitem2 conn2 ip "http" (VBool head)
  else mret conn2.

Definition run (domain : string) : M report :=
  dns_results ← for_each (fun (d : gmap string (list string))
                              (nd : string * string) =>
                            ips ← dig_query domain (snd nd);
                            mret (<[fst nd := ips]> d))
                         ∅ TEST_DNS;
  let all_ips := address_set dns_results in
  let ips := elements all_ips in
  if bool_decide (ips = [])
  then mret {| r_domain := domain;
               r_dns := dns_results;
               r_connectivity := ∅;
               r_summary := None;
               r_timestamp := None |}
  else
    conn ← for_each (probe_ip domain)
                    (∅ : gmap string (gmap string pyval)) ips;
    mret {| r_domain := domain;
            r_dns := dns_results;
            r_connectivity := conn;
            r_summary := None;
            r_timestamp := None |}.

End Cli.

(** ** The classification of TLS outcomes *)

Inductive tls_class : Type := Success | Reset | OtherFailure.

(** The value that stands for each class in a report. *)
Definition tls_value (c : tls_class) : pyval :=
  match c with
  | Success => VBool true
  | Reset => VStr "TLS-Reset"
  | OtherFailure => VBool false
  end.

(** The exceptions by which a peer's reset or an abrupt end of the
    connection shows. *)
Definition reset_or_abrupt (e : exn) : bool :=
  bool_decide (e = ConnectionResetError)
  || bool_decide (e = ConnectionAbortedError)
  || bool_decide (e = BrokenPipeError)
  || bool_decide (e = SSLEOFError).

(** The rule in the words of the specification: a reset or abrupt
    termination during the handshake phase is [Reset], any other exception
    is [OtherFailure], a completed handshake is [Success]. *)
Definition spec_tls_classify (o : option (tls_phase * exn)) : tls_class :=
  match o with
  | None => Success
  | Some (TlsHandshake, e) => if reset_or_abrupt e then Reset else OtherFailure
  | Some (_, _) => OtherFailure
  end.

(** The rule of the code: the class of the exception decides, whatever the
    phase. *)
Definition code_tls_classify (o : option (tls_phase * exn)) : tls_class :=
  match o with
  | None => Success
  | Some (_, e) => if isinstance e SSLError then Reset else OtherFailure
  end.

(** ** Environments *)

(** Every exception the environment raises is an [Exception]: no
    [KeyboardInterrupt] or [SystemExit] arrives in the middle of a probe. *)
Definition env_io (E : env) : Prop :=
  (forall log d s e, dig_out E log d s = Raise e -> isinstance e Exception = true)
  /\ (forall log h p e, connect_out E log h p = Some e ->
                        isinstance e Exception = true)
  /\ (forall log h s e, send_out E log h s = Some e ->
                        isinstance e Exception = true)
  /\ (forall log h e, recv_out E log h = Raise e ->
                      isinstance e Exception = true)
  /\ (forall log d ph e, tls_out E log d = Some (ph, e) ->
                         isinstance e Exception = true).

(** A network on which nothing resolves: [dig] times out. *)
Definition E_unresolved (t0 t1 : Q) : env := {|
  clock := fun log => if bool_decide (log = []) then t0 else t1;
  dig_out := fun _ _ _ => Raise TimeoutExpired;
  connect_out := fun _ _ _ => Some ConnectionRefusedError;
  send_out := fun _ _ _ => Some BrokenPipeError;
  recv_out := fun _ _ => Raise ConnectionResetError;
  tls_out := fun _ _ => Some (TlsConnect, ConnectionRefusedError)
|}.

(** A network on which every resolver answers [answer], every connection
    succeeds, the web server answers [response] and the TLS attempt ends as
    [tls] says. *)
Definition E_open (answer response : string)
    (tls : option (tls_phase * exn)) : env := {|
  clock := fun log => (inject_Z (Z.of_nat (length log)) / 8)%Q;
  dig_out := fun _ _ _ => Ok answer;
  connect_out := fun _ _ _ => None;
  send_out := fun _ _ _ => None;
  recv_out := fun _ _ => Ok response;
  tls_out := fun _ _ => tls
|}.

(** A network on which the resolvers disagree and no port answers. *)
Definition E_closed : env := {|
  clock := fun log => (inject_Z (Z.of_nat (length log)) / 8)%Q;
  dig_out := fun _ _ dns =>
    if String.eqb dns "8.8.8.8" then Ok "1.2.3.4" else Ok "5.6.7.8";
  connect_out := fun _ _ _ => Some TimeoutError;
  send_out := fun _ _ _ => None;
  recv_out := fun _ _ => Ok "";
  tls_out := fun _ _ => None
|}.

(** A host whose port 443 refuses the first connection and accepts the
    later ones. *)
Definition E_flaky : env := {|
  clock := fun log => (inject_Z (Z.of_nat (length log)) / 8)%Q;
  dig_out := fun _ _ _ => Ok "1.2.3.4";
  connect_out := fun log h p =>
    if bool_decide (p = 443%Z)
       && negb (existsb (fun c => match c with
                                  | CConnect _ 443 _ => true
                                  | _ => false
                                  end) log)
    then Some ConnectionRefusedError else None;
  send_out := fun _ _ _ => None;
  recv_out := fun _ _ => Ok "HTTP/1.1 200 OK";
  tls_out := fun _ _ => None
|}.

(** A network on which every primitive but the clock raises [e]. *)
Definition E_raising (e : exn) : env := {|
  clock := fun log => (inject_Z (Z.of_nat (length log)) / 8)%Q;
  dig_out := fun _ _ _ => Raise e;
  connect_out := fun _ _ _ => Some e;
  send_out := fun _ _ _ => Some e;
  recv_out := fun _ _ => Raise e;
  tls_out := fun _ _ => Some (TlsHandshake, e)
|}.

#[global] Instance call_eq_dec : EqDecision call.
Proof. solve_decision. Defined.

(** The report a computation returned, if it returned one. *)
Definition returned {A : Type} (x : result A * list call) : option A :=
  match fst x with
  | Ok a => Some a
  | Raise _ => None
  end.

(** [report["connectivity"][ip].get(key)], [None] also when the address has
    no record. *)
Definition record_get (r : report) (ip key : string) : option pyval :=
  r_connectivity r !! ip ≫= (fun c => c !! key).

(** [report["summary"].get(key)], [None] also when there is no summary. *)
Definition summary_get (r : report) (key : string) : option pyval :=
  r_summary r ≫= (fun s => s !! key).

(** ** Auxiliary notions for the proofs *)

(** [m] returns a value, whatever the log, and the value satisfies [P]. *)
Definition returns {A : Type} (E : env) (m : M A) (P : A -> Prop) : Prop :=
  forall log, exists a log', m E log = (Ok a, log') /\ P a.

(** What an exception of class [e] becomes under the single clause
    [except Exception: return v]. *)
Definition absorbed {A : Type} (e : exn) (v : A) : result A :=
  if isinstance e Exception then Ok v else Raise e.

(** The three steps of the HTTP probe and what each leaves in the log. *)
Definition http_steps (ip request : string) (E : env) log
  : result bool * list call :=
  let log1 := log ++ [CConnect ip 80 4] in
  match connect_out E log ip 80 with
  | Some e => (absorbed e false, log1)
  | None =>
    let log2 := log1 ++ [CSend ip request] in
    match send_out E log1 ip request with
    | Some e => (absorbed e false, log2)
    | None =>
      let log3 := log2 ++ [CRecv ip 50] in
      match recv_out E log2 ip with
      | Raise e => (absorbed e false, log3)
      | Ok s => (Ok (startswith (substring 0 50 s) "HTTP"), log3)
      end
    end
  end.


(** The HTTP probe's connection, its [send] or its [recv] raises [e]. *)
Definition http_raises (ip request : string) (E : env) (log : list call)
    (e : exn) : Prop :=
  connect_out E log ip 80 = Some e
  \/ (connect_out E log ip 80 = None
      /\ send_out E (log ++ [CConnect ip 80 4]) ip request = Some e)
  \/ (connect_out E log ip 80 = None
      /\ send_out E (log ++ [CConnect ip 80 4]) ip request = None
      /\ recv_out E ((log ++ [CConnect ip 80 4]) ++ [CSend ip request]) ip
         = Raise e).

(** What a loop of assignments [conn[ip][key] = val], one for each item of
    [ps], makes of [conn]: the same addresses, and under each address every
    key either untouched, no item naming it, or holding the value of an item
    that names it. *)
Definition filed {P : Type} (ipf keyf : P -> string) (valf : P -> pyval)
    (ps : list P) (conn conn' : gmap string (gmap string pyval)) : Prop :=
  forall ip,
    match conn !! ip with
    | None => conn' !! ip = None
    | Some c =>
      exists c', conn' !! ip = Some c'
        /\ forall k,
             (c' !! k = c !! k
              /\ forall p, p ∈ ps -> ~ (ipf p = ip /\ keyf p = k))
             \/ (exists p, p ∈ ps /\ ipf p = ip /\ keyf p = k
                           /\ c' !! k = Some (valf p))
    end.

(** The records after the TCP stage: one per address, holding booleans under
    [tcp_80] and [tcp_443] and nothing else. *)
Definition tcp_filed (ips : list string)
    (conn : gmap string (gmap string pyval)) : Prop :=
  (forall ip, ip ∈ ips <-> is_Some (conn !! ip))
  /\ forall ip c k v, conn !! ip = Some c -> c !! k = Some v ->
       (k = "tcp_80" \/ k = "tcp_443") /\ exists b, v = VBool b.

(** The gating invariant on the records of a finished run. *)
Definition gated (ips : list string)
    (conn : gmap string (gmap string pyval)) : Prop :=
  (forall ip, ip ∈ ips <-> is_Some (conn !! ip))
  /\ forall ip c, conn !! ip = Some c ->
       (forall v, c !! "tcp_80" = Some v -> exists b, v = VBool b)
       /\ (forall v, c !! "tcp_443" = Some v -> exists b, v = VBool b)
       /\ (is_Some (c !! "tls") <-> c !! "tcp_443" = Some (VBool true))
       /\ (is_Some (c !! "http") <-> c !! "tcp_80" = Some (VBool true)).

(** [conn[ip].get(key)] is true. *)
Definition port_open (conn : gmap string (gmap string pyval))
    (key ip : string) : bool :=
  get_truthy (conn !! ip ≫= (fun c => c !! key)).

(** The task lists after the loop over the addresses [pre]: a TLS task for
    exactly the addresses whose [tcp_443] is true, an HTTP task for exactly
    those whose [tcp_80] is true, and every task returns. *)
Definition tasks_built (E : env) (conn : gmap string (gmap string pyval))
    (pre : list string)
    (acc : list (string * M pyval) * list (string * M (string * bool)))
  : Prop :=
  (forall ip, ip ∈ (fst acc).*1
              <-> ip ∈ pre /\ port_open conn "tcp_443" ip = true)
  /\ Forall (fun t => returns E (snd t) (fun _ => True)) (fst acc)
  /\ (forall ip, ip ∈ (snd acc).*1
                 <-> ip ∈ pre /\ port_open conn "tcp_80" ip = true)
  /\ Forall (fun t => returns E (snd t) (fun _ => True)) (snd acc).

(** The two shapes of a report of [check_domain]: cut short after the DNS
    stage, or finished. *)
Definition report_shape (r : report) : Prop :=
  let all_ips := address_set (r_dns r) in
  (size all_ips = 0
   /\ r_connectivity r = ∅
   /\ exists elapsed,
        r_summary r
        = Some (<["elapsed_time" := VFloat elapsed]>
                  (<["error" := VStr "无法获得有效解析结果"]>
                     (Api.dns_summary all_ips))))
  \/ (size all_ips <> 0
      /\ gated (elements all_ips) (r_connectivity r)
      /\ exists elapsed,
           r_summary r
           = Some (Api.final_summary all_ips (r_connectivity r) elapsed)).

(** The [dig] calls of the DNS stage, one per resolver. *)
Definition dig_calls (domain : string) : list call :=
  (fun nd : string * string => CDig domain (snd nd) 4) <$> Api.TEST_DNS.

(** ** Call discipline and partial correctness *)

(** Whatever the environment does, [m] only adds calls that satisfy [Q] to
    the log, and a value it returns satisfies [P]. *)
Definition hoare {A : Type} (E : env) (m : M A) (Q : call -> Prop)
    (P : A -> Prop) : Prop :=
  forall log, exists ext,
    snd (m E log) = log ++ ext
    /\ Forall Q ext
    /\ forall a, fst (m E log) = Ok a -> P a.

(** The calls a run for [domain] may make: [request] is what it may send and
    [S] tells the hosts it may contact. *)
Definition allowed (domain request : string) (S : string -> Prop)
    (c : call) : Prop :=
  match c with
  | CTime => True
  | CDig d dns t => d = domain /\ dns ∈ Api.TEST_DNS.*2 /\ t = 4%Z
  | CConnect host port t => S host /\ (port = 80%Z \/ port = 443%Z)
                            /\ t = 4%Z
  | CClose host port => S host /\ (port = 80%Z \/ port = 443%Z)
  | CSend host data => S host /\ data = request
  | CRecv host n => S host /\ n = 50
  | CTls d t => d = domain /\ t = 4%Z
  end.

(** The calls the script's [run domain] may make: those above with the
    script's fixed request, the clock readings left out. *)
Definition cli_allowed (domain : string) (S : string -> Prop) (c : call)
  : Prop :=
  allowed domain Cli.head_request S c /\ c <> CTime.

(** The values of a TLS probe. *)
Definition tls_result (v : pyval) : Prop :=
  v = VBool true \/ v = VStr "TLS-Reset" \/ v = VBool false.

(** A record as the TCP stage leaves it: both ports, booleans, nothing
    else. *)
Definition tcp_record (c : gmap string pyval) : Prop :=
  (exists b, c !! "tcp_80" = Some (VBool b))
  /\ (exists b, c !! "tcp_443" = Some (VBool b))
  /\ forall k, is_Some (c !! k) -> k = "tcp_80" \/ k = "tcp_443".

(** A record of a finished report of the service, filed under [ip]. *)
Definition api_record (ip : string) (c : gmap string pyval) : Prop :=
  (exists b, c !! "tcp_80" = Some (VBool b))
  /\ (exists b, c !! "tcp_443" = Some (VBool b))
  /\ (forall v, c !! "tls" = Some v -> tls_result v)
  /\ (forall v, c !! "http" = Some v -> exists b, v = VTuple ip b)
  /\ forall k, is_Some (c !! k) ->
       k = "tcp_80" \/ k = "tcp_443" \/ k = "tls" \/ k = "http".

(** The connectivity mapping holds a record of shape [R] for exactly the
    addresses [ips]. *)
Definition records_of (R : string -> gmap string pyval -> Prop)
    (ips : list string) (conn : gmap string (gmap string pyval)) : Prop :=
  (forall ip, ip ∈ ips <-> is_Some (conn !! ip))
  /\ forall ip c, conn !! ip = Some c -> R ip c.

(** The task lists, as far as the calls and the results of the tasks go. *)
Definition tasks_disciplined (E : env) (Q : call -> Prop)
    (ips : list string)
    (acc : list (string * M pyval) * list (string * M (string * bool)))
  : Prop :=
  Forall (fun t => fst t ∈ ips /\ hoare E (snd t) Q tls_result) (fst acc)
  /\ Forall (fun t => fst t ∈ ips
                      /\ hoare E (snd t) Q (fun r => fst r = fst t))
            (snd acc).

(** What every report of [check_domain domain] has: the domain, a
    timestamp, an answer for each configured resolver and for no other
    name, and a record for each address of the address set and for no
    other. *)
Definition api_report_ok (domain : string) (r : report) : Prop :=
  r_domain r = domain
  /\ is_Some (r_timestamp r)
  /\ (forall name, is_Some (r_dns r !! name) <-> name ∈ Api.TEST_DNS.*1)
  /\ records_of api_record (elements (address_set (r_dns r)))
                (r_connectivity r).

(** A call of a connectivity probe: neither a clock reading nor a [dig]. *)
Definition probe_call (c : call) : Prop :=
  match c with
  | CTime | CDig _ _ _ => False
  | _ => True
  end.

(** The string holds no line feed. *)
Definition one_line (s : string) : Prop := ~ In LF (list_ascii_of_string s).



(** ** The routes of the service *)

Module ApiRoutes.

(** The request body of [POST /check]. *)
Record DomainRequest : Type := { domain : string }.

(** What a route hands to the framework: the JSON response with the report,
    an [HTTPException] with its status code and detail, or an exception it
    lets through.  [JSONResponse(content=result)] is taken to succeed: a
    report holds only strings, booleans, finite floats, lists, pairs and
    dictionaries with string keys. *)
Inductive outcome : Type :=
| Json (content : report)
| HTTPException (status_code : Z) (detail : string)
| Uncaught (e : exn).

Definition EMPTY_DOMAIN : string := "域名参数不能为空".
Definition FAILED : string := "检测过程中发生错误: ".

(** [GET /check]; [str] is Python's [str] on exceptions. *)
Definition check_domain_get (str : exn -> string) (domain : string)
  : env -> list call -> outcome * list call :=
  fun E log =>
    if negb (nonempty domain) || negb (nonempty (strip domain))
    then (HTTPException 400 EMPTY_DOMAIN, log)
    else
      let domain := strip domain in
      match Api.check_domain domain E log with
      | (Ok result, log') => (Json result, log')
      | (Raise e, log') =>
        if isinstance e Exception
        then (HTTPException 500 (FAILED +:+ str e), log')
        else (Uncaught e, log')
      end.

(** [POST /check] *)
Definition check_domain_post (str : exn -> string) (request : DomainRequest)
  : env -> list call -> outcome * list call :=
  fun E log =>
    let domain := strip (domain request) in
    if negb (nonempty domain)
    then (HTTPException 400 EMPTY_DOMAIN, log)
    else
      match Api.check_domain domain E log with
      | (Ok result, log') => (Json result, log')
      | (Raise e, log') =>
        if isinstance e Exception
        then (HTTPException 500 (FAILED +:+ str e), log')
        else (Uncaught e, log')
      end.

End ApiRoutes.

(** ** DomainCheckGUI.py: the local test and the comparison *)

(** The worker thread's [local_test] and [compare].  The widgets, the
    request to the remote service and the file written at the end are left
    out.  A bare [except:] is a clause for [BaseException]. *)
Module Gui.

Definition TEST_DNS : list (string * string) :=
  [("Google(8.8.8.8)", "8.8.8.8");
   ("Cloudflare(1.1.1.1)", "1.1.1.1");
   ("AliDNS(223.5.5.5)", "223.5.5.5");
   ("114DNS(114.114.114.114)", "114.114.114.114")].

Definition TEST_PORTS : list Z := [80; 443]%Z.

Definition TIMEOUT : Z := 4.

Definition dig_query (domain dns : string) : M (list string) :=
  try_except
    (out ← sys_dig domain dns TIMEOUT;
     let result := split_lines (strip out) in
     mret (filter (fun r => nonempty r) result))
    [(BaseException, mret [])].

Definition tcp_connect (ip : string) (port : Z) : M bool :=
  try_except
    (_ ← sys_connect ip port TIMEOUT;
     _ ← sys_close ip port;
     mret true)
    [(BaseException, mret false)].

Definition tls_handshake (domain : string) : M pyval :=
  try_except
    (_ ← sys_tls domain TIMEOUT;
     mret (VBool true))
    [(SSLError, mret (VStr "TLS-Reset"));
     (BaseException, mret (VBool false))].

(** The dictionary [local_test] returns. *)
Record local_result : Type := {
  l_dns : gmap string (list string);
  l_connectivity : gmap string (gmap string pyval);
  l_all_ips : list string
}.

(** The body of the loop over the addresses. *)
Definition test_ip (domain : string)
    (conn : gmap string (gmap string pyval)) (ip : string)
  : M (gmap string (gmap string pyval)) :=
  let conn0 := <[ip := ∅]> conn in
  conn1 ← for_each (fun c p =>
                      ok ← tcp_connect ip p;
                      setitem2 c ip (tcp_key p) (VBool ok))
                   conn0 TEST_PORTS;
  open443 ← tcp_connect ip 443;
  if open443 : bool
  then tls ← tls_handshake domain; setitem2 conn1 ip "tls" tls
  else mret conn1.

Definition local_test (domain : string) : M local_result :=
  dns ← for_each (fun (d : gmap string (list string))
                      (nd : string * string) =>
                    ips ← dig_query domain (snd nd);
                    mret (<[fst nd := ips]> d))
                 ∅ TEST_DNS;
  let all_ips := address_set dns in
  conn ← for_each (test_ip domain)
                  (∅ : gmap string (gmap string pyval)) (elements all_ips);
  mret {| l_dns := dns;
          l_connectivity := conn;
          l_all_ips := elements all_ips |}.

(** The dictionary [compare] returns. *)
Record comparison : Type := {
  local_ips : list string;
  overseas_ips : list string;
  conclusion : string
}.

(** The addresses in the replies of the remote services.  A reply is the
    [dns] member of the JSON object that came back, [None] when it has none
    (the object [{"error": ...}] made up for a service out of reach, or an
    error body). *)
Definition overseas_set
    (overseas : gmap string (option (gmap string (list string))))
  : gset string :=
  foldr (fun (ar : string * option (gmap string (list string))) acc =>
           match snd ar with
           | Some dns => address_set dns ∪ acc
           | None => acc
           end)
        ∅ (map_to_list overseas).

Definition compare (local : local_result)
    (overseas : gmap string (option (gmap string (list string))))
  : comparison :=
  let local_ips : gset string := list_to_set (l_all_ips local) in
  let overseas_ips := overseas_set overseas in
  {| local_ips := elements local_ips;
     overseas_ips := elements overseas_ips;
     conclusion := if bool_decide (local_ips <> overseas_ips)
                   then "域名疑似被墙" else "未发现明显封锁" |}.

End Gui.

(** A record of the GUI's local test. *)
Definition gui_record (c : gmap string pyval) : Prop :=
  (exists b, c !! "tcp_80" = Some (VBool b))
  /\ (exists b, c !! "tcp_443" = Some (VBool b))
  /\ (forall v, c !! "tls" = Some v -> tls_result v)
  /\ forall k, is_Some (c !! k) ->
       k = "tcp_80" \/ k = "tcp_443" \/ k = "tls".

(** ** [check_domain] over the arithmetic of floats

    [Api.check_domain] computes the elapsed time on rationals.  Here the two
    operations on floats that the function applies to the clock readings are
    left open: [fsub x y] stands for the float [x - y] and [fround2 x] for
    [round(x, 2)], a reading being the rational its float denotes.
    Everything else is as in [Api]. *)
Module ApiFloat.

Definition final_summary (fround2 : Q -> Q) (all_ips : gset string)
    (conn : gmap string (gmap string pyval)) (elapsed : Q)
  : gmap string pyval :=
  let dns_pollution := bool_decide (1 < size all_ips) in
  let indicators := Api.blocked_indicators dns_pollution conn in
  let is_blocked := bool_decide (0 < length indicators) in
  <["elapsed_time" := VFloat (fround2 elapsed)]>
    (<["conclusion" := VStr (if is_blocked
                             then "域名疑似被墙" else "未发现明显封锁")]>
       (<["is_blocked" := VBool is_blocked]>
          (<["blocked_indicators" := VList indicators]>
             (Api.dns_summary all_ips)))).

Definition check_domain (fsub : Q -> Q -> Q) (fround2 : Q -> Q)
    (domain : string) : M report :=
  start_time ← sys_time;
  timestamp ← sys_time;
  dns_dict ← Api.dns_stage domain;
  let all_ips := address_set dns_dict in
  if bool_decide (size all_ips = 0)
  then
    now ← sys_time;
    mret {| r_domain := domain;
            r_dns := dns_dict;
            r_connectivity := ∅;
            r_summary :=
              Some (<["elapsed_time" := VFloat (fsub now start_time)]>
                      (<["error" := VStr "无法获得有效解析结果"]>
                         (Api.dns_summary all_ips)));
            r_timestamp := Some timestamp |}
  else
    conn ← Api.tcp_stage (elements all_ips);
    conn' ← Api.tls_http_stage domain (elements all_ips) conn;
    now ← sys_time;
    mret {| r_domain := domain;
            r_dns := dns_dict;
            r_connectivity := conn';
            r_summary :=
              Some (final_summary fround2 all_ips conn'
                      (fsub now start_time));
            r_timestamp := Some timestamp |}.

End ApiFloat.
(** ** Sample evaluations *)

Example strip_sample :
  strip (String LF "  1.2.3.4 " +:+ CRLF) = "1.2.3.4"
  /\ strip (String "194" (String "160" "a b")) = "a b"
  /\ strip "   " = "".
Proof. by vm_compute. Qed.

Example split_lines_sample :
  split_lines ("1.2.3.4" +:+ String LF "" +:+ String LF "5.6.7.8")
  = ["1.2.3.4"; ""; "5.6.7.8"]
  /\ split_lines "" = [""].
Proof. by vm_compute. Qed.

Example isinstance_sample :
  isinstance SSLCertVerificationError SSLError = true
  /\ isinstance SSLCertVerificationError ValueError = true
  /\ isinstance ConnectionResetError SSLError = false
  /\ isinstance TimeoutError Exception = true
  /\ isinstance KeyboardInterrupt Exception = false.
Proof. by vm_compute. Qed.

Example py_round2_sample :
  py_round2 (1234567 # 1000000) = (123 # 100)%Q
  /\ py_round2 (125 # 1000) = (12 # 100)%Q
  /\ py_round2 (135 # 1000) = (14 # 100)%Q.
Proof. by vm_compute. Qed.

Example dig_query_sample :
  fst (Api.dig_query "example.com" "8.8.8.8"
         (E_open ("1.2.3.4" +:+ String LF " " +:+ String LF "5.6.7.8"
                  +:+ String LF "") "" None) [])
  = Ok ["1.2.3.4"; "5.6.7.8"]
  /\ fst (Cli.dig_query "example.com" "8.8.8.8"
            (E_open ("1.2.3.4" +:+ String LF " " +:+ String LF "5.6.7.8"
                     +:+ String LF "") "" None) [])
     = Ok ["1.2.3.4"; " "; "5.6.7.8"].
Proof. by vm_compute. Qed.

(** Every resolver answers [1.2.3.4], both ports are open, the handshake
    completes and the server answers: nothing is reported. *)
Example check_domain_all_clear :
  (r ← returned (Api.check_domain "example.com"
                   (E_open "1.2.3.4" "HTTP/1.1 200 OK" None) []);
   Some (summary_get r "dns_pollution", summary_get r "blocked_indicators",
         summary_get r "conclusion", record_get r "1.2.3.4" "tls",
         record_get r "1.2.3.4" "http"))
  = Some (Some (VBool false), Some (VList []),
          Some (VStr "未发现明显封锁"), Some (VBool true),
          Some (VTuple "1.2.3.4" true)).
Proof. by vm_compute. Qed.

(** The resolvers disagree and no port answers: two indicators, no [tls]
    and no [http] entry. *)
Example check_domain_all_closed :
  (r ← returned (Api.check_domain "example.com" E_closed []);
   Some (summary_get r "dns_pollution", summary_get r "blocked_indicators",
         summary_get r "is_blocked", record_get r "1.2.3.4" "tcp_443",
         record_get r "1.2.3.4" "tls", record_get r "5.6.7.8" "http"))
  = Some (Some (VBool true),
          Some (VList [Api.DNS_POLLUTION; Api.TCP_FAILED]),
          Some (VBool true), Some (VBool false), None, None).
Proof. by vm_compute. Qed.

(** ** Reasoning about computations *)

Lemma bind_run {A B : Type} (m : M A) (f : A -> M B) (E : env) log :
  (m ≫= f) E log =
  match m E log with
  | (Ok a, log') => f a E log'
  | (Raise e, log') => (Raise e, log')
  end.
Proof. reflexivity. Qed.

Lemma ret_run {A : Type} (a : A) (E : env) log :
  (mret a : M A) E log = (Ok a, log).
Proof. reflexivity. Qed.

Lemma returns_ret {A : Type} (E : env) (a : A) (P : A -> Prop) :
  P a -> returns E (mret a) P.
Proof. intros Ha log. exists a, log. by split. Qed.

Lemma returns_bind {A B : Type} (E : env) (m : M A) (f : A -> M B)
    (P : A -> Prop) (Q : B -> Prop) :
  returns E m P -> (forall a, P a -> returns E (f a) Q) ->
  returns E (m ≫= f) Q.
Proof.
  intros Hm Hf log. destruct (Hm log) as (a & log1 & Hrun & Ha).
  destruct (Hf a Ha log1) as (b & log2 & Hrun2 & Hb).
  exists b, log2. rewrite bind_run, Hrun. by split.
Qed.

Lemma returns_mono {A : Type} (E : env) (m : M A) (P Q : A -> Prop) :
  returns E m P -> (forall a, P a -> Q a) -> returns E m Q.
Proof.
  intros Hm HPQ log. destruct (Hm log) as (a & log1 & Hrun & Ha).
  exists a, log1. split; [done | by apply HPQ].
Qed.

Lemma returns_gather {A : Type} (E : env) (tasks : list (M A))
    (P : A -> Prop) :
  Forall (fun t => returns E t P) tasks ->
  returns E (gather tasks)
          (fun l => length l = length tasks /\ Forall P l).
Proof.
  induction 1 as [| t ts Ht _ IH]; simpl.
  - apply returns_ret. by split.
  - eapply returns_bind; [exact Ht |]. intros a Ha.
    eapply returns_bind; [exact IH |]. intros l [Hlen Hl].
    apply returns_ret. split; [simpl; by rewrite Hlen | by constructor].
Qed.


(** ** The probes, run *)

Lemma api_dig_query_run domain dns (E : env) log :
  Api.dig_query domain dns E log =
  (match dig_out E log domain dns with
   | Ok out =>
     Ok (filter (fun r => nonempty r && nonempty (strip r))
                (split_lines (strip out)))
   | Raise e => absorbed e []
   end, log ++ [CDig domain dns Api.TIMEOUT]).
Proof.
  unfold Api.dig_query, try_except, sys_dig, absorbed.
  rewrite bind_run. destruct (dig_out E log domain dns) as [out | e]; [done |].
  simpl. by destruct (isinstance e Exception).
Qed.

Lemma cli_dig_query_run domain dns (E : env) log :
  Cli.dig_query domain dns E log =
  (match dig_out E log domain dns with
   | Ok out => Ok (filter (fun r => nonempty r) (split_lines (strip out)))
   | Raise e => absorbed e []
   end, log ++ [CDig domain dns Cli.TIMEOUT]).
Proof.
  unfold Cli.dig_query, try_except, sys_dig, absorbed.
  rewrite bind_run. destruct (dig_out E log domain dns) as [out | e]; [done |].
  simpl. by destruct (isinstance e Exception).
Qed.

Lemma api_tcp_connect_run ip port (E : env) log :
  Api.tcp_connect ip port E log =
  match connect_out E log ip port with
  | None =>
    (Ok true, (log ++ [CConnect ip port Api.TIMEOUT]) ++ [CClose ip port])
  | Some e => (absorbed e false, log ++ [CConnect ip port Api.TIMEOUT])
  end.
Proof.
  unfold Api.tcp_connect, try_except, sys_connect, sys_close, absorbed.
  rewrite bind_run. destruct (connect_out E log ip port) as [e |]; [| done].
  simpl. by destruct (isinstance e Exception).
Qed.

Lemma cli_tcp_connect_run ip port (E : env) log :
  Cli.tcp_connect ip port E log = Api.tcp_connect ip port E log.
Proof. reflexivity. Qed.

Lemma api_tls_handshake_run domain (E : env) log :
  Api.tls_handshake domain E log =
  (match tls_out E log domain with
   | None => Ok (VBool true)
   | Some (_, e) =>
     if isinstance e SSLError then Ok (VStr "TLS-Reset")
     else absorbed e (VBool false)
   end, log ++ [CTls domain Api.TIMEOUT]).
Proof.
  unfold Api.tls_handshake, try_except, sys_tls, absorbed.
  rewrite bind_run. destruct (tls_out E log domain) as [[ph e] |]; [| done].
  simpl. destruct (isinstance e SSLError); [done |].
  by destruct (isinstance e Exception).
Qed.

Lemma cli_tls_handshake_run domain (E : env) log :
  Cli.tls_handshake domain E log = Api.tls_handshake domain E log.
Proof. reflexivity. Qed.

Lemma api_http_head_run ip domain (E : env) log :
  Api.http_head ip domain E log =
  http_steps ip (Api.head_request domain) E log.
Proof.
  unfold Api.http_head, http_steps, try_except, sys_connect, sys_send,
    sys_recv, absorbed, Api.TIMEOUT.
  rewrite bind_run. destruct (connect_out E log ip 80) as [e |]; simpl.
  { by destruct (isinstance e Exception). }
  rewrite bind_run.
  destruct (send_out E _ ip _) as [e |]; simpl.
  { by destruct (isinstance e Exception). }
  rewrite bind_run.
  destruct (recv_out E _ ip) as [s | e]; simpl; [done |].
  by destruct (isinstance e Exception).
Qed.

Lemma cli_http_head_run ip (E : env) log :
  Cli.http_head ip E log = http_steps ip Cli.head_request E log.
Proof.
  unfold Cli.http_head, http_steps, try_except, sys_connect, sys_send,
    sys_recv, absorbed, Cli.TIMEOUT.
  rewrite bind_run. destruct (connect_out E log ip 80) as [e |]; simpl.
  { by destruct (isinstance e Exception). }
  rewrite bind_run.
  destruct (send_out E _ ip _) as [e |]; simpl.
  { by destruct (isinstance e Exception). }
  rewrite bind_run.
  destruct (recv_out E _ ip) as [s | e]; simpl; [done |].
  by destruct (isinstance e Exception).
Qed.

Lemma returns_for_each_prefix {A B : Type} (E : env) (f : A -> B -> M A)
    (I : list B -> A -> Prop) (xs : list B) (a : A) :
  I [] a ->
  (forall pre x a', I pre a' -> x ∈ xs -> returns E (f a' x) (I (pre ++ [x]))) ->
  returns E (for_each f a xs) (I xs).
Proof.
  intros Ha Hstep.
  assert (forall ys pre a', I pre a' -> (forall y, y ∈ ys -> y ∈ xs) ->
            returns E (for_each f a' ys) (I (pre ++ ys))) as Hgen.
  { induction ys as [| y ys IH]; intros pre a' Ha' Hsub; simpl.
    - rewrite app_nil_r. by apply returns_ret.
    - eapply returns_bind.
      + apply Hstep; [done | apply Hsub; by left].
      + intros a'' Ha''. replace (pre ++ y :: ys) with ((pre ++ [y]) ++ ys)
          by (by rewrite <- app_assoc).
        apply IH; [done |]. intros z Hz. apply Hsub. by right. }
  apply (Hgen xs [] a Ha). auto.
Qed.

(** *** The probes return, on an environment that raises only [Exception]s *)

Lemma api_dig_query_returns (E : env) domain dns :
  env_io E -> returns E (Api.dig_query domain dns) (fun _ => True).
Proof.
  intros (Hdig & _) log. rewrite api_dig_query_run.
  destruct (dig_out E log domain dns) as [out | e] eqn:Hout; [by eauto |].
  unfold absorbed. rewrite (Hdig _ _ _ _ Hout). by eauto.
Qed.

Lemma api_tcp_connect_returns (E : env) ip port :
  env_io E -> returns E (Api.tcp_connect ip port) (fun _ => True).
Proof.
  intros (_ & Hconn & _) log. rewrite api_tcp_connect_run.
  destruct (connect_out E log ip port) as [e |] eqn:Hout; [| by eauto].
  unfold absorbed. rewrite (Hconn _ _ _ _ Hout). by eauto.
Qed.

Lemma api_tls_handshake_returns (E : env) domain :
  env_io E -> returns E (Api.tls_handshake domain) (fun _ => True).
Proof.
  intros (_ & _ & _ & _ & Htls) log. rewrite api_tls_handshake_run.
  destruct (tls_out E log domain) as [[ph e] |] eqn:Hout; [| by eauto].
  destruct (isinstance e SSLError); [by eauto |].
  unfold absorbed. rewrite (Htls _ _ _ _ Hout). by eauto.
Qed.

Lemma http_steps_returns (E : env) ip request :
  env_io E -> returns E (http_steps ip request) (fun _ => True).
Proof.
  intros (_ & Hconn & Hsend & Hrecv & _) log. unfold http_steps, absorbed.
  destruct (connect_out E log ip 80) as [e |] eqn:Hc.
  { rewrite (Hconn _ _ _ _ Hc). by eauto. }
  destruct (send_out E _ ip request) as [e |] eqn:Hs.
  { rewrite (Hsend _ _ _ _ Hs). by eauto. }
  destruct (recv_out E _ ip) as [s | e] eqn:Hr; [by eauto |].
  rewrite (Hrecv _ _ _ Hr). by eauto.
Qed.

Lemma api_http_head_returns (E : env) ip domain :
  env_io E -> returns E (Api.http_head ip domain) (fun _ => True).
Proof.
  intros HE log. rewrite api_http_head_run.
  by apply http_steps_returns.
Qed.

(** *** Filing results into the records *)

Lemma setitem2_some (conn : gmap string (gmap string pyval)) ip k v c :
  conn !! ip = Some c ->
  setitem2 conn ip k v = mret (<[ip := <[k := v]> c]> conn).
Proof. intros Hc. unfold setitem2. by rewrite Hc. Qed.

Lemma getitem_some (conn : gmap string (gmap string pyval)) ip c :
  conn !! ip = Some c -> getitem conn ip = mret c.
Proof. intros Hc. unfold getitem. by rewrite Hc. Qed.

Lemma for_each_setitem2 {P : Type} (E : env) (ipf keyf : P -> string)
    (valf : P -> pyval) (ps : list P)
    (conn : gmap string (gmap string pyval)) :
  (forall p, p ∈ ps -> is_Some (conn !! ipf p)) ->
  returns E (for_each (fun c p => setitem2 c (ipf p) (keyf p) (valf p)) conn ps)
          (filed ipf keyf valf ps conn).
Proof.
  revert conn. induction ps as [| p ps IH]; intros conn Hdom; simpl.
  - apply returns_ret. intros ip. destruct (conn !! ip) as [c |]; [| done].
    exists c. split; [done |]. intros k. left. split; [done |].
    intros p Hp. by apply elem_of_nil in Hp.
  - destruct (Hdom p) as [c0 Hc0]; [by left |].
    apply (returns_bind E _ _
             (fun a => a = <[ipf p := <[keyf p := valf p]> c0]> conn)).
    { rewrite (setitem2_some _ _ _ _ _ Hc0). by apply returns_ret. }
    intros ? ->.
    eapply returns_mono.
    { apply IH. intros q Hq.
      destruct (decide (ipf p = ipf q)) as [Heq | Hne].
      - rewrite <- Heq, lookup_insert_eq. by eauto.
      - rewrite lookup_insert_ne by done. apply Hdom. by right. }
    intros conn' Hfiled ip. specialize (Hfiled ip).
    destruct (decide (ipf p = ip)) as [Heq | Hne].
    + subst ip. rewrite lookup_insert_eq in Hfiled. rewrite Hc0.
      destruct Hfiled as (c' & Hc' & Hkeys). exists c'. split; [done |].
      intros k. destruct (Hkeys k) as [[Hsame Hnone] | (q & Hq & Hqi & Hqk & Hv)].
      * destruct (decide (keyf p = k)) as [Hk | Hk].
        -- right. exists p. subst k. rewrite lookup_insert_eq in Hsame.
           repeat split; [by left | done].
        -- left. rewrite lookup_insert_ne in Hsame by done.
           split; [done |]. intros q Hq [Hqi Hqk].
           apply elem_of_cons in Hq as [-> | Hq]; [done |].
           by apply (Hnone q Hq).
      * right. exists q. repeat split; [by right | done..].
    + rewrite lookup_insert_ne in Hfiled by done.
      destruct (conn !! ip) as [c |]; [| done].
      destruct Hfiled as (c' & Hc' & Hkeys). exists c'. split; [done |].
      intros k. destruct (Hkeys k) as [[Hsame Hnone] | (q & Hq & Hqi & Hqk & Hv)].
      * left. split; [done |]. intros q Hq [Hqi Hqk].
        apply elem_of_cons in Hq as [-> | Hq]; [done |].
        by apply (Hnone q Hq).
      * right. exists q. repeat split; [by right | done..].
Qed.

Lemma filed_nil {P : Type} (ipf keyf : P -> string) (valf : P -> pyval)
    (conn : gmap string (gmap string pyval)) :
  filed ipf keyf valf [] conn conn.
Proof.
  intros ip. destruct (conn !! ip) as [c |]; [| done].
  exists c. split; [done |]. intros k. left. split; [done |].
  intros p Hp. by apply elem_of_nil in Hp.
Qed.

(** Filing the results of gated tasks under one key [K]. *)
Lemma filed_const_key {T R : Type} (tl : list (string * T)) (rs : list R)
    (valf : (string * T) * R -> pyval) (K : string)
    (conn conn1 : gmap string (gmap string pyval)) :
  length rs = length tl ->
  filed (fun p => fst (fst p)) (fun _ => K) valf (zip tl rs) conn conn1 ->
  forall ip,
    match conn !! ip with
    | None => conn1 !! ip = None
    | Some c =>
      exists c1, conn1 !! ip = Some c1
        /\ (forall k, k ≠ K -> c1 !! k = c !! k)
        /\ (ip ∈ tl.*1 -> is_Some (c1 !! K))
        /\ (ip ∉ tl.*1 -> c1 !! K = c !! K)
    end.
Proof.
  intros Hlen Hfiled ip. specialize (Hfiled ip).
  destruct (conn !! ip) as [c |]; [| done].
  destruct Hfiled as (c1 & Hc1 & Hkeys). exists c1. split; [done |].
  assert ((zip tl rs).*1 = tl) as Hzip by (apply fst_zip; lia).
  repeat split.
  - intros k Hk. destruct (Hkeys k) as [[Hsame _] | (p & _ & _ & HK & _)];
      [done | congruence].
  - intros Hin. apply list_elem_of_fmap in Hin as (t & -> & Ht).
    rewrite <- Hzip in Ht. apply list_elem_of_fmap in Ht as (p & -> & Hp).
    destruct (Hkeys K) as [[_ Hnone] | (q & _ & _ & _ & Hv)]; [| by eauto].
    by destruct (Hnone p Hp).
  - intros Hnotin.
    destruct (Hkeys K) as [[Hsame _] | ([t r] & Hq & Hqi & _ & _)]; [done |].
    destruct Hnotin. apply list_elem_of_fmap. exists t.
    split; [done |]. by apply elem_of_zip_l in Hq.
Qed.

Lemma port_open_lookup (conn : gmap string (gmap string pyval)) key ip c :
  conn !! ip = Some c -> port_open conn key ip = get_truthy (c !! key).
Proof. intros Hc. unfold port_open. by rewrite Hc. Qed.

Lemma gating_from_filed {T U R S : Type} (ips : list string)
    (tl : list (string * T)) (rs : list R) (hl : list (string * U))
    (hrs : list S) (tv : (string * T) * R -> pyval)
    (hv : (string * U) * S -> pyval)
    (conn conn1 conn2 : gmap string (gmap string pyval)) :
  tcp_filed ips conn ->
  (forall ip, ip ∈ tl.*1 <-> ip ∈ ips /\ port_open conn "tcp_443" ip = true) ->
  (forall ip, ip ∈ hl.*1 <-> ip ∈ ips /\ port_open conn "tcp_80" ip = true) ->
  length rs = length tl -> length hrs = length hl ->
  filed (fun p => fst (fst p)) (fun _ => "tls") tv (zip tl rs) conn conn1 ->
  filed (fun p => fst (fst p)) (fun _ => "http") hv (zip hl hrs) conn1 conn2 ->
  gated ips conn2.
Proof.
  intros [Hdom Htcp] Htl Hhl Hlen1 Hlen2 F1 F2.
  pose proof (filed_const_key _ _ _ _ _ _ Hlen1 F1) as G1.
  pose proof (filed_const_key _ _ _ _ _ _ Hlen2 F2) as G2.
  split.
  - intros ip. rewrite Hdom. specialize (G1 ip). specialize (G2 ip).
    destruct (conn !! ip) as [c |].
    + destruct G1 as (c1 & Hc1 & _). rewrite Hc1 in G2.
      destruct G2 as (c2 & -> & _). split; by eauto.
    + rewrite G1 in G2. rewrite G2. done.
  - intros ip c2 Hc2. specialize (G1 ip). specialize (G2 ip).
    destruct (conn !! ip) as [c |] eqn:Hc;
      [| rewrite G1 in G2; congruence].
    destruct G1 as (c1 & Hc1 & Hk1 & Hin1 & Hout1). rewrite Hc1 in G2.
    destruct G2 as (c2' & Hc2' & Hk2 & Hin2 & Hout2).
    assert (c2' = c2) as -> by congruence.
    assert (ip ∈ ips) as Hip by (apply Hdom; by eauto).
    assert (forall k, k ≠ "tls" -> k ≠ "http" -> c2 !! k = c !! k) as Hsame.
    { intros k Ht Hh. by rewrite Hk2, Hk1. }
    assert (c !! "tls" = None /\ c !! "http" = None) as [Hnt Hnh].
    { split.
      - destruct (c !! "tls") as [v |] eqn:Hv; [| done].
        by destruct (Htcp ip c "tls" v Hc Hv) as [[? | ?] _].
      - destruct (c !! "http") as [v |] eqn:Hv; [| done].
        by destruct (Htcp ip c "http" v Hc Hv) as [[? | ?] _]. }
    assert (forall key, (key = "tcp_80" \/ key = "tcp_443") ->
              port_open conn key ip = true <-> c !! key = Some (VBool true))
      as Hopen.
    { intros key Hkey. rewrite (port_open_lookup _ _ _ _ Hc).
      destruct (c !! key) as [v |] eqn:Hv; simpl; [| by split].
      destruct (Htcp ip c key v Hc Hv) as [_ [b ->]]. simpl.
      split; [by intros -> | by intros [= ->]]. }
    rewrite !Hsame by done. repeat split.
    + intros v Hv. by destruct (Htcp ip c _ v Hc Hv) as [_ ?].
    + intros v Hv. by destruct (Htcp ip c _ v Hc Hv) as [_ ?].
    + rewrite Hk2 by done. intros Hsome.
      destruct (decide (ip ∈ tl.*1)) as [Hin | Hnotin].
      * apply Hopen; [by right |]. by apply Htl.
      * rewrite (Hout1 Hnotin), Hnt in Hsome. by destruct Hsome.
    + rewrite Hk2 by done. intros Hv. apply Hin1, Htl.
      split; [done |]. apply Hopen; [by right | done].
    + intros Hsome.
      destruct (decide (ip ∈ hl.*1)) as [Hin | Hnotin].
      * apply Hopen; [by left |]. by apply Hhl.
      * rewrite (Hout2 Hnotin), Hk1, Hnh in Hsome by done.
        by destruct Hsome.
    + intros Hv. apply Hin2, Hhl.
      split; [done |]. apply Hopen; [by left | done].
Qed.

(** *** The stages of [check_domain] return *)

Lemma api_dns_stage_returns (E : env) domain :
  env_io E -> returns E (Api.dns_stage domain) (fun _ => True).
Proof.
  intros HE. unfold Api.dns_stage.
  eapply returns_bind; [| intros; by apply returns_ret].
  apply (returns_gather E _ (fun _ => True)). simpl.
  repeat (apply List.Forall_cons;
          [unfold Api.async_dig_query; eapply returns_bind;
           [by apply api_dig_query_returns | intros; by apply returns_ret] |]).
  apply List.Forall_nil.
Qed.

Lemma lookup_fresh_records (ips : list string)
    (conn : gmap string (gmap string pyval)) ip :
  foldl (fun c x => <[x := ∅]> c) conn ips !! ip
  = if decide (ip ∈ ips) then Some ∅ else conn !! ip.
Proof.
  revert conn. induction ips as [| x ips IH]; intros conn; cbn [foldl].
  - case_decide as Hin; [by apply elem_of_nil in Hin | done].
  - rewrite IH. destruct (decide (ip ∈ ips)) as [Hin | Hnotin].
    + rewrite decide_True; [done | by right].
    + destruct (decide (x = ip)) as [-> | Hne].
      * rewrite lookup_insert_eq. rewrite decide_True; [done | by left].
      * rewrite lookup_insert_ne by done. rewrite decide_False; [done |].
        intros [-> | Hin]%elem_of_cons; done.
Qed.

Lemma api_tcp_tasks_return (E : env) (ips : list string) :
  env_io E ->
  Forall (fun t => returns E t
            (fun r : string * Z * bool =>
               fst (fst r) ∈ ips
               /\ (snd (fst r) = 80%Z \/ snd (fst r) = 443%Z)))
    (flat_map (fun ip => (fun port => Api.async_tcp_connect ip port)
                           <$> Api.TEST_PORTS) ips).
Proof.
  intros HE. apply Forall_forall. intros t Ht.
  apply list_elem_of_In, in_flat_map in Ht as (ip & Hip & Ht).
  apply list_elem_of_In in Hip.
  simpl in Ht. destruct Ht as [<- | [<- | []]]; unfold Api.async_tcp_connect;
    (eapply returns_bind; [by apply api_tcp_connect_returns |]);
    intros b _; apply returns_ret; simpl; auto.
Qed.

Lemma api_tcp_stage_returns (E : env) (ips : list string) :
  env_io E -> returns E (Api.tcp_stage ips) (tcp_filed ips).
Proof.
  intros HE. unfold Api.tcp_stage.
  eapply returns_bind.
  { apply returns_gather. by apply api_tcp_tasks_return. }
  intros results [_ Hres]. rewrite Forall_forall in Hres.
  eapply returns_mono.
  { apply (for_each_setitem2 E (fun t : string * Z * bool => fst (fst t))
             (fun t => tcp_key (snd (fst t))) (fun t => VBool (snd t))).
    intros t Ht. rewrite lookup_fresh_records.
    rewrite decide_True by (by apply Hres). by eauto. }
  intros conn Hfiled. split.
  - intros ip. specialize (Hfiled ip). rewrite lookup_fresh_records in Hfiled.
    destruct (decide (ip ∈ ips)) as [Hin | Hnotin].
    + destruct Hfiled as (c & -> & _). split; by eauto.
    + rewrite lookup_empty in Hfiled. rewrite Hfiled. split; [done |].
      by intros [? ?].
  - intros ip c k v Hc Hv. specialize (Hfiled ip).
    rewrite lookup_fresh_records in Hfiled.
    destruct (decide (ip ∈ ips)) as [Hin | Hnotin];
      [| rewrite lookup_empty in Hfiled; congruence].
    destruct Hfiled as (c' & Hc' & Hkeys).
    assert (c' = c) as -> by congruence.
    destruct (Hkeys k) as [[Hsame _] | (t & Ht & _ & Hk & Hval)].
    + rewrite lookup_empty in Hsame. congruence.
    + destruct (Hres t Ht) as [_ Hport]. split.
      * rewrite <- Hk. destruct Hport as [-> | ->]; [by left | by right].
      * exists (snd t). congruence.
Qed.

Lemma task_list_step {T : Type} (conn : gmap string (gmap string pyval))
    (key : string) (pre : list string) (l : list (string * T)) x (t : T) :
  (forall ip, ip ∈ l.*1 <-> ip ∈ pre /\ port_open conn key ip = true) ->
  forall ip,
    ip ∈ (if port_open conn key x then l ++ [(x, t)] else l).*1
    <-> ip ∈ pre ++ [x] /\ port_open conn key ip = true.
Proof.
  intros Hl ip. destruct (port_open conn key x) eqn:Hx.
  - rewrite fmap_app, !elem_of_app, Hl. simpl.
    rewrite !list_elem_of_singleton. split.
    + intros [[? ?] | ->]; auto.
    + intros [[? | ->] ?]; auto.
  - rewrite Hl, elem_of_app, list_elem_of_singleton. split.
    + intros [? ?]; auto.
    + intros [[? | ->] ?]; [auto | congruence].
Qed.

Lemma task_list_returns {T : Type} (P : string * T -> Prop) (b : bool)
    (l : list (string * T)) (xt : string * T) :
  Forall P l -> P xt -> Forall P (if b then l ++ [xt] else l).
Proof.
  intros Hl Hxt. destruct b; [| done].
  apply Forall_app. split; [done | by constructor].
Qed.

Lemma api_tls_http_stage_returns (E : env) domain (ips : list string)
    (conn : gmap string (gmap string pyval)) :
  env_io E -> tcp_filed ips conn ->
  returns E (Api.tls_http_stage domain ips conn) (gated ips).
Proof.
  intros HE Htcp. pose proof Htcp as [Hdom _]. unfold Api.tls_http_stage.
  eapply returns_bind.
  { apply (returns_for_each_prefix E _ (tasks_built E conn)).
    - unfold tasks_built. simpl.
      split; [| split; [by constructor | split; [| by constructor]]];
        (intros ip; split;
         [intros Hin; by apply elem_of_nil in Hin
         | intros [Hin _]; by apply elem_of_nil in Hin]).
    - intros pre x [tl hl] (Htl & Hrtl & Hhl & Hrhl) Hx.
      apply Hdom in Hx as [c Hc]. cbn beta.
      rewrite (getitem_some _ _ _ Hc). intros log.
      eexists _, log. split; [reflexivity |].
      rewrite <- !(port_open_lookup conn _ x c Hc).
      unfold tasks_built. simpl in *. split; [| split; [| split]].
      + by apply task_list_step.
      + apply task_list_returns; [done |]. simpl.
        unfold Api.async_tls_handshake. eapply returns_bind;
          [by apply api_tls_handshake_returns | intros; by apply returns_ret].
      + by apply task_list_step.
      + apply task_list_returns; [done |]. simpl.
        unfold Api.async_http_head. eapply returns_bind;
          [by apply api_http_head_returns | intros; by apply returns_ret]. }
  intros [tl hl] (Htl & Hrtl & Hhl & Hrhl). simpl in *.
  apply (returns_bind E _ _
           (fun conn1 => exists rs : list pyval,
              length rs = length tl
              /\ filed (fun p => fst (fst p)) (fun _ => "tls") snd
                       (zip tl rs) conn conn1)).
  { case_bool_decide as Hnil.
    - subst tl. apply returns_ret. exists []. split; [done | apply filed_nil].
    - eapply returns_bind.
      { apply (returns_gather E _ (fun _ => True)). by apply Forall_fmap. }
      intros rs [Hlen _]. rewrite length_fmap in Hlen.
      eapply returns_mono.
      { apply (for_each_setitem2 E
                 (fun p : (string * M pyval) * pyval => fst (fst p))
                 (fun _ => "tls") snd).
        intros [t r] Hp. apply elem_of_zip_l in Hp. simpl.
        apply Hdom, (proj1 (Htl (fst t))), list_elem_of_fmap. by exists t. }
      intros conn1 F1. by exists rs. }
  intros conn1 (rs & Hlen1 & F1).
  apply (returns_mono E _
           (fun conn2 => exists hrs : list (string * bool),
              length hrs = length hl
              /\ filed (fun p => fst (fst p)) (fun _ => "http")
                       (fun p => VTuple (fst (snd p)) (snd (snd p)))
                       (zip hl hrs) conn1 conn2)).
  { case_bool_decide as Hnil.
    - subst hl. apply returns_ret. exists []. split; [done | apply filed_nil].
    - eapply returns_bind.
      { apply (returns_gather E _ (fun _ => True)). by apply Forall_fmap. }
      intros hrs [Hlen _]. rewrite length_fmap in Hlen.
      eapply returns_mono.
      { apply (for_each_setitem2 E
                 (fun p : (string * M (string * bool)) * (string * bool) =>
                    fst (fst p))
                 (fun _ => "http")
                 (fun p => VTuple (fst (snd p)) (snd (snd p)))).
        intros [t r] Hp. apply elem_of_zip_l in Hp. simpl.
        assert (is_Some (conn !! fst t)) as [c Hc].
        { apply Hdom, (proj1 (Hhl (fst t))), list_elem_of_fmap. by exists t. }
        specialize (F1 (fst t)). rewrite Hc in F1.
        destruct F1 as (c1 & -> & _). by eauto. }
      intros conn2 F2. by exists hrs. }
  intros conn2 (hrs & Hlen2 & F2).
  by eapply (gating_from_filed ips tl rs hl hrs).
Qed.

Lemma sys_time_returns (E : env) : returns E sys_time (fun _ => True).
Proof. intros log. by eexists _, _. Qed.

Lemma api_check_domain_returns (E : env) domain :
  env_io E -> returns E (Api.check_domain domain) report_shape.
Proof.
  intros HE. unfold Api.check_domain.
  eapply returns_bind; [apply sys_time_returns |]. intros start_time _.
  eapply returns_bind; [apply sys_time_returns |]. intros timestamp _.
  eapply returns_bind; [by apply api_dns_stage_returns |]. intros dns_dict _.
  case_bool_decide as Hsize.
  - eapply returns_bind; [apply sys_time_returns |]. intros now _.
    apply returns_ret. left. simpl.
    split; [done | split; [done | by eexists]].
  - eapply returns_bind; [by apply api_tcp_stage_returns |]. intros conn Hconn.
    eapply returns_bind; [by apply api_tls_http_stage_returns |].
    intros conn' Hgated.
    eapply returns_bind; [apply sys_time_returns |]. intros now _.
    apply returns_ret. right. simpl.
    split; [done | split; [done | by eexists]].
Qed.

(** *** The address set and the summary *)

Lemma elem_of_address_set (d : gmap string (list string)) ip :
  ip ∈ address_set d <-> exists name ips, d !! name = Some ips /\ ip ∈ ips.
Proof.
  unfold address_set. rewrite elem_of_list_to_set, list_elem_of_In, in_concat.
  split.
  - intros (ips & Hips & Hip).
    apply list_elem_of_In, list_elem_of_fmap in Hips as ([name ips'] & -> & Hd).
    apply elem_of_map_to_list in Hd. exists name, ips'.
    split; [done | by apply list_elem_of_In].
  - intros (name & ips & Hd & Hip). exists ips. split.
    + apply list_elem_of_In, list_elem_of_fmap. exists (name, ips).
      split; [done | by apply elem_of_map_to_list].
    + by apply list_elem_of_In.
Qed.

Lemma dns_summary_lookup (all_ips : gset string) :
  Api.dns_summary all_ips !! "all_ips" = Some (VList (elements all_ips))
  /\ Api.dns_summary all_ips !! "dns_pollution"
     = Some (VBool (bool_decide (1 < size all_ips)))
  /\ is_Some (Api.dns_summary all_ips !! "dns_status")
  /\ Api.dns_summary all_ips !! "blocked_indicators" = None
  /\ Api.dns_summary all_ips !! "is_blocked" = None
  /\ Api.dns_summary all_ips !! "conclusion" = None.
Proof.
  unfold Api.dns_summary. repeat split; by simplify_map_eq.
Qed.

Lemma final_summary_lookup (all_ips : gset string)
    (conn : gmap string (gmap string pyval)) (elapsed : Q) :
  let indicators :=
    Api.blocked_indicators (bool_decide (1 < size all_ips)) conn in
  Api.final_summary all_ips conn elapsed !! "dns_pollution"
  = Some (VBool (bool_decide (1 < size all_ips)))
  /\ Api.final_summary all_ips conn elapsed !! "blocked_indicators"
     = Some (VList indicators)
  /\ Api.final_summary all_ips conn elapsed !! "is_blocked"
     = Some (VBool (bool_decide (0 < length indicators)))
  /\ Api.final_summary all_ips conn elapsed !! "elapsed_time"
     = Some (VFloat (py_round2 elapsed)).
Proof.
  unfold Api.final_summary, Api.dns_summary. repeat split; by simplify_map_eq.
Qed.

Lemma get_truthy_bool (o : option pyval) :
  (forall v, o = Some v -> exists b, v = VBool b) ->
  get_truthy o = true <-> o = Some (VBool true).
Proof.
  intros Hbool. destruct o as [v |]; simpl; [| by split].
  destruct (Hbool v eq_refl) as [b ->]. simpl.
  split; [by intros -> | by intros [= ->]].
Qed.

Lemma tls_reset_seen_iff (conn : gmap string (gmap string pyval)) :
  Api.tls_reset_seen conn = true
  <-> exists ip c, conn !! ip = Some c /\ c !! "tls" = Some (VStr "TLS-Reset").
Proof.
  unfold Api.tls_reset_seen. rewrite existsb_exists. split.
  - intros ([ip c] & Hin & Heq). exists ip, c.
    apply list_elem_of_In, elem_of_map_to_list in Hin. split; [done |].
    simpl in Heq. destruct (c !! "tls") as [[| s | | |] |]; try done.
    simpl in Heq. apply String.eqb_eq in Heq. by subst s.
  - intros (ip & c & Hc & Htls). exists (ip, c). split.
    + by apply list_elem_of_In, elem_of_map_to_list.
    + simpl. by rewrite Htls.
Qed.

Lemma all_tcp_failed_iff (conn : gmap string (gmap string pyval)) :
  Api.all_tcp_failed conn = true
  <-> forall ip c, conn !! ip = Some c ->
        get_truthy (c !! "tcp_80") = false
        /\ get_truthy (c !! "tcp_443") = false.
Proof.
  unfold Api.all_tcp_failed. rewrite negb_true_iff. split.
  - intros Hnone ip c Hc. apply orb_false_iff.
    destruct (get_truthy (c !! "tcp_80") || get_truthy (c !! "tcp_443"))
      eqn:Hopen; [| done].
    assert (existsb (fun ic => get_truthy (snd ic !! "tcp_80")
                               || get_truthy (snd ic !! "tcp_443"))
                    (map_to_list conn) = true) as Hex; [| congruence].
    apply existsb_exists. exists (ip, c).
    split; [by apply list_elem_of_In, elem_of_map_to_list | done].
  - intros Hall.
    destruct (existsb _ (map_to_list conn)) eqn:Hex; [| done].
    apply existsb_exists in Hex as ([ip c] & Hin & Hopen).
    apply list_elem_of_In, elem_of_map_to_list in Hin.
    destruct (Hall ip c Hin) as [H80 H443]. simpl in Hopen.
    rewrite H80, H443 in Hopen. done.
Qed.

Lemma tcp_failed_in_indicators (dns_pollution : bool)
    (conn : gmap string (gmap string pyval)) :
  Api.TCP_FAILED ∈ Api.blocked_indicators dns_pollution conn
  <-> Api.all_tcp_failed conn = true.
Proof.
  unfold Api.blocked_indicators.
  destruct dns_pollution, (Api.tls_reset_seen conn), (Api.all_tcp_failed conn);
    simpl; (split; [| intros Htrue; try done; set_solver]);
    intros Hin; try done;
    apply (bool_decide_pack _) in Hin; by vm_compute in Hin.
Qed.

Lemma tls_reset_in_indicators (dns_pollution : bool)
    (conn : gmap string (gmap string pyval)) :
  Api.tls_reset_seen conn = true ->
  count_occ string_dec (Api.blocked_indicators dns_pollution conn)
            Api.TLS_RESET = 1
  /\ bool_decide (0 < length (Api.blocked_indicators dns_pollution conn))
     = true.
Proof.
  intros Hseen. unfold Api.blocked_indicators. rewrite Hseen.
  by destruct dns_pollution, (Api.all_tcp_failed conn).
Qed.

(** *** The sample environments raise only [Exception]s *)

Lemma env_io_closed : env_io E_closed.
Proof.
  unfold env_io, E_closed. simpl. repeat split; intros; try done.
  - by destruct (String.eqb _ _).
  - by simplify_eq.
Qed.

Lemma env_io_open answer response tls :
  (forall ph e, tls = Some (ph, e) -> isinstance e Exception = true) ->
  env_io (E_open answer response tls).
Proof. intros Htls. unfold env_io, E_open. simpl. repeat split; by eauto. Qed.

Lemma env_io_unresolved t0 t1 : env_io (E_unresolved t0 t1).
Proof.
  unfold env_io, E_unresolved. simpl. repeat split; intros; by simplify_eq.
Qed.

(** *** Runs on which nothing resolves *)

Lemma sys_time_run (E : env) log :
  sys_time E log = (Ok (clock E log), log ++ [CTime]).
Proof. reflexivity. Qed.





(** ** The probes *)

Lemma oserror_is_exception (e : exn) :
  isinstance e OSError = true -> isinstance e Exception = true.
Proof. by destruct e. Qed.

Lemma sslerror_is_exception (e : exn) :
  isinstance e SSLError = true -> isinstance e Exception = true.
Proof. by destruct e. Qed.

(** C9: whatever exception of class [Exception] (every I/O error is one)
    a probe's primitive raises, the probe hands a typed result to its
    caller and raises nothing: the resolver probe the empty list, the
    reachability and HTTP probes [False], the TLS probe ["TLS-Reset"] or
    [False]. *)
Theorem probes_absorb_exceptions (E : env) (domain dns ip : string)
    (port : Z) (log : list call) (e : exn) :
  isinstance e Exception = true ->
  (dig_out E log domain dns = Raise e ->
   fst (Api.dig_query domain dns E log) = Ok [])
  /\ (connect_out E log ip port = Some e ->
      fst (Api.tcp_connect ip port E log) = Ok false)
  /\ (http_raises ip (Api.head_request domain) E log e ->
      fst (Api.http_head ip domain E log) = Ok false)
  /\ (forall ph, tls_out E log domain = Some (ph, e) ->
      fst (Api.tls_handshake domain E log) = Ok (tls_value Reset)
      \/ fst (Api.tls_handshake domain E log) = Ok (tls_value OtherFailure)).
Proof.
  intros He. repeat split.
  - intros Hdig. rewrite api_dig_query_run, Hdig. unfold absorbed.
    by rewrite He.
  - intros Hconn. rewrite api_tcp_connect_run, Hconn. unfold absorbed.
    by rewrite He.
  - intros Hhttp. rewrite api_http_head_run. unfold http_steps, absorbed.
    destruct Hhttp as [Hc | [[Hc Hs] | (Hc & Hs & Hr)]].
    + by rewrite Hc, He.
    + by rewrite Hc, Hs, He.
    + by rewrite Hc, Hs, Hr, He.
  - intros ph Htls. rewrite api_tls_handshake_run, Htls. unfold absorbed.
    rewrite He. destruct (isinstance e SSLError); [by left | by right].
Qed.

Lemma probes_absorb_exceptions_witness :
  fst (Api.dig_query "example.com" "8.8.8.8" (E_raising TimeoutError) [])
  = Ok []
  /\ fst (Api.tcp_connect "1.2.3.4" 443 (E_raising TimeoutError) [])
     = Ok false
  /\ fst (Api.http_head "1.2.3.4" "example.com" (E_raising TimeoutError) [])
     = Ok false
  /\ (fst (Api.tls_handshake "example.com" (E_raising TimeoutError) [])
      = Ok (tls_value Reset)
      \/ fst (Api.tls_handshake "example.com" (E_raising TimeoutError) [])
         = Ok (tls_value OtherFailure)).
Proof.
  destruct (probes_absorb_exceptions (E_raising TimeoutError) "example.com"
              "8.8.8.8" "1.2.3.4" 443 [] TimeoutError eq_refl)
    as (Hdig & Htcp & Hhttp & Htls).
  split; [by apply Hdig |]. split; [by apply Htcp |].
  split; [apply Hhttp; by left |]. by apply (Htls TlsHandshake).
Defined.

(** C1: the value ["TLS-Reset"] does not follow the rule.  A certificate
    that does not verify is reported as a reset by the probe of either
    script, where the rule has an ordinary failure, and the run of the
    service then lists the reset among its indicators and concludes that the
    domain is blocked; a connection reset by the peer in the middle of the
    handshake is reported as an ordinary failure, where the rule has a
    reset, and the run concludes that nothing is blocked. *)
Theorem tls_reset_label_misclassifies :
  let cert := Some (TlsHandshake, SSLCertVerificationError) in
  let rst := Some (TlsHandshake, ConnectionResetError) in
  let verdict (tls : option (tls_phase * exn)) :=
    r ← returned (Api.check_domain "example.com"
                    (E_open "1.2.3.4" "HTTP/1.1 200 OK" tls) []);
    Some (record_get r "1.2.3.4" "tls", summary_get r "blocked_indicators",
          summary_get r "conclusion") in
  spec_tls_classify cert = OtherFailure
  /\ fst (Api.tls_handshake "example.com" (E_open "1.2.3.4" "" cert) [])
     = Ok (tls_value Reset)
  /\ fst (Cli.tls_handshake "example.com" (E_open "1.2.3.4" "" cert) [])
     = Ok (tls_value Reset)
  /\ verdict cert
     = Some (Some (VStr "TLS-Reset"), Some (VList [Api.TLS_RESET]),
             Some (VStr "域名疑似被墙"))
  /\ spec_tls_classify rst = Reset
  /\ fst (Api.tls_handshake "example.com" (E_open "1.2.3.4" "" rst) [])
     = Ok (tls_value OtherFailure)
  /\ fst (Cli.tls_handshake "example.com" (E_open "1.2.3.4" "" rst) [])
     = Ok (tls_value OtherFailure)
  /\ verdict rst
     = Some (Some (VBool false), Some (VList []),
             Some (VStr "未发现明显封锁")).
Proof.
  cbv zeta. split; [reflexivity |]. split; [reflexivity |].
  split; [reflexivity |]. split; [by vm_compute |]. split; [reflexivity |].
  split; [reflexivity |]. split; [reflexivity |]. by vm_compute.
Qed.

(** What the TLS probe of either script does: it classifies by the class
    of the exception alone, whatever the phase: an instance of
    [ssl.SSLError] (a certificate verification failure, an EOF in the
    handshake) gives the value of [Reset], any other [Exception] (a timeout,
    a refused connection, a connection reset by the peer) that of
    [OtherFailure], and a completed handshake that of [Success]. *)
Lemma tls_handshake_classifies (E : env) (domain : string)
    (log : list call) :
  (forall ph e, tls_out E log domain = Some (ph, e) ->
                isinstance e Exception = true) ->
  fst (Api.tls_handshake domain E log)
  = Ok (tls_value (code_tls_classify (tls_out E log domain)))
  /\ fst (Cli.tls_handshake domain E log)
     = Ok (tls_value (code_tls_classify (tls_out E log domain)))
  /\ code_tls_classify None = Success
  /\ (forall ph,
        code_tls_classify (Some (ph, SSLCertVerificationError)) = Reset
        /\ code_tls_classify (Some (ph, SSLEOFError)) = Reset
        /\ code_tls_classify (Some (ph, SSLError)) = Reset
        /\ code_tls_classify (Some (ph, TimeoutError)) = OtherFailure
        /\ code_tls_classify (Some (ph, ConnectionRefusedError)) = OtherFailure
        /\ code_tls_classify (Some (ph, ConnectionResetError)) = OtherFailure).
Proof.
  intros Hio.
  change (Cli.tls_handshake domain E log)
    with (Api.tls_handshake domain E log).
  rewrite api_tls_handshake_run.
  assert (fst
    (match tls_out E log domain with
     | Some (_, e) =>
       if isinstance e SSLError then Ok (VStr "TLS-Reset")
       else absorbed e (VBool false)
     | None => Ok (VBool true)
     end, log ++ [CTls domain Api.TIMEOUT])
    = Ok (tls_value (code_tls_classify (tls_out E log domain)))) as Hrun.
  { destruct (tls_out E log domain) as [[ph e] |] eqn:Hout; [| done].
    simpl. destruct (isinstance e SSLError); [done |].
    unfold absorbed. by rewrite (Hio ph e eq_refl). }
  repeat split; done.
Qed.

Lemma tls_handshake_classifies_witness :
  fst (Api.tls_handshake "example.com"
         (E_open "1.2.3.4" "" (Some (TlsHandshake, SSLCertVerificationError)))
         [])
  = Ok (tls_value Reset).
Proof.
  refine (proj1 (tls_handshake_classifies
    (E_open "1.2.3.4" "" (Some (TlsHandshake, SSLCertVerificationError)))
    "example.com" [] _)).
  intros ph e Hout. injection Hout as _ <-. reflexivity.
Defined.

Lemma substring_length_le (n : nat) (s : string) :
  String.length (substring 0 n s) <= n.
Proof.
  revert s. induction n as [| n IH]; intros [| a s]; simpl; try lia.
  specialize (IH s). lia.
Qed.

Lemma app_cons_string (a : ascii) (p rest : string) :
  String a p +:+ rest = String a (p +:+ rest).
Proof. reflexivity. Qed.

Lemma startswith_iff (s p : string) :
  startswith s p = true <-> exists rest, s = p +:+ rest.
Proof.
  unfold startswith. revert s. induction p as [| a p IH]; intros s.
  - split; [intros _; by exists s | intros _; by destruct s].
  - destruct s as [| b s].
    + split; [done | intros [rest Hrest]; discriminate].
    + change (String.prefix (String a p) (String b s))
        with (if ascii_dec a b then String.prefix p s else false).
      destruct (ascii_dec a b) as [<- | Hne].
      * rewrite IH. split; intros [rest Hrest]; exists rest.
        -- by rewrite app_cons_string, Hrest.
        -- rewrite app_cons_string in Hrest. by injection Hrest.
      * split; [done |].
        intros [rest Hrest]. rewrite app_cons_string in Hrest. congruence.
Qed.

(** X2: the HTTP probe of the service: what it hands to [send] is the [HEAD]
    request with the probed domain as [Host] and [Connection: close]; it
    asks [recv] for 50 bytes and answers whether what came begins with
    [HTTP]; an exception at any step gives [False]. *)
Lemma api_http_head_spec (E : env) (ip domain : string) (log : list call) :
  let log1 := log ++ [CConnect ip 80 4] in
  let log2 := log1 ++ [CSend ip (Api.head_request domain)] in
  Api.head_request domain
  = "HEAD / HTTP/1.1" +:+ CRLF +:+ "Host: " +:+ domain +:+ CRLF
    +:+ "Connection: close" +:+ CRLF +:+ CRLF
  /\ (forall s, connect_out E log ip 80 = None ->
        send_out E log1 ip (Api.head_request domain) = None ->
        recv_out E log2 ip = Ok s ->
        exists b, Api.http_head ip domain E log
                  = (Ok b, log2 ++ [CRecv ip 50])
          /\ String.length (substring 0 50 s) <= 50
          /\ (b = true <-> exists rest, substring 0 50 s = "HTTP" +:+ rest))
  /\ (forall e, isinstance e Exception = true ->
        http_raises ip (Api.head_request domain) E log e ->
        fst (Api.http_head ip domain E log) = Ok false).
Proof.
  simpl. split; [done |]. split.
  - intros s Hc Hs Hr. eexists. rewrite api_http_head_run. unfold http_steps.
    rewrite Hc, Hs, Hr. split; [done |].
    split; [apply substring_length_le | apply startswith_iff].
  - intros e He Hraise. rewrite api_http_head_run.
    unfold http_steps, absorbed.
    destruct Hraise as [Hc | [[Hc Hs] | (Hc & Hs & Hr)]].
    + by rewrite Hc, He.
    + by rewrite Hc, Hs, He.
    + by rewrite Hc, Hs, Hr, He.
Qed.

(** C7: the service's probe sends the probed domain as [Host]; the
    script's probe, on the same run, sends [Host: test] whatever the
    domain. *)
Theorem cli_http_head_host_is_not_the_domain :
  let E := E_open "1.2.3.4" "HTTP/1.1 200 OK" None in
  (CSend "1.2.3.4"
         ("HEAD / HTTP/1.1" +:+ CRLF +:+ "Host: test" +:+ CRLF
          +:+ "Connection: close" +:+ CRLF +:+ CRLF)
     ∈ snd (Cli.run "example.com" E []))
  /\ (CSend "1.2.3.4" (Api.head_request "example.com")
      ∉ snd (Cli.run "example.com" E []))
  /\ (CSend "1.2.3.4" (Api.head_request "example.com")
      ∈ snd (Api.check_domain "example.com" E [])).
Proof.
  simpl. repeat split; apply (bool_decide_unpack _); by vm_compute.
Qed.

(** C2: in the script, a port 443 that refuses the recorded check and
    accepts the second one leaves a record with [tcp_443] false and a
    [tls] entry; the service, on the same network, leaves none. *)
Theorem cli_tls_entry_without_recorded_tcp_443 :
  (r ← returned (Cli.run "example.com" E_flaky []);
   Some (record_get r "1.2.3.4" "tcp_443", record_get r "1.2.3.4" "tls"))
  = Some (Some (VBool false), Some (VBool true))
  /\ (r ← returned (Api.check_domain "example.com" E_flaky []);
      Some (record_get r "1.2.3.4" "tcp_443", record_get r "1.2.3.4" "tls"))
     = Some (Some (VBool false), None).
Proof. split; by vm_compute. Qed.

(** C8: when nothing resolves, [elapsed_time] is the difference of the two
    clock readings as it is, not rounded: 1.234567 and not 1.23; a run that
    reaches the end with the same readings reports 1.23. *)
Theorem early_return_elapsed_time_not_rounded :
  (r ← returned (Api.check_domain "example.com"
                   (E_unresolved 0 (1234567 # 1000000)) []);
   summary_get r "elapsed_time")
  = Some (VFloat (1234567 # 1000000))
  /\ py_round2 (1234567 # 1000000) = (123 # 100)%Q
  /\ ~ (1234567 # 1000000 == 123 # 100)%Q
  /\ (r ← returned (Api.check_domain "example.com"
                      {| clock := clock (E_unresolved 0 (1234567 # 1000000));
                         dig_out := fun _ _ _ => Ok "1.2.3.4";
                         connect_out := fun _ _ _ => None;
                         send_out := fun _ _ _ => None;
                         recv_out := fun _ _ => Ok "HTTP/1.1 200 OK";
                         tls_out := fun _ _ => None |} []);
      summary_get r "elapsed_time")
     = Some (VFloat (123 # 100)).
Proof. repeat split; by vm_compute. Qed.

(** ** The report of the service *)

(** X1: the gating invariant of [check_domain]: on every run, for every address
    of the address set, the record has a [tls] entry exactly when its
    [tcp_443] is true and an [http] entry exactly when its [tcp_80] is
    true. *)
Lemma api_gating_invariant (E : env) (domain : string) (log : list call) :
  env_io E ->
  exists r log',
    Api.check_domain domain E log = (Ok r, log')
    /\ forall ip, ip ∈ address_set (r_dns r) ->
         (is_Some (record_get r ip "tls")
          <-> record_get r ip "tcp_443" = Some (VBool true))
         /\ (is_Some (record_get r ip "http")
             <-> record_get r ip "tcp_80" = Some (VBool true)).
Proof.
  intros HE.
  destruct (api_check_domain_returns E domain HE log) as (r & log' & Hrun & Hr).
  exists r, log'. split; [done |]. intros ip Hip. unfold record_get.
  destruct Hr as [(Hsize & _) | (_ & [Hdom Hrec] & _)].
  - apply size_empty_iff, leibniz_equiv in Hsize. rewrite Hsize in Hip.
    by apply not_elem_of_empty in Hip.
  - apply elem_of_elements, Hdom in Hip as [c Hc]. rewrite Hc. simpl.
    by destruct (Hrec ip c Hc) as (_ & _ & Htls & Hhttp).
Qed.

(** C4: [dns_pollution] is true exactly when the address set, the union of
    the lists the resolvers returned, has more than one element; with a
    single address it is false. *)
Theorem dns_pollution_iff_several_addresses (E : env) (domain : string)
    (log : list call) :
  env_io E ->
  exists r log',
    Api.check_domain domain E log = (Ok r, log')
    /\ exists b,
         summary_get r "dns_pollution" = Some (VBool b)
         /\ (b = true <-> 1 < size (address_set (r_dns r)))
         /\ (forall ip, ip ∈ address_set (r_dns r)
               <-> exists name ips, r_dns r !! name = Some ips /\ ip ∈ ips)
         /\ (forall a, address_set (r_dns r) = {[a]} -> b = false).
Proof.
  intros HE.
  destruct (api_check_domain_returns E domain HE log) as (r & log' & Hrun & Hr).
  exists r, log'. split; [done |].
  exists (bool_decide (1 < size (address_set (r_dns r)))).
  split; [| split; [| split]].
  - unfold summary_get.
    destruct Hr as [(_ & _ & el & ->) | (_ & _ & el & ->)]; simpl.
    + rewrite !lookup_insert_ne by done. apply dns_summary_lookup.
    + apply final_summary_lookup.
  - apply bool_decide_eq_true.
  - apply elem_of_address_set.
  - intros a ->. rewrite size_singleton. apply bool_decide_eq_false. lia.
Qed.

Lemma dns_pollution_iff_several_addresses_witness :
  exists r log',
    Api.check_domain "example.com" E_closed [] = (Ok r, log')
    /\ exists b,
         summary_get r "dns_pollution" = Some (VBool b)
         /\ (b = true <-> 1 < size (address_set (r_dns r)))
         /\ (forall ip, ip ∈ address_set (r_dns r)
               <-> exists name ips, r_dns r !! name = Some ips /\ ip ∈ ips)
         /\ (forall a, address_set (r_dns r) = {[a]} -> b = false).
Proof.
  exact (dns_pollution_iff_several_addresses E_closed "example.com" []
           env_io_closed).
Defined.

(** C5: on a finished run, when the record of some address holds the TLS
    result ["TLS-Reset"], the TLS-reset indicator is in
    [blocked_indicators], once, and [is_blocked] is true, whatever the
    other signals. *)
Theorem tls_reset_is_reported (E : env) (domain : string)
    (log : list call) :
  env_io E ->
  exists r log',
    Api.check_domain domain E log = (Ok r, log')
    /\ ((exists ip, record_get r ip "tls" = Some (VStr "TLS-Reset")) ->
        exists l,
          summary_get r "blocked_indicators" = Some (VList l)
          /\ count_occ string_dec l Api.TLS_RESET = 1
          /\ summary_get r "is_blocked" = Some (VBool true)).
Proof.
  intros HE.
  destruct (api_check_domain_returns E domain HE log) as (r & log' & Hrun & Hr).
  exists r, log'. split; [done |]. intros [ip Hreset].
  unfold record_get in Hreset. unfold summary_get.
  destruct Hr as [(_ & Hempty & _) | (_ & _ & el & ->)].
  { by rewrite Hempty, lookup_empty in Hreset. }
  destruct (r_connectivity r !! ip) as [c |] eqn:Hc; [| done].
  simpl in Hreset.
  assert (Api.tls_reset_seen (r_connectivity r) = true) as Hseen.
  { apply tls_reset_seen_iff. by exists ip, c. }
  destruct (tls_reset_in_indicators
              (bool_decide (1 < size (address_set (r_dns r)))) _ Hseen)
    as [Hcount Hblocked].
  destruct (final_summary_lookup (address_set (r_dns r)) (r_connectivity r) el)
    as (_ & Hind & Hisb & _).
  eexists. simpl. split; [exact Hind |]. split; [exact Hcount |].
  by rewrite Hisb, Hblocked.
Qed.

Lemma tls_reset_is_reported_witness :
  exists r log',
    Api.check_domain "example.com"
      (E_open "1.2.3.4" "HTTP/1.1 200 OK" (Some (TlsHandshake, SSLEOFError)))
      [] = (Ok r, log')
    /\ ((exists ip, record_get r ip "tls" = Some (VStr "TLS-Reset")) ->
        exists l,
          summary_get r "blocked_indicators" = Some (VList l)
          /\ count_occ string_dec l Api.TLS_RESET = 1
          /\ summary_get r "is_blocked" = Some (VBool true)).
Proof.
  apply (tls_reset_is_reported
           (E_open "1.2.3.4" "HTTP/1.1 200 OK"
                   (Some (TlsHandshake, SSLEOFError)))
           "example.com" []).
  apply env_io_open. intros ph e [= _ <-]. reflexivity.
Defined.

(** C6: on a run whose address set is not empty, the TCP-failure
    indicator is in [blocked_indicators] exactly when no address has its
    [tcp_80] or its [tcp_443] true. *)
Theorem tcp_failure_iff_no_open_port (E : env) (domain : string)
    (log : list call) :
  env_io E ->
  exists r log',
    Api.check_domain domain E log = (Ok r, log')
    /\ (size (address_set (r_dns r)) <> 0 ->
        exists l,
          summary_get r "blocked_indicators" = Some (VList l)
          /\ (Api.TCP_FAILED ∈ l
              <-> forall ip, ip ∈ address_set (r_dns r) ->
                    record_get r ip "tcp_80" <> Some (VBool true)
                    /\ record_get r ip "tcp_443" <> Some (VBool true))).
Proof.
  intros HE.
  destruct (api_check_domain_returns E domain HE log) as (r & log' & Hrun & Hr).
  exists r, log'. split; [done |]. intros Hsize.
  destruct Hr as [(Hzero & _) | (_ & [Hdom Hrec] & el & Hsum)]; [done |].
  destruct (final_summary_lookup (address_set (r_dns r)) (r_connectivity r) el)
    as (_ & Hind & _).
  eexists. unfold summary_get. rewrite Hsum. simpl. split; [exact Hind |].
  rewrite tcp_failed_in_indicators, all_tcp_failed_iff. unfold record_get.
  split.
  - intros Hall ip Hip. apply elem_of_elements, Hdom in Hip as [c Hc].
    rewrite Hc. simpl. destruct (Hall ip c Hc) as [H80 H443].
    destruct (Hrec ip c Hc) as (Hb80 & Hb443 & _).
    split; intros Htrue.
    + apply (get_truthy_bool _ Hb80) in Htrue. congruence.
    + apply (get_truthy_bool _ Hb443) in Htrue. congruence.
  - intros Hall ip c Hc.
    assert (ip ∈ address_set (r_dns r)) as Hip.
    { apply elem_of_elements, Hdom. by eauto. }
    destruct (Hall ip Hip) as [H80 H443]. rewrite Hc in H80, H443.
    simpl in H80, H443. destruct (Hrec ip c Hc) as (Hb80 & Hb443 & _).
    split; apply not_true_is_false; intros Htrue.
    + by apply (get_truthy_bool _ Hb80) in Htrue.
    + by apply (get_truthy_bool _ Hb443) in Htrue.
Qed.

Lemma tcp_failure_iff_no_open_port_witness :
  exists r log',
    Api.check_domain "example.com" E_closed [] = (Ok r, log')
    /\ (size (address_set (r_dns r)) <> 0 ->
        exists l,
          summary_get r "blocked_indicators" = Some (VList l)
          /\ (Api.TCP_FAILED ∈ l
              <-> forall ip, ip ∈ address_set (r_dns r) ->
                    record_get r ip "tcp_80" <> Some (VBool true)
                    /\ record_get r ip "tcp_443" <> Some (VBool true))).
Proof.
  exact (tcp_failure_iff_no_open_port E_closed "example.com" [] env_io_closed).
Defined.

(** C10: the summary of a run cut short by an empty address set has
    [all_ips] (empty), [dns_pollution] (false) and [dns_status], and has no
    [blocked_indicators], no [is_blocked] and no [conclusion]. *)
Theorem early_summary_has_no_verdict (E : env) (domain : string)
    (log : list call) :
  env_io E ->
  exists r log',
    Api.check_domain domain E log = (Ok r, log')
    /\ (size (address_set (r_dns r)) = 0 ->
        summary_get r "all_ips" = Some (VList [])
        /\ summary_get r "dns_pollution" = Some (VBool false)
        /\ is_Some (summary_get r "dns_status")
        /\ summary_get r "blocked_indicators" = None
        /\ summary_get r "is_blocked" = None
        /\ summary_get r "conclusion" = None).
Proof.
  intros HE.
  destruct (api_check_domain_returns E domain HE log) as (r & log' & Hrun & Hr).
  exists r, log'. split; [done |]. intros Hsize.
  destruct Hr as [(_ & _ & el & Hsum) | (Hnonzero & _)]; [| done].
  unfold summary_get. rewrite Hsum. simpl.
  rewrite !lookup_insert_ne by done.
  destruct (dns_summary_lookup (address_set (r_dns r)))
    as (Hall & Hpol & Hstat & Hind & Hisb & Hconc).
  apply size_empty_iff, leibniz_equiv in Hsize as Hempty.
  rewrite Hall, Hpol, Hempty, elements_empty, size_empty.
  by repeat split.
Qed.

Lemma early_summary_has_no_verdict_witness :
  exists r log',
    Api.check_domain "example.com" (E_unresolved 0 1) [] = (Ok r, log')
    /\ (size (address_set (r_dns r)) = 0 ->
        summary_get r "all_ips" = Some (VList [])
        /\ summary_get r "dns_pollution" = Some (VBool false)
        /\ is_Some (summary_get r "dns_status")
        /\ summary_get r "blocked_indicators" = None
        /\ summary_get r "is_blocked" = None
        /\ summary_get r "conclusion" = None).
Proof.
  exact (early_summary_has_no_verdict (E_unresolved 0 1) "example.com" []
           (env_io_unresolved 0 1)).
Defined.




(** ** Partial correctness and the calls made *)

Lemma hoare_ret {A : Type} (E : env) (a : A) (Q : call -> Prop)
    (P : A -> Prop) :
  P a -> hoare E (mret a) Q P.
Proof.
  intros Ha log. exists []. rewrite ret_run, app_nil_r. simpl.
  split; [done |]. split; [constructor |]. by intros ? [= <-].
Qed.

Lemma hoare_raise {A : Type} (E : env) (e : exn) (Q : call -> Prop)
    (P : A -> Prop) :
  hoare E (raise e) Q P.
Proof.
  intros log. exists []. unfold raise. simpl. rewrite app_nil_r.
  split; [done |]. split; [constructor | done].
Qed.

Lemma hoare_bind {A B : Type} (E : env) (m : M A) (f : A -> M B)
    (Q : call -> Prop) (P : A -> Prop) (R : B -> Prop) :
  hoare E m Q P -> (forall a, P a -> hoare E (f a) Q R) ->
  hoare E (m ≫= f) Q R.
Proof.
  intros Hm Hf log. destruct (Hm log) as (ext1 & Hlog1 & Hext1 & Hval1).
  rewrite bind_run. destruct (m E log) as [[a | e] log1]; simpl in *.
  - destruct (Hf a (Hval1 a eq_refl) log1) as (ext2 & Hlog2 & Hext2 & Hval2).
    subst log1. exists (ext1 ++ ext2). rewrite Hlog2, app_assoc.
    split; [done |]. split; [by apply Forall_app | done].
  - exists ext1. by repeat split.
Qed.

Lemma hoare_mono {A : Type} (E : env) (m : M A) (Q Q' : call -> Prop)
    (P P' : A -> Prop) :
  hoare E m Q P -> (forall c, Q c -> Q' c) -> (forall a, P a -> P' a) ->
  hoare E m Q' P'.
Proof.
  intros Hm HQ HP log. destruct (Hm log) as (ext & Hlog & Hext & Hval).
  exists ext. split; [done |]. split; [| by auto].
  eapply Forall_impl; [exact Hext | exact HQ].
Qed.

Lemma hoare_try_except {A : Type} (E : env) (body : M A)
    (handlers : list (exn * M A)) (Q : call -> Prop) (P : A -> Prop) :
  hoare E body Q P ->
  Forall (fun h => hoare E (snd h) Q P) handlers ->
  hoare E (try_except body handlers) Q P.
Proof.
  intros Hbody Hhs log. destruct (Hbody log) as (ext1 & Hlog1 & Hext1 & Hval1).
  unfold try_except. destruct (body E log) as [[a | e] log1]; simpl in *.
  - exists ext1. by repeat split.
  - destruct (find _ handlers) as [h |] eqn:Hfind.
    + apply find_some in Hfind as [Hin _].
      rewrite Forall_forall in Hhs.
      destruct (Hhs h (proj2 (list_elem_of_In _ _) Hin) log1)
        as (ext2 & Hlog2 & Hext2 & Hval2).
      subst log1. exists (ext1 ++ ext2). rewrite Hlog2, app_assoc.
      split; [done |]. split; [by apply Forall_app | done].
    + exists ext1. by repeat split.
Qed.

Lemma hoare_gather {A : Type} (E : env) (tasks : list (M A))
    (Q : call -> Prop) (R : M A -> A -> Prop) :
  Forall (fun t => hoare E t Q (R t)) tasks ->
  hoare E (gather tasks) Q (fun l => Forall2 R tasks l).
Proof.
  induction 1 as [| t ts Ht _ IH]; simpl.
  - apply hoare_ret. constructor.
  - eapply hoare_bind; [exact Ht |]. intros a Ha.
    eapply hoare_bind; [exact IH |]. intros l Hl.
    apply hoare_ret. by constructor.
Qed.

Lemma hoare_for_each {A B : Type} (E : env) (f : A -> B -> M A)
    (Q : call -> Prop) (I : A -> Prop) (xs : list B) (a : A) :
  I a ->
  (forall a' x, I a' -> x ∈ xs -> hoare E (f a' x) Q I) ->
  hoare E (for_each f a xs) Q I.
Proof.
  revert a. induction xs as [| x xs IH]; intros a Ha Hstep; simpl.
  - by apply hoare_ret.
  - eapply hoare_bind.
    + apply Hstep; [done | by left].
    + intros a' Ha'. apply IH; [done |].
      intros a'' y Ha'' Hy. apply Hstep; [done | by right].
Qed.

Lemma hoare_call {A : Type} (E : env) (c : call) (Q : call -> Prop)
    (out : list call -> result A) (P : A -> Prop) :
  Q c -> (forall log a, out log = Ok a -> P a) ->
  hoare E (fun _ log => (out log, log ++ [c])) Q P.
Proof.
  intros Hc Hout log. exists [c]. simpl.
  split; [done |]. split; [by constructor | by apply Hout].
Qed.

Lemma hoare_sys_time (E : env) (Q : call -> Prop) :
  Q CTime -> hoare E sys_time Q (fun _ => True).
Proof. intros HQ. by apply (hoare_call E CTime Q (fun log => Ok (clock E log))). Qed.

Lemma hoare_sys_dig (E : env) domain dns t (Q : call -> Prop) :
  Q (CDig domain dns t) -> hoare E (sys_dig domain dns t) Q (fun _ => True).
Proof.
  intros HQ.
  by apply (hoare_call E _ Q (fun log => dig_out E log domain dns)).
Qed.

Lemma hoare_sys_connect (E : env) host port t (Q : call -> Prop) :
  Q (CConnect host port t) ->
  hoare E (sys_connect host port t) Q (fun _ => True).
Proof.
  intros HQ.
  by apply (hoare_call E _ Q
              (fun log => of_option (connect_out E log host port))).
Qed.

Lemma hoare_sys_close (E : env) host port (Q : call -> Prop) :
  Q (CClose host port) -> hoare E (sys_close host port) Q (fun _ => True).
Proof. intros HQ. by apply (hoare_call E _ Q (fun log => Ok tt)). Qed.

Lemma hoare_sys_send (E : env) host data (Q : call -> Prop) :
  Q (CSend host data) -> hoare E (sys_send host data) Q (fun _ => True).
Proof.
  intros HQ.
  by apply (hoare_call E _ Q
              (fun log => of_option (send_out E log host data))).
Qed.

Lemma hoare_sys_recv (E : env) host n (Q : call -> Prop) :
  Q (CRecv host n) -> hoare E (sys_recv host n) Q (fun _ => True).
Proof.
  intros HQ.
  by apply (hoare_call E _ Q
              (fun log => match recv_out E log host with
                          | Ok s => Ok (substring 0 n s)
                          | Raise e => Raise e
                          end)).
Qed.

Lemma hoare_sys_tls (E : env) domain t (Q : call -> Prop) :
  Q (CTls domain t) -> hoare E (sys_tls domain t) Q (fun _ => True).
Proof.
  intros HQ.
  by apply (hoare_call E _ Q
              (fun log => of_option (snd <$> tls_out E log domain))).
Qed.

Lemma hoare_setitem2 (E : env) (conn : gmap string (gmap string pyval))
    ip k v (Q : call -> Prop) :
  hoare E (setitem2 conn ip k v) Q
        (fun conn' => exists c, conn !! ip = Some c
                                /\ conn' = <[ip := <[k := v]> c]> conn).
Proof.
  unfold setitem2. destruct (conn !! ip) as [c |].
  - apply hoare_ret. by exists c.
  - apply hoare_raise.
Qed.

Lemma hoare_getitem (E : env) (conn : gmap string (gmap string pyval))
    ip (Q : call -> Prop) :
  hoare E (getitem conn ip) Q (fun c => conn !! ip = Some c).
Proof.
  unfold getitem. destruct (conn !! ip) as [c |].
  - by apply hoare_ret.
  - apply hoare_raise.
Qed.

Lemma hoare_gather_map {A B : Type} (E : env) (f : B -> M A) (xs : list B)
    (Q : call -> Prop) (R : B -> A -> Prop) :
  (forall x, x ∈ xs -> hoare E (f x) Q (R x)) ->
  hoare E (gather (f <$> xs)) Q (fun l => Forall2 R xs l).
Proof.
  induction xs as [| x xs IH]; intros Hxs; simpl.
  - apply hoare_ret. constructor.
  - eapply hoare_bind; [apply Hxs; by left |]. intros a Ha.
    eapply hoare_bind.
    { apply IH. intros y Hy. apply Hxs. by right. }
    intros l Hl. apply hoare_ret. by constructor.
Qed.

Lemma Forall2_zip {A B : Type} (R : A -> B -> Prop) (l : list A)
    (k : list B) :
  Forall2 R l k -> forall p, p ∈ zip l k -> R (fst p) (snd p).
Proof.
  induction 1 as [| x y l k Hxy _ IH]; simpl; intros p Hp.
  - by apply elem_of_nil in Hp.
  - apply elem_of_cons in Hp as [-> | Hp]; [done | by apply IH].
Qed.

Lemma Forall2_witness {A B : Type} (R : A -> B -> Prop) (l : list A)
    (k : list B) x :
  Forall2 R l k -> x ∈ l -> exists y, (x, y) ∈ zip l k /\ R x y.
Proof.
  induction 1 as [| x' y l k Hxy _ IH]; simpl; intros Hx.
  - by apply elem_of_nil in Hx.
  - apply elem_of_cons in Hx as [-> | Hx].
    + exists y. split; [by left | done].
    + destruct (IH Hx) as (y' & Hin & HR). exists y'. split; [by right | done].
Qed.

Lemma Forall2_fmap_eq {A B : Type} (f : B -> A) (l : list A) (k : list B) :
  Forall2 (fun x y => f y = x) l k -> f <$> k = l.
Proof.
  induction 1 as [| x y l k Hxy _ IH]; [done |].
  rewrite fmap_cons. by rewrite Hxy, IH.
Qed.

(** *** The probes of the service *)

Lemma hoare_api_dig_query (E : env) domain dns (Q : call -> Prop) :
  Q (CDig domain dns 4) ->
  hoare E (Api.dig_query domain dns) Q (fun _ => True).
Proof.
  intros HQ. unfold Api.dig_query. apply hoare_try_except.
  - eapply hoare_bind; [by apply hoare_sys_dig |].
    intros out _. by apply hoare_ret.
  - repeat constructor. by apply hoare_ret.
Qed.

Lemma hoare_api_tcp_connect (E : env) ip port (Q : call -> Prop) :
  Q (CConnect ip port 4) -> Q (CClose ip port) ->
  hoare E (Api.tcp_connect ip port) Q (fun _ => True).
Proof.
  intros HQ1 HQ2. unfold Api.tcp_connect. apply hoare_try_except.
  - eapply hoare_bind; [by apply hoare_sys_connect |]. intros _ _.
    eapply hoare_bind; [by apply hoare_sys_close |]. intros _ _.
    by apply hoare_ret.
  - repeat constructor. by apply hoare_ret.
Qed.

Lemma hoare_api_tls_handshake (E : env) domain (Q : call -> Prop) :
  Q (CTls domain 4) -> hoare E (Api.tls_handshake domain) Q tls_result.
Proof.
  intros HQ. unfold Api.tls_handshake. apply hoare_try_except.
  - eapply hoare_bind; [by apply hoare_sys_tls |]. intros _ _.
    apply hoare_ret. by left.
  - repeat constructor; apply hoare_ret; unfold tls_result; auto.
Qed.

Lemma hoare_http_head (E : env) ip request (Q : call -> Prop) :
  Q (CConnect ip 80 4) -> Q (CSend ip request) -> Q (CRecv ip 50) ->
  hoare E (try_except
             (_ ← sys_connect ip 80 4;
              _ ← sys_send ip request;
              resp ← sys_recv ip 50;
              mret (startswith resp "HTTP"))
             [(Exception, mret false)]) Q (fun _ => True).
Proof.
  intros HQ1 HQ2 HQ3. apply hoare_try_except.
  - eapply hoare_bind; [by apply hoare_sys_connect |]. intros _ _.
    eapply hoare_bind; [by apply hoare_sys_send |]. intros _ _.
    eapply hoare_bind; [by apply hoare_sys_recv |]. intros resp _.
    by apply hoare_ret.
  - repeat constructor. by apply hoare_ret.
Qed.

Lemma hoare_api_http_head (E : env) ip domain (Q : call -> Prop) :
  Q (CConnect ip 80 4) -> Q (CSend ip (Api.head_request domain)) ->
  Q (CRecv ip 50) ->
  hoare E (Api.http_head ip domain) Q (fun _ => True).
Proof. apply hoare_http_head. Qed.

(** *** Filing, without assuming the address is there *)

Lemma filed_cons {P : Type} (ipf keyf : P -> string) (valf : P -> pyval)
    (p : P) (ps : list P) (conn conn' : gmap string (gmap string pyval)) c0 :
  conn !! ipf p = Some c0 ->
  filed ipf keyf valf ps (<[ipf p := <[keyf p := valf p]> c0]> conn) conn' ->
  filed ipf keyf valf (p :: ps) conn conn'.
Proof.
  intros Hc0 Hfiled ip. specialize (Hfiled ip).
  destruct (decide (ipf p = ip)) as [Heq | Hne].
  - subst ip. rewrite lookup_insert_eq in Hfiled. rewrite Hc0.
    destruct Hfiled as (c' & Hc' & Hkeys). exists c'. split; [done |].
    intros k. destruct (Hkeys k) as [[Hsame Hnone] | (q & Hq & Hqi & Hqk & Hv)].
    + destruct (decide (keyf p = k)) as [Hk | Hk].
      * right. exists p. subst k. rewrite lookup_insert_eq in Hsame.
        repeat split; [by left | done].
      * left. rewrite lookup_insert_ne in Hsame by done.
        split; [done |]. intros q Hq [Hqi Hqk].
        apply elem_of_cons in Hq as [-> | Hq]; [done |].
        by apply (Hnone q Hq).
    + right. exists q. repeat split; [by right | done..].
  - rewrite lookup_insert_ne in Hfiled by done.
    destruct (conn !! ip) as [c |]; [| done].
    destruct Hfiled as (c' & Hc' & Hkeys). exists c'. split; [done |].
    intros k. destruct (Hkeys k) as [[Hsame Hnone] | (q & Hq & Hqi & Hqk & Hv)].
    + left. split; [done |]. intros q Hq [Hqi Hqk].
      apply elem_of_cons in Hq as [-> | Hq]; [done |].
      by apply (Hnone q Hq).
    + right. exists q. repeat split; [by right | done..].
Qed.

Lemma hoare_for_each_setitem2 {P : Type} (E : env) (ipf keyf : P -> string)
    (valf : P -> pyval) (ps : list P)
    (conn : gmap string (gmap string pyval)) (Q : call -> Prop) :
  hoare E (for_each (fun c p => setitem2 c (ipf p) (keyf p) (valf p)) conn ps)
        Q (filed ipf keyf valf ps conn).
Proof.
  revert conn. induction ps as [| p ps IH]; intros conn; simpl.
  - apply hoare_ret. apply filed_nil.
  - eapply hoare_bind; [apply hoare_setitem2 |].
    intros conn1 (c0 & Hc0 & ->).
    eapply hoare_mono; [apply IH | done |].
    intros conn' Hfiled. by eapply filed_cons.
Qed.

(** *** The stages of the service *)

Lemma hoare_api_dns_stage (E : env) domain (Q : call -> Prop) :
  (forall dns, dns ∈ Api.TEST_DNS.*2 -> Q (CDig domain dns 4)) ->
  hoare E (Api.dns_stage domain) Q
        (fun dns_dict => forall name,
           is_Some (dns_dict !! name) <-> name ∈ Api.TEST_DNS.*1).
Proof.
  intros HQ. unfold Api.dns_stage. eapply hoare_bind.
  { apply (hoare_gather E _ Q (fun _ _ => True)). simpl.
    repeat (apply List.Forall_cons;
            [unfold Api.async_dig_query; eapply hoare_bind;
             [apply hoare_api_dig_query, HQ; simpl; repeat constructor
             | intros; by apply hoare_ret] |]).
    apply List.Forall_nil. }
  intros l Hl. apply hoare_ret. apply Forall2_length in Hl. simpl in Hl.
  destruct l as [| a1 [| a2 [| a3 [| a4 [| a5 l]]]]]; try done.
  intros name. simpl. rewrite !lookup_insert_is_Some, lookup_empty.
  rewrite !elem_of_cons, elem_of_nil. split.
  - intros Hsome.
    repeat (destruct Hsome as [<- | [_ Hsome]]; [auto 10 |]).
    by destruct Hsome.
  - intros Hname.
    repeat (destruct Hname as [-> | Hname];
            [repeat first [left; reflexivity | right; split; [done |]] |]).
    done.
Qed.

Lemma api_tcp_tasks_map (ips : list string) :
  flat_map (fun ip => (fun port => Api.async_tcp_connect ip port)
                        <$> Api.TEST_PORTS) ips
  = (fun p : string * Z => Api.async_tcp_connect (fst p) (snd p))
      <$> flat_map (fun ip => [(ip, 80%Z); (ip, 443%Z)]) ips.
Proof.
  induction ips as [| ip ips IH]; [done |].
  cbn [flat_map]. rewrite IH. reflexivity.
Qed.

Lemma elem_of_port_pairs (ips : list string) (p : string * Z) :
  p ∈ flat_map (fun ip => [(ip, 80%Z); (ip, 443%Z)]) ips
  <-> fst p ∈ ips /\ (snd p = 80%Z \/ snd p = 443%Z).
Proof.
  rewrite list_elem_of_In, in_flat_map. split.
  - intros (ip & Hip & [<- | [<- | []]]); simpl;
      (split; [by apply list_elem_of_In | auto]).
  - intros [Hip Hport]. exists (fst p). split; [by apply list_elem_of_In |].
    destruct p as [ip port]. simpl in *.
    destruct Hport as [-> | ->]; [by left | right; by left].
Qed.

Lemma hoare_api_tcp_stage (E : env) (ips : list string) (Q : call -> Prop) :
  (forall ip port, ip ∈ ips -> port = 80%Z \/ port = 443%Z ->
     Q (CConnect ip port 4) /\ Q (CClose ip port)) ->
  hoare E (Api.tcp_stage ips) Q (records_of (fun _ => tcp_record) ips).
Proof.
  intros HQ. unfold Api.tcp_stage. cbv zeta. rewrite api_tcp_tasks_map.
  eapply hoare_bind.
  { apply (hoare_gather_map E _ _ Q (fun p r => fst r = p)).
    intros [ip port] [Hip Hport]%elem_of_port_pairs. simpl in *.
    unfold Api.async_tcp_connect. eapply hoare_bind.
    - apply hoare_api_tcp_connect; by apply HQ.
    - intros b _. by apply hoare_ret. }
  intros results Hres.
  eapply hoare_mono;
    [apply (hoare_for_each_setitem2 E
              (fun t : string * Z * bool => fst (fst t))
              (fun t => tcp_key (snd (fst t))) (fun t => VBool (snd t)))
    | done |].
  intros conn Hfiled. split.
  - intros ip. specialize (Hfiled ip). rewrite lookup_fresh_records in Hfiled.
    destruct (decide (ip ∈ ips)) as [Hin | Hnotin].
    + destruct Hfiled as (c & -> & _). split; by eauto.
    + rewrite lookup_empty in Hfiled. rewrite Hfiled. split; [done |].
      by intros [? ?].
  - intros ip c Hc. specialize (Hfiled ip).
    rewrite lookup_fresh_records in Hfiled.
    destruct (decide (ip ∈ ips)) as [Hin | Hnotin];
      [| rewrite lookup_empty in Hfiled; congruence].
    destruct Hfiled as (c' & Hc' & Hkeys).
    assert (c' = c) as -> by congruence.
    assert (forall port, port = 80%Z \/ port = 443%Z ->
              exists b, c !! tcp_key port = Some (VBool b)) as Hport.
    { intros port Hport.
      destruct (Forall2_witness _ _ _ (ip, port) Hres) as ([t b] & Hin' & Ht).
      { by apply elem_of_port_pairs. }
      simpl in Ht. subst t.
      assert ((ip, port, b) ∈ results) as Hr by (by apply elem_of_zip_r in Hin').
      destruct (Hkeys (tcp_key port))
        as [[_ Hnone] | (t & _ & _ & _ & Hv)]; [| by eauto].
      by destruct (Hnone _ Hr). }
    split; [apply (Hport 80%Z); by left |].
    split; [apply (Hport 443%Z); by right |].
    intros k [v Hv].
    destruct (Hkeys k) as [[Hsame _] | (t & Ht & _ & Hk & _)].
    + rewrite lookup_empty in Hsame. congruence.
    + assert (fst t ∈ flat_map (fun ip => [(ip, 80%Z); (ip, 443%Z)]) ips)
        as [_ Hp]%elem_of_port_pairs.
      { rewrite <- (Forall2_fmap_eq _ _ _ Hres).
        apply list_elem_of_fmap. by exists t. }
      rewrite <- Hk. destruct Hp as [-> | ->]; [by left | by right].
Qed.

Lemma hoare_api_tls_http_stage (E : env) domain (ips : list string)
    (conn : gmap string (gmap string pyval)) (Q : call -> Prop) :
  records_of (fun _ => tcp_record) ips conn ->
  Q (CTls domain 4) ->
  (forall ip, ip ∈ ips ->
     Q (CConnect ip 80 4) /\ Q (CSend ip (Api.head_request domain))
     /\ Q (CRecv ip 50)) ->
  hoare E (Api.tls_http_stage domain ips conn) Q (records_of api_record ips).
Proof.
  intros [Hdom Htcp] HQtls HQhttp. unfold Api.tls_http_stage.
  eapply hoare_bind.
  { apply (hoare_for_each E _ Q (tasks_disciplined E Q ips)).
    - split; constructor.
    - intros [tl hl] x [Htl Hhl] Hx. simpl in *.
      eapply hoare_bind; [apply hoare_getitem |]. intros c _.
      eapply hoare_bind; [apply hoare_getitem |]. intros c' _.
      apply hoare_ret. split; simpl.
      + destruct (get_truthy (c !! "tcp_443")); [| done].
        apply Forall_app. split; [done |]. constructor; [| constructor].
        split; [done |]. simpl. unfold Api.async_tls_handshake.
        eapply hoare_bind; [by apply hoare_api_tls_handshake |].
        intros v Hv. by apply hoare_ret.
      + destruct (get_truthy (c' !! "tcp_80")); [| done].
        apply Forall_app. split; [done |]. constructor; [| constructor].
        split; [done |]. simpl. unfold Api.async_http_head.
        destruct (HQhttp x Hx) as (HQ1 & HQ2 & HQ3).
        eapply hoare_bind; [by apply hoare_api_http_head |].
        intros b _. by apply hoare_ret. }
  intros [tl hl] [Htl Hhl]. simpl in *.
  rewrite Forall_forall in Htl. rewrite Forall_forall in Hhl.
  apply (hoare_bind E _ _ Q
           (fun conn1 => exists rs : list pyval,
              Forall2 (fun _ v => tls_result v) tl rs
              /\ filed (fun p => fst (fst p)) (fun _ => "tls") snd
                       (zip tl rs) conn conn1)).
  { case_bool_decide as Hnil.
    - subst tl. apply hoare_ret. exists [].
      split; [constructor | apply filed_nil].
    - eapply hoare_bind.
      { apply (hoare_gather_map E snd tl Q (fun _ v => tls_result v)).
        intros t Ht. by apply Htl. }
      intros rs Hrs. eapply hoare_mono;
        [apply (hoare_for_each_setitem2 E
                  (fun p : (string * M pyval) * pyval => fst (fst p))
                  (fun _ => "tls") snd)
        | done |].
      intros conn1 F1. by exists rs. }
  intros conn1 (rs & Hrs & F1).
  apply (hoare_mono E _ Q Q
           (fun conn2 => exists hrs : list (string * bool),
              Forall2 (fun t r => fst r = fst t) hl hrs
              /\ filed (fun p => fst (fst p)) (fun _ => "http")
                       (fun p => VTuple (fst (snd p)) (snd (snd p)))
                       (zip hl hrs) conn1 conn2)); [| done |].
  { case_bool_decide as Hnil.
    - subst hl. apply hoare_ret. exists [].
      split; [constructor | apply filed_nil].
    - eapply hoare_bind.
      { apply (hoare_gather_map E snd hl Q (fun t r => fst r = fst t)).
        intros t Ht. by apply Hhl. }
      intros hrs Hhrs. eapply hoare_mono;
        [apply (hoare_for_each_setitem2 E
                  (fun p : (string * M (string * bool)) * (string * bool) =>
                     fst (fst p))
                  (fun _ => "http")
                  (fun p => VTuple (fst (snd p)) (snd (snd p))))
        | done |].
      intros conn2 F2. by exists hrs. }
  intros conn2 (hrs & Hhrs & F2). split.
  - intros ip. rewrite Hdom. specialize (F1 ip). specialize (F2 ip).
    destruct (conn !! ip) as [c |].
    + destruct F1 as (c1 & Hc1 & _). rewrite Hc1 in F2.
      destruct F2 as (c2 & -> & _). split; by eauto.
    + rewrite F1 in F2. rewrite F2. done.
  - intros ip c2 Hc2. specialize (F1 ip). specialize (F2 ip).
    destruct (conn !! ip) as [c |] eqn:Hc; [| rewrite F1 in F2; congruence].
    destruct F1 as (c1 & Hc1 & K1). rewrite Hc1 in F2.
    destruct F2 as (c2' & Hc2' & K2).
    assert (c2' = c2) as -> by congruence.
    destruct (Htcp ip c Hc) as (H80 & H443 & Hkeys).
    assert (forall k, k <> "tls" -> k <> "http" -> c2 !! k = c !! k) as Hsame.
    { intros k Ht Hh.
      destruct (K2 k) as [[-> _] | (p & _ & _ & Hk & _)]; [| congruence].
      destruct (K1 k) as [[-> _] | (p & _ & _ & Hk & _)]; [done | congruence]. }
    assert (c !! "tls" = None /\ c !! "http" = None) as [Hnt Hnh].
    { split.
      - destruct (c !! "tls") as [v |] eqn:Hv; [| done].
        by destruct (Hkeys "tls" (ltac:(by eauto))).
      - destruct (c !! "http") as [v |] eqn:Hv; [| done].
        by destruct (Hkeys "http" (ltac:(by eauto))). }
    unfold api_record. rewrite !Hsame by done.
    split; [done |]. split; [done |]. split; [| split].
    + intros v Hv.
      destruct (K2 "tls") as [[Heq _] | (p & _ & _ & Hk & _)]; [| done].
      rewrite Heq in Hv.
      destruct (K1 "tls") as [[Heq1 _] | (p & Hp & _ & _ & Hval)];
        [congruence |].
      apply (Forall2_zip _ _ _ Hrs) in Hp. congruence.
    + intros v Hv.
      destruct (K2 "http") as [[Heq _] | (p & Hp & Hip & _ & Hval)].
      * rewrite Heq in Hv.
        destruct (K1 "http") as [[Heq1 _] | (p & _ & _ & Hk & _)];
          [congruence | done].
      * apply (Forall2_zip _ _ _ Hhrs) in Hp. exists (snd (snd p)).
        rewrite Hp, Hip in Hval. congruence.
    + intros k Hk.
      destruct (decide (k = "tls")) as [-> | Ht]; [auto |].
      destruct (decide (k = "http")) as [-> | Hh]; [auto |].
      rewrite Hsame in Hk by done. destruct (Hkeys k Hk) as [-> | ->]; auto.
Qed.

Lemma allowed_mono domain request (S S' : string -> Prop) (c : call) :
  (forall host, S host -> S' host) ->
  allowed domain request S c -> allowed domain request S' c.
Proof. intros HS. destruct c; simpl; intuition auto. Qed.

Lemma api_check_domain_hoare (E : env) (domain : string) (log : list call) :
  exists ext,
    snd (Api.check_domain domain E log) = log ++ ext
    /\ Forall (allowed domain (Api.head_request domain) (fun _ => True)) ext
    /\ forall r, fst (Api.check_domain domain E log) = Ok r ->
         api_report_ok domain r
         /\ Forall (allowed domain (Api.head_request domain)
                            (fun ip => ip ∈ address_set (r_dns r))) ext.
Proof.
  set (req := Api.head_request domain).
  assert (exists ext,
    snd (Api.check_domain domain E log) = log ++ ext
    /\ (forall r, fst (Api.check_domain domain E log) = Ok r ->
          api_report_ok domain r)
    /\ exists S : string -> Prop,
         Forall (allowed domain req S) ext
         /\ forall r, fst (Api.check_domain domain E log) = Ok r ->
              forall ip, S ip -> ip ∈ address_set (r_dns r)) as Hmain.
  { unfold Api.check_domain.
    rewrite bind_run, sys_time_run. cbv beta iota.
    rewrite bind_run, sys_time_run. cbv beta iota. rewrite bind_run.
    destruct (hoare_api_dns_stage E domain (allowed domain req (fun _ => False))
                (fun dns Hdns => conj eq_refl (conj Hdns eq_refl))
                ((log ++ [CTime]) ++ [CTime]))
      as (ext0 & Hlog0 & Hext0 & Hval0).
    destruct (Api.dns_stage domain E _) as [[dns_dict | e] log3];
      simpl in Hlog0, Hval0; subst log3.
    - specialize (Hval0 dns_dict eq_refl).
      set (S := fun ip => ip ∈ address_set dns_dict).
      match goal with
      | |- context [snd (?m E _)] =>
        assert (hoare E m (allowed domain req S)
                  (fun r => r_dns r = dns_dict /\ api_report_ok domain r))
          as Hk
      end.
      { case_bool_decide as Hsize.
        - eapply hoare_bind; [by apply hoare_sys_time |]. intros now _.
          apply hoare_ret. split; [done |]. unfold api_report_ok. simpl.
          split; [done |]. split; [by eauto |]. split; [exact Hval0 |].
          apply size_empty_iff, leibniz_equiv in Hsize.
          rewrite Hsize, elements_empty. split.
          + intros ip. rewrite lookup_empty. split.
            * intros Hin. by apply elem_of_nil in Hin.
            * by intros [? ?].
          + intros ip c. by rewrite lookup_empty.
        - eapply hoare_bind.
          { apply hoare_api_tcp_stage. intros ip port Hip Hport.
            apply elem_of_elements in Hip. by repeat split. }
          intros conn Hconn. eapply hoare_bind.
          { apply (hoare_api_tls_http_stage E domain _ conn _ Hconn);
              [done |].
            intros ip Hip. apply elem_of_elements in Hip. simpl. auto 10. }
          intros conn' Hconn'.
          eapply hoare_bind; [by apply hoare_sys_time |]. intros now _.
          apply hoare_ret. split; [done |]. unfold api_report_ok. simpl.
          split; [done |]. split; [by eauto |]. by split. }
      destruct (Hk (((log ++ [CTime]) ++ [CTime]) ++ ext0))
        as (ext1 & Hlog1 & Hext1 & Hval1).
      exists ([CTime; CTime] ++ ext0 ++ ext1). split.
      { rewrite Hlog1. by rewrite <- !app_assoc. }
      split; [intros r Hr; by apply Hval1 |].
      exists S. split.
      + apply Forall_app. split; [by repeat constructor |].
        apply Forall_app. split; [| done].
        eapply Forall_impl; [exact Hext0 |]. intros c. by apply allowed_mono.
      + intros r Hr ip Hip. by destruct (Hval1 r Hr) as [-> _].
    - exists ([CTime; CTime] ++ ext0). simpl. split.
      { by rewrite <- !app_assoc. }
      split; [done |]. exists (fun _ => False). split; [| done].
      by repeat (constructor; [done |]). }
  destruct Hmain as (ext & Hlog & Hok & S & Hext & HS).
  exists ext. split; [done |]. split.
  - eapply Forall_impl; [exact Hext |]. intros c. by apply allowed_mono.
  - intros r Hr. split; [by apply Hok |].
    eapply Forall_impl; [exact Hext |]. intros c. apply allowed_mono.
    by apply HS.
Qed.

(** *** Runs on an environment that raises only [Exception]s, call by call *)

Lemma api_dig_query_io (E : env) domain dns log :
  env_io E ->
  exists l, Api.dig_query domain dns E log
            = (Ok l, log ++ [CDig domain dns 4]).
Proof.
  intros (Hdig & _). rewrite api_dig_query_run.
  destruct (dig_out E log domain dns) as [out | e] eqn:Hout; [by eauto |].
  unfold absorbed. rewrite (Hdig _ _ _ _ Hout). by eauto.
Qed.

Lemma api_dns_stage_io (E : env) domain log :
  env_io E ->
  exists dns_dict,
    Api.dns_stage domain E log = (Ok dns_dict, log ++ dig_calls domain).
Proof.
  intros HE. unfold Api.dns_stage. simpl.
  rewrite bind_run. unfold Api.async_dig_query.
  repeat (rewrite !bind_run;
          match goal with
          | |- context [Api.dig_query domain ?dns E ?l] =>
            destruct (api_dig_query_io E domain dns l HE) as [? ->]
          end;
          rewrite ?ret_run; cbv beta iota).
  rewrite ?bind_run, ?ret_run. cbv beta iota.
  eexists. by rewrite <- !app_assoc.
Qed.

Lemma run_of_returns_hoare {A : Type} (E : env) (m : M A)
    (P P' : A -> Prop) (Q : call -> Prop) log :
  returns E m P -> hoare E m Q P' ->
  exists a ext, m E log = (Ok a, log ++ ext) /\ P a /\ P' a /\ Forall Q ext.
Proof.
  intros Hret Hhoare. destruct (Hret log) as (a & log' & Hrun & Ha).
  destruct (Hhoare log) as (ext & Hlog & Hext & Hval).
  rewrite Hrun in Hlog, Hval. simpl in *. subst log'.
  exists a, ext. by repeat split; auto.
Qed.

Lemma api_check_domain_run_io (E : env) (domain : string)
    (log : list call) :
  env_io E ->
  exists r mid,
    Api.check_domain domain E log
    = (Ok r, (log ++ [CTime; CTime] ++ dig_calls domain ++ mid) ++ [CTime])
    /\ Forall probe_call mid
    /\ r_timestamp r = Some (clock E (log ++ [CTime]))
    /\ summary_get r "elapsed_time"
       = Some (VFloat
                 (let elapsed :=
                    (clock E (log ++ [CTime; CTime] ++ dig_calls domain ++ mid)
                     - clock E log)%Q in
                  if bool_decide (size (address_set (r_dns r)) = 0)
                  then elapsed else py_round2 elapsed)).
Proof.
  intros HE. unfold Api.check_domain.
  rewrite bind_run, sys_time_run. cbv beta iota.
  rewrite bind_run, sys_time_run. cbv beta iota. rewrite bind_run.
  destruct (api_dns_stage_io E domain ((log ++ [CTime]) ++ [CTime]) HE)
    as [dns_dict ->].
  assert (forall mid : list call,
            ((log ++ [CTime]) ++ [CTime]) ++ dig_calls domain ++ mid
            = log ++ [CTime; CTime] ++ dig_calls domain ++ mid) as Hassoc.
  { intros mid. by rewrite <- !app_assoc. }
  case_bool_decide as Hsize.
  - rewrite bind_run, sys_time_run. cbv beta iota. rewrite ret_run.
    eexists _, []. rewrite <- (Hassoc []), !app_nil_r.
    split; [reflexivity |]. split; [constructor |]. split; [done |].
    unfold summary_get. simpl. rewrite bool_decide_eq_true_2 by done.
    by rewrite lookup_insert_eq.
  - set (ips := elements (address_set dns_dict)).
    set (log3 := ((log ++ [CTime]) ++ [CTime]) ++ dig_calls domain).
    rewrite bind_run.
    destruct (run_of_returns_hoare E (Api.tcp_stage ips) _ _ probe_call log3
                (api_tcp_stage_returns E ips HE)
                (hoare_api_tcp_stage E ips probe_call
                   (fun _ _ _ _ => conj I I)))
      as (conn & ext1 & -> & Hfiled & Hrec & Hext1).
    rewrite bind_run.
    destruct (run_of_returns_hoare E (Api.tls_http_stage domain ips conn)
                _ _ probe_call (log3 ++ ext1)
                (api_tls_http_stage_returns E domain ips conn HE Hfiled)
                (hoare_api_tls_http_stage E domain ips conn probe_call Hrec I
                   (fun _ _ => conj I (conj I I))))
      as (conn' & ext2 & -> & _ & _ & Hext2).
    rewrite bind_run, sys_time_run. cbv beta iota. rewrite ret_run.
    exists {| r_domain := domain;
              r_dns := dns_dict;
              r_connectivity := conn';
              r_summary :=
                Some (Api.final_summary (address_set dns_dict) conn'
                        (clock E ((log3 ++ ext1) ++ ext2) - clock E log));
              r_timestamp := Some (clock E (log ++ [CTime])) |},
           (ext1 ++ ext2).
    unfold log3. rewrite <- (Hassoc (ext1 ++ ext2)).
    rewrite <- !app_assoc. split; [reflexivity |].
    split; [by apply Forall_app |]. split; [done |].
    unfold summary_get. simpl. rewrite bool_decide_eq_false_2 by done.
    apply final_summary_lookup.
Qed.

(** With the exact subtraction and the exact rounding the function is
    [Api.check_domain]. *)
Lemma api_float_check_domain_exact (domain : string) :
  ApiFloat.check_domain Qminus py_round2 domain = Api.check_domain domain.
Proof. reflexivity. Qed.

Lemma api_float_check_domain_run_io (fsub : Q -> Q -> Q)
    (fround2 : Q -> Q) (E : env) (domain : string)
    (log : list call) :
  env_io E ->
  exists r mid,
    ApiFloat.check_domain fsub fround2 domain E log
    = (Ok r, (log ++ [CTime; CTime] ++ dig_calls domain ++ mid) ++ [CTime])
    /\ Forall probe_call mid
    /\ r_timestamp r = Some (clock E (log ++ [CTime]))
    /\ summary_get r "elapsed_time"
       = Some (VFloat
                 (let elapsed :=
                    fsub
                      (clock E
                         (log ++ [CTime; CTime] ++ dig_calls domain ++ mid))
                      (clock E log) in
                  if bool_decide (size (address_set (r_dns r)) = 0)
                  then elapsed else fround2 elapsed)).
Proof.
  intros HE. unfold ApiFloat.check_domain.
  rewrite bind_run, sys_time_run. cbv beta iota.
  rewrite bind_run, sys_time_run. cbv beta iota. rewrite bind_run.
  destruct (api_dns_stage_io E domain ((log ++ [CTime]) ++ [CTime]) HE)
    as [dns_dict ->].
  assert (forall mid : list call,
            ((log ++ [CTime]) ++ [CTime]) ++ dig_calls domain ++ mid
            = log ++ [CTime; CTime] ++ dig_calls domain ++ mid) as Hassoc.
  { intros mid. by rewrite <- !app_assoc. }
  case_bool_decide as Hsize.
  - rewrite bind_run, sys_time_run. cbv beta iota. rewrite ret_run.
    eexists _, []. rewrite <- (Hassoc []), !app_nil_r.
    split; [reflexivity |]. split; [constructor |]. split; [done |].
    unfold summary_get. simpl. rewrite bool_decide_eq_true_2 by done.
    by rewrite lookup_insert_eq.
  - set (ips := elements (address_set dns_dict)).
    set (log3 := ((log ++ [CTime]) ++ [CTime]) ++ dig_calls domain).
    rewrite bind_run.
    destruct (run_of_returns_hoare E (Api.tcp_stage ips) _ _ probe_call log3
                (api_tcp_stage_returns E ips HE)
                (hoare_api_tcp_stage E ips probe_call
                   (fun _ _ _ _ => conj I I)))
      as (conn & ext1 & -> & Hfiled & Hrec & Hext1).
    rewrite bind_run.
    destruct (run_of_returns_hoare E (Api.tls_http_stage domain ips conn)
                _ _ probe_call (log3 ++ ext1)
                (api_tls_http_stage_returns E domain ips conn HE Hfiled)
                (hoare_api_tls_http_stage E domain ips conn probe_call Hrec I
                   (fun _ _ => conj I (conj I I))))
      as (conn' & ext2 & -> & _ & _ & Hext2).
    rewrite bind_run, sys_time_run. cbv beta iota. rewrite ret_run.
    exists {| r_domain := domain;
              r_dns := dns_dict;
              r_connectivity := conn';
              r_summary :=
                Some (ApiFloat.final_summary fround2 (address_set dns_dict)
                        conn'
                        (fsub (clock E ((log3 ++ ext1) ++ ext2))
                           (clock E log)));
              r_timestamp := Some (clock E (log ++ [CTime])) |},
           (ext1 ++ ext2).
    unfold log3. rewrite <- (Hassoc (ext1 ++ ext2)).
    rewrite <- !app_assoc. split; [reflexivity |].
    split; [by apply Forall_app |]. split; [done |].
    unfold summary_get. simpl. rewrite bool_decide_eq_false_2 by done.
    unfold ApiFloat.final_summary. cbv zeta. by rewrite lookup_insert_eq.
Qed.

Lemma final_summary_conclusion (all_ips : gset string)
    (conn : gmap string (gmap string pyval)) (elapsed : Q) :
  Api.final_summary all_ips conn elapsed !! "conclusion"
  = Some (VStr (if bool_decide
                     (0 < length (Api.blocked_indicators
                                    (bool_decide (1 < size all_ips)) conn))
                then "域名疑似被墙" else "未发现明显封锁"))
  /\ Api.final_summary all_ips conn elapsed !! "all_ips"
     = Some (VList (elements all_ips)).
Proof.
  unfold Api.final_summary, Api.dns_summary. split; by simplify_map_eq.
Qed.

Lemma split_lines_one_line (s : string) : Forall one_line (split_lines s).
Proof.
  induction s as [| a s IH]; simpl.
  - constructor; [| constructor]. by intros [].
  - destruct (Ascii.eqb a LF) eqn:Ha.
    + constructor; [by intros [] | done].
    + apply Ascii.eqb_neq in Ha.
      destruct (split_lines s) as [| p ps]; simpl.
      * constructor; [| constructor]. intros [Heq | []]. congruence.
      * apply Forall_cons in IH as [Hp Hps]. constructor; [| done].
        intros [Heq | Hin]; [congruence | by apply Hp].
Qed.

Lemma strip_empty : strip "" = "".
Proof. reflexivity. Qed.

(** *** The script *)


Lemma setitem2_insert (conn : gmap string (gmap string pyval)) ip k v c :
  setitem2 (<[ip := c]> conn) ip k v = mret (<[ip := <[k := v]> c]> conn).
Proof.
  unfold setitem2. by rewrite lookup_insert_eq, insert_insert_eq.
Qed.









Lemma records_of_nil (R : string -> gmap string pyval -> Prop) :
  records_of R [] ∅.
Proof.
  split.
  - intros ip. rewrite lookup_empty. split.
    + intros Hin. by apply elem_of_nil in Hin.
    + by intros [? ?].
  - intros ip c. by rewrite lookup_empty.
Qed.

Lemma records_of_snoc (R : string -> gmap string pyval -> Prop)
    (pre : list string) (conn : gmap string (gmap string pyval)) x c :
  records_of R pre conn -> R x c ->
  records_of R (pre ++ [x]) (<[x := c]> conn).
Proof.
  intros [Hdom Hrec] Hc. split.
  - intros ip. rewrite elem_of_app, list_elem_of_singleton, Hdom.
    rewrite lookup_insert_is_Some. destruct (decide (x = ip)) as [Heq | Hne].
    + split; auto.
    + split.
      * intros [Hin | Heq]; [by auto | congruence].
      * intros [Heq | [_ Hin]]; [congruence | by auto].
  - intros ip c' Hlook. destruct (decide (x = ip)) as [<- | Hne].
    + rewrite lookup_insert_eq in Hlook. by simplify_eq.
    + rewrite lookup_insert_ne in Hlook by done. by eapply Hrec.
Qed.


Lemma hoare_cli_dig_query (E : env) domain dns (Q : call -> Prop) :
  Q (CDig domain dns 4) ->
  hoare E (Cli.dig_query domain dns) Q (fun _ => True).
Proof.
  intros HQ. unfold Cli.dig_query. apply hoare_try_except.
  - eapply hoare_bind; [by apply hoare_sys_dig |].
    intros out _. by apply hoare_ret.
  - repeat constructor. by apply hoare_ret.
Qed.

Lemma hoare_cli_probe_ip (E : env) domain
    (conn : gmap string (gmap string pyval)) ip (Q : call -> Prop) :
  (forall port, port = 80%Z \/ port = 443%Z ->
     Q (CConnect ip port 4) /\ Q (CClose ip port)) ->
  Q (CTls domain 4) -> Q (CSend ip Cli.head_request) -> Q (CRecv ip 50) ->
  hoare E (Cli.probe_ip domain conn ip) Q (fun _ => True).
Proof.
  intros Hports Htls Hsend Hrecv.
  destruct (Hports 80%Z) as [Hc80 Hx80]; [by left |].
  destruct (Hports 443%Z) as [Hc443 Hx443]; [by right |].
  assert (forall port, port = 80%Z \/ port = 443%Z ->
            hoare E (Cli.tcp_connect ip port) Q (fun _ => True)) as Htcp.
  { intros port Hport. destruct (Hports port Hport).
    by apply hoare_api_tcp_connect. }
  unfold Cli.probe_ip. cbv zeta.
  apply (hoare_bind E _ _ Q (fun _ => True)).
  { apply (hoare_for_each E _ Q (fun _ => True)); [done |].
    intros c p _ Hp. apply (hoare_bind E _ _ Q (fun _ => True)).
    - apply Htcp. apply elem_of_cons in Hp as [-> | Hp]; [by left |].
      apply list_elem_of_singleton in Hp as ->. by right.
    - intros ok _. eapply hoare_mono; [apply hoare_setitem2 | done | done]. }
  intros conn1 _.
  apply (hoare_bind E _ _ Q (fun _ => True)); [apply Htcp; by right |].
  intros open443 _. apply (hoare_bind E _ _ Q (fun _ => True)).
  { destruct open443; [| by apply hoare_ret].
    apply (hoare_bind E _ _ Q (fun _ => True)).
    - eapply hoare_mono; [by apply hoare_api_tls_handshake | done | done].
    - intros tls _. eapply hoare_mono; [apply hoare_setitem2 | done | done]. }
  intros conn2 _.
  apply (hoare_bind E _ _ Q (fun _ => True)); [apply Htcp; by left |].
  intros open80 _. destruct open80; [| by apply hoare_ret].
  apply (hoare_bind E _ _ Q (fun _ => True)); [by apply hoare_http_head |].
  intros head _. eapply hoare_mono; [apply hoare_setitem2 | done | done].
Qed.

Lemma cli_allowed_mono domain (S S' : string -> Prop) (c : call) :
  (forall host, S host -> S' host) ->
  cli_allowed domain S c -> cli_allowed domain S' c.
Proof.
  intros HS [Hc Hne]. split; [| done]. by eapply allowed_mono.
Qed.

Lemma cli_run_hoare (E : env) (domain : string) (log : list call) :
  exists ext,
    snd (Cli.run domain E log) = log ++ ext
    /\ Forall (cli_allowed domain (fun _ => True)) ext
    /\ forall r, fst (Cli.run domain E log) = Ok r ->
         Forall (cli_allowed domain (fun ip => ip ∈ address_set (r_dns r)))
                ext.
Proof.
  assert (exists ext (S : string -> Prop),
    snd (Cli.run domain E log) = log ++ ext
    /\ Forall (cli_allowed domain S) ext
    /\ forall r, fst (Cli.run domain E log) = Ok r ->
         forall ip, S ip -> ip ∈ address_set (r_dns r)) as Hmain.
  { unfold Cli.run. rewrite bind_run.
    match goal with
    | |- context [for_each ?f ?a Cli.TEST_DNS E log] =>
      assert (hoare E (for_each f a Cli.TEST_DNS)
                (cli_allowed domain (fun _ => False)) (fun _ => True)) as Hdns
    end.
    { apply hoare_for_each; [done |]. intros d nd _ Hnd.
      apply (hoare_bind E _ _ _ (fun _ => True)).
      - apply hoare_cli_dig_query. split; [| done].
        change (domain = domain /\ snd nd ∈ Api.TEST_DNS.*2 /\ 4%Z = 4%Z).
        split; [done |]. split; [| done].
        apply list_elem_of_fmap. by exists nd.
      - intros ips _. by apply hoare_ret. }
    destruct (Hdns log) as (ext0 & Hlog0 & Hext0 & _).
    destruct (for_each _ _ Cli.TEST_DNS E log) as [[dns_results | e] log1];
      simpl in Hlog0; subst log1.
    - set (S := fun ip => ip ∈ address_set dns_results).
      match goal with
      | |- context [snd (?m E _)] =>
        assert (hoare E m (cli_allowed domain S)
                  (fun r => r_dns r = dns_results)) as Hk
      end.
      { cbv zeta. case_bool_decide as Hnil; [by apply hoare_ret |].
        apply (hoare_bind E _ _ _ (fun _ => True)).
        - apply hoare_for_each; [done |]. intros conn ip _ Hip.
          apply elem_of_elements in Hip.
          apply hoare_cli_probe_ip; unfold cli_allowed; simpl; auto.
        - intros conn _. by apply hoare_ret. }
      destruct (Hk (log ++ ext0)) as (ext1 & Hlog1 & Hext1 & Hval1).
      exists (ext0 ++ ext1), S. split; [by rewrite Hlog1, app_assoc |].
      split.
      + apply Forall_app. split; [| done].
        eapply Forall_impl; [exact Hext0 |]. intros c.
        by apply cli_allowed_mono.
      + intros r Hr ip Hip. by rewrite (Hval1 r Hr).
    - exists ext0, (fun _ => False). by repeat split. }
  destruct Hmain as (ext & S & Hlog & Hext & HS).
  exists ext. split; [done |]. split.
  - eapply Forall_impl; [exact Hext |]. intros c. by apply cli_allowed_mono.
  - intros r Hr. eapply Forall_impl; [exact Hext |]. intros c.
    apply cli_allowed_mono. by apply HS.
Qed.

(** *** The GUI's local test *)

Lemma isinstance_base (e : exn) : isinstance e BaseException = true.
Proof. by destruct e. Qed.

Lemma gui_dig_query_run domain dns (E : env) log :
  Gui.dig_query domain dns E log =
  (Ok match dig_out E log domain dns with
      | Ok out => filter (fun r => nonempty r) (split_lines (strip out))
      | Raise _ => []
      end, log ++ [CDig domain dns 4]).
Proof.
  unfold Gui.dig_query, try_except, sys_dig.
  rewrite bind_run. destruct (dig_out E log domain dns) as [out | e]; [done |].
  simpl. by rewrite isinstance_base.
Qed.

Lemma gui_tcp_connect_run ip port (E : env) log :
  Gui.tcp_connect ip port E log =
  match connect_out E log ip port with
  | None => (Ok true, (log ++ [CConnect ip port 4]) ++ [CClose ip port])
  | Some _ => (Ok false, log ++ [CConnect ip port 4])
  end.
Proof.
  unfold Gui.tcp_connect, try_except, sys_connect, sys_close.
  rewrite bind_run. destruct (connect_out E log ip port) as [e |]; [| done].
  simpl. by rewrite isinstance_base.
Qed.

Lemma gui_tls_handshake_run domain (E : env) log :
  Gui.tls_handshake domain E log =
  (Ok match tls_out E log domain with
      | None => VBool true
      | Some (_, e) =>
        if isinstance e SSLError then VStr "TLS-Reset" else VBool false
      end, log ++ [CTls domain 4]).
Proof.
  unfold Gui.tls_handshake, try_except, sys_tls.
  rewrite bind_run. destruct (tls_out E log domain) as [[ph e] |]; [| done].
  simpl. destruct (isinstance e SSLError); [done |].
  by rewrite isinstance_base.
Qed.

Lemma gui_dig_query_returns (E : env) domain dns :
  returns E (Gui.dig_query domain dns) (fun _ => True).
Proof. intros log. rewrite gui_dig_query_run. by eauto. Qed.

Lemma gui_tcp_connect_returns (E : env) ip port :
  returns E (Gui.tcp_connect ip port) (fun _ => True).
Proof.
  intros log. rewrite gui_tcp_connect_run.
  destruct (connect_out E log ip port); by eauto.
Qed.

Lemma gui_tls_handshake_returns (E : env) domain :
  returns E (Gui.tls_handshake domain) tls_result.
Proof.
  intros log. rewrite gui_tls_handshake_run. eexists _, _.
  split; [done |]. unfold tls_result.
  destruct (tls_out E log domain) as [[ph e] |]; [| by auto].
  destruct (isinstance e SSLError); by auto.
Qed.

Lemma gui_record_base (b80 b443 : bool) :
  gui_record (<["tcp_443" := VBool b443]> (<["tcp_80" := VBool b80]> ∅)).
Proof.
  unfold gui_record. split; [| split; [| split]].
  - exists b80. rewrite lookup_insert_ne by done. apply lookup_insert_eq.
  - exists b443. apply lookup_insert_eq.
  - intros v. by rewrite !lookup_insert_ne, lookup_empty by done.
  - intros k [w Hw].
    destruct (decide (k = "tcp_443")) as [-> | H443]; [auto |].
    destruct (decide (k = "tcp_80")) as [-> | H80]; [auto |].
    by rewrite !lookup_insert_ne, lookup_empty in Hw by done.
Qed.

Lemma gui_record_tls (c : gmap string pyval) (v : pyval) :
  gui_record c -> tls_result v -> gui_record (<["tls" := v]> c).
Proof.
  intros (H80 & H443 & Htls & Hkeys) Hv.
  unfold gui_record. rewrite !lookup_insert_ne by done.
  split; [done |]. split; [done |]. split.
  - intros w. rewrite lookup_insert_eq. by intros [= <-].
  - intros k Hk. destruct (decide (k = "tls")) as [-> | Hne]; [auto |].
    rewrite lookup_insert_ne in Hk by done. by apply Hkeys.
Qed.

Lemma gui_test_ip_returns (E : env) domain
    (conn : gmap string (gmap string pyval)) ip :
  returns E (Gui.test_ip domain conn ip)
          (fun conn' => exists c, gui_record c /\ conn' = <[ip := c]> conn).
Proof.
  unfold Gui.test_ip. cbv zeta. simpl for_each.
  change (tcp_key 80) with "tcp_80". change (tcp_key 443) with "tcp_443".
  set (P := fun conn' : gmap string (gmap string pyval) =>
              exists c, gui_record c /\ conn' = <[ip := c]> conn).
  apply (returns_bind E _ _ P).
  { apply (returns_bind E _ _
             (fun c1 => exists b80 : bool,
                c1 = <[ip := <["tcp_80" := VBool b80]> ∅]> conn)).
    { eapply returns_bind; [apply (gui_tcp_connect_returns E ip 80) |].
      intros b80 _. rewrite setitem2_insert. apply returns_ret. by exists b80. }
    intros ? [b80 ->].
    apply (returns_bind E _ _ P); [| intros; by apply returns_ret].
    eapply returns_bind; [apply (gui_tcp_connect_returns E ip 443) |].
    intros b443 _. rewrite setitem2_insert. apply returns_ret.
    eexists. split; [apply (gui_record_base b80 b443) | done]. }
  intros ? (c1 & Hc1 & ->).
  eapply returns_bind; [apply (gui_tcp_connect_returns E ip 443) |].
  intros open443 _. destruct open443.
  - eapply returns_bind; [apply gui_tls_handshake_returns |].
    intros v Hv. rewrite setitem2_insert. apply returns_ret.
    eexists. split; [by apply gui_record_tls | done].
  - apply returns_ret. by exists c1.
Qed.

Lemma gui_local_test_returns (E : env) domain :
  returns E (Gui.local_test domain)
          (fun r =>
             Gui.l_all_ips r = elements (address_set (Gui.l_dns r))
             /\ (forall name, is_Some (Gui.l_dns r !! name)
                              <-> name ∈ Gui.TEST_DNS.*1)
             /\ records_of (fun _ => gui_record) (Gui.l_all_ips r)
                           (Gui.l_connectivity r)).
Proof.
  unfold Gui.local_test.
  eapply returns_bind.
  { apply (returns_for_each_prefix E _
             (fun (pre : list (string * string))
                  (d : gmap string (list string)) =>
                forall name, is_Some (d !! name) <-> name ∈ pre.*1)).
    - intros name. rewrite lookup_empty. split.
      + by intros [? ?].
      + intros Hin. by apply elem_of_nil in Hin.
    - intros pre nd d Hd _.
      eapply returns_bind; [apply gui_dig_query_returns |].
      intros ips _. apply returns_ret. intros name.
      rewrite lookup_insert_is_Some, fmap_app, elem_of_app, Hd. simpl.
      rewrite list_elem_of_singleton.
      destruct (decide (fst nd = name)) as [Heq | Hne].
      + split; auto.
      + split.
        * intros [Heq | [_ Hin]]; [congruence | by auto].
        * intros [Hin | Heq]; [by auto | congruence]. }
  intros dns Hdns. cbv zeta. eapply returns_bind.
  { apply (returns_for_each_prefix E _ (records_of (fun _ => gui_record))).
    - apply records_of_nil.
    - intros pre x conn Hconn _. eapply returns_mono.
      + apply gui_test_ip_returns.
      + intros conn' (c & Hc & ->). by apply records_of_snoc. }
  intros conn Hconn. apply returns_ret. simpl. by split.
Qed.

Lemma elem_of_overseas_set
    (overseas : gmap string (option (gmap string (list string)))) ip :
  ip ∈ Gui.overseas_set overseas
  <-> exists api dns, overseas !! api = Some (Some dns)
                      /\ ip ∈ address_set dns.
Proof.
  unfold Gui.overseas_set.
  assert (forall l : list (string * option (gmap string (list string))),
            ip ∈ foldr (fun ar acc =>
                          match snd ar with
                          | Some dns => address_set dns ∪ acc
                          | None => acc
                          end) (∅ : gset string) l
            <-> exists api dns, (api, Some dns) ∈ l /\ ip ∈ address_set dns)
    as Hfold.
  { induction l as [| [api r] l IH]; simpl.
    - split; [intros Hin; by apply not_elem_of_empty in Hin |].
      intros (api & dns & Hin & _). by apply elem_of_nil in Hin.
    - destruct r as [dns |].
      + rewrite elem_of_union, IH. split.
        * intros [Hip | (api' & dns' & Hin & Hip)].
          -- exists api, dns. split; [by left | done].
          -- exists api', dns'. split; [by right | done].
        * intros (api' & dns' & Hin & Hip).
          apply elem_of_cons in Hin as [[= -> ->] | Hin]; [by left |].
          right. by exists api', dns'.
      + rewrite IH. split.
        * intros (api' & dns' & Hin & Hip). exists api', dns'.
          split; [by right | done].
        * intros (api' & dns' & Hin & Hip).
          apply elem_of_cons in Hin as [[=] | Hin]. by exists api', dns'. }
  rewrite Hfold. split.
  - intros (api & dns & Hin & Hip). exists api, dns.
    split; [by apply elem_of_map_to_list in Hin | done].
  - intros (api & dns & Hin & Hip). exists api, dns.
    split; [by apply elem_of_map_to_list | done].
Qed.

(** ** Further properties of the service *)

Lemma api_gating_invariant_witness :
  exists r log',
    Api.check_domain "example.com" E_closed [] = (Ok r, log')
    /\ forall ip, ip ∈ address_set (r_dns r) ->
         (is_Some (record_get r ip "tls")
          <-> record_get r ip "tcp_443" = Some (VBool true))
         /\ (is_Some (record_get r ip "http")
             <-> record_get r ip "tcp_80" = Some (VBool true)).
Proof. exact (api_gating_invariant E_closed "example.com" [] env_io_closed). Defined.

(** X3: the HTTP probe of the script hands [send] the fixed request with
    [Host: test], asks [recv] for 50 bytes and answers whether what came
    begins with [HTTP]; an exception at any step gives [False]. *)
Theorem cli_http_head_spec (E : env) (ip : string) (log : list call) :
  let log1 := log ++ [CConnect ip 80 4] in
  let log2 := log1 ++ [CSend ip Cli.head_request] in
  Cli.head_request
  = "HEAD / HTTP/1.1" +:+ CRLF +:+ "Host: test" +:+ CRLF
    +:+ "Connection: close" +:+ CRLF +:+ CRLF
  /\ (forall s, connect_out E log ip 80 = None ->
        send_out E log1 ip Cli.head_request = None ->
        recv_out E log2 ip = Ok s ->
        exists b, Cli.http_head ip E log = (Ok b, log2 ++ [CRecv ip 50])
          /\ String.length (substring 0 50 s) <= 50
          /\ (b = true <-> exists rest, substring 0 50 s = "HTTP" +:+ rest))
  /\ (forall e, isinstance e Exception = true ->
        http_raises ip Cli.head_request E log e ->
        fst (Cli.http_head ip E log) = Ok false).
Proof.
  simpl. split; [done |]. split.
  - intros s Hc Hs Hr. eexists. rewrite cli_http_head_run. unfold http_steps.
    rewrite Hc, Hs, Hr. split; [done |].
    split; [apply substring_length_le | apply startswith_iff].
  - intros e He Hraise. rewrite cli_http_head_run.
    unfold http_steps, absorbed.
    destruct Hraise as [Hc | [[Hc Hs] | (Hc & Hs & Hr)]].
    + by rewrite Hc, He.
    + by rewrite Hc, Hs, He.
    + by rewrite Hc, Hs, Hr, He.
Qed.

(** X4: on any environment, every call of a run of [check_domain] that
    returns is a clock reading, a [dig] of the domain at a configured
    resolver, a connection to port 80 or 443 (or its close), the [HEAD]
    request for the domain, a [recv] of 50 bytes or a TLS attempt at the
    domain, all with the timeout 4, and every host the run contacted is an
    address of the report's address set.  Nothing is said of the order of
    the calls. *)
Theorem api_calls_disciplined (E : env) (domain : string)
    (log log' : list call) (r : report) :
  Api.check_domain domain E log = (Ok r, log') ->
  exists ext,
    log' = log ++ ext
    /\ Forall (allowed domain (Api.head_request domain)
                       (fun ip => ip ∈ address_set (r_dns r))) ext.
Proof.
  intros Hrun.
  destruct (api_check_domain_hoare E domain log) as (ext & Hlog & _ & Hr).
  rewrite Hrun in Hlog, Hr. simpl in Hlog, Hr.
  exists ext. split; [done |]. by apply Hr.
Qed.

Lemma api_calls_disciplined_witness :
  exists r log' ext,
    Api.check_domain "example.com" (E_open "1.2.3.4" "HTTP/1.1 200 OK" None) []
    = (Ok r, log')
    /\ log' = [] ++ ext
    /\ Forall (allowed "example.com" (Api.head_request "example.com")
                       (fun ip => ip ∈ address_set (r_dns r))) ext.
Proof.
  assert (exists r log',
            Api.check_domain "example.com"
              (E_open "1.2.3.4" "HTTP/1.1 200 OK" None) [] = (Ok r, log'))
    as (r & log' & Hrun).
  { vm_compute. eexists _, _. reflexivity. }
  exists r, log'.
  destruct (api_calls_disciplined _ _ _ _ _ Hrun) as (ext & Hlog & Hext).
  exists ext. exact (conj Hrun (conj Hlog Hext)).
Defined.

(** X5: the connectivity mapping of a report holds a record for each
    address of the address set and for no other; a record has booleans
    under [tcp_80] and [tcp_443], under [tls] (if present) one of [True],
    ["TLS-Reset"], [False], under [http] (if present) the pair of its own
    address and a boolean, and no other key. *)
Theorem api_records_wellformed (E : env) (domain : string)
    (log : list call) :
  env_io E ->
  exists r log',
    Api.check_domain domain E log = (Ok r, log')
    /\ (forall ip, ip ∈ address_set (r_dns r)
                   <-> is_Some (r_connectivity r !! ip))
    /\ forall ip c, r_connectivity r !! ip = Some c -> api_record ip c.
Proof.
  intros HE.
  destruct (api_check_domain_returns E domain HE log) as (r & log' & Hrun & _).
  destruct (api_check_domain_hoare E domain log) as (ext & _ & _ & Hr).
  rewrite Hrun in Hr.
  destruct (Hr r eq_refl) as [(_ & _ & _ & Hdom & Hrec) _].
  exists r, log'. split; [done |]. split; [| done].
  intros ip. rewrite <- Hdom. by rewrite elem_of_elements.
Qed.

Lemma api_records_wellformed_witness :
  exists r log',
    Api.check_domain "example.com"
      (E_open "1.2.3.4" "HTTP/1.1 200 OK" None) [] = (Ok r, log')
    /\ (forall ip, ip ∈ address_set (r_dns r)
                   <-> is_Some (r_connectivity r !! ip))
    /\ forall ip c, r_connectivity r !! ip = Some c -> api_record ip c.
Proof.
  apply (api_records_wellformed (E_open "1.2.3.4" "HTTP/1.1 200 OK" None)
           "example.com" []).
  apply env_io_open. intros ph e Hnone. discriminate Hnone.
Defined.

(** X6: a report carries the domain it was asked about, a timestamp, and
    under [dns] an entry for each of the four configured resolvers, those
    that failed included, and for no other name. *)
Theorem api_report_header (E : env) (domain : string) (log : list call) :
  env_io E ->
  exists r log',
    Api.check_domain domain E log = (Ok r, log')
    /\ r_domain r = domain
    /\ is_Some (r_timestamp r)
    /\ forall name,
         is_Some (r_dns r !! name)
         <-> name ∈ ["Google(8.8.8.8)"; "Cloudflare(1.1.1.1)";
                     "Ali(223.5.5.5)"; "114DNS(114.114.114.114)"].
Proof.
  intros HE.
  destruct (api_check_domain_returns E domain HE log) as (r & log' & Hrun & _).
  destruct (api_check_domain_hoare E domain log) as (ext & _ & _ & Hr).
  rewrite Hrun in Hr.
  destruct (Hr r eq_refl) as [(Hd & Ht & Hdns & _) _].
  exists r, log'. split; [done |]. split; [done |]. split; [done |].
  exact Hdns.
Qed.

Lemma api_report_header_witness :
  exists r log',
    Api.check_domain "example.com" (E_unresolved 0 1) [] = (Ok r, log')
    /\ r_domain r = "example.com"
    /\ is_Some (r_timestamp r)
    /\ forall name,
         is_Some (r_dns r !! name)
         <-> name ∈ ["Google(8.8.8.8)"; "Cloudflare(1.1.1.1)";
                     "Ali(223.5.5.5)"; "114DNS(114.114.114.114)"].
Proof.
  exact (api_report_header (E_unresolved 0 1) "example.com" []
           (env_io_unresolved 0 1)).
Defined.

(** X7: on a finished run the list of indicators is made of at most three
    entries in a fixed order: the DNS indicator exactly when the address set
    has several addresses, then the TLS-reset indicator exactly when some
    record holds ["TLS-Reset"] under [tls], then the TCP-failure indicator
    exactly when no record has an open port. *)
Theorem blocked_indicators_characterised (E : env) (domain : string)
    (log : list call) :
  env_io E ->
  exists r log',
    Api.check_domain domain E log = (Ok r, log')
    /\ (size (address_set (r_dns r)) <> 0 ->
        exists dp rs tf : bool,
          summary_get r "blocked_indicators"
          = Some (VList ((if dp then [Api.DNS_POLLUTION] else [])
                         ++ (if rs then [Api.TLS_RESET] else [])
                         ++ (if tf then [Api.TCP_FAILED] else [])))
          /\ (dp = true <-> 1 < size (address_set (r_dns r)))
          /\ (rs = true
              <-> exists ip, record_get r ip "tls" = Some (VStr "TLS-Reset"))
          /\ (tf = true
              <-> forall ip c, r_connectivity r !! ip = Some c ->
                    get_truthy (c !! "tcp_80") = false
                    /\ get_truthy (c !! "tcp_443") = false)).
Proof.
  intros HE.
  destruct (api_check_domain_returns E domain HE log) as (r & log' & Hrun & Hr).
  exists r, log'. split; [done |]. intros Hsize.
  destruct Hr as [(Hzero & _) | (_ & _ & el & Hsum)]; [done |].
  destruct (final_summary_lookup (address_set (r_dns r)) (r_connectivity r) el)
    as (_ & Hind & _).
  exists (bool_decide (1 < size (address_set (r_dns r)))),
         (Api.tls_reset_seen (r_connectivity r)),
         (Api.all_tcp_failed (r_connectivity r)).
  unfold summary_get. rewrite Hsum. simpl. split; [exact Hind |].
  split; [apply bool_decide_eq_true |]. split; [| apply all_tcp_failed_iff].
  rewrite tls_reset_seen_iff. unfold record_get. split.
  - intros (ip & c & Hc & Htls). exists ip. by rewrite Hc.
  - intros [ip Htls]. destruct (r_connectivity r !! ip) as [c |] eqn:Hc;
      [| done]. by exists ip, c.
Qed.

Lemma blocked_indicators_characterised_witness :
  exists r log',
    Api.check_domain "example.com" E_closed [] = (Ok r, log')
    /\ (size (address_set (r_dns r)) <> 0 ->
        exists dp rs tf : bool,
          summary_get r "blocked_indicators"
          = Some (VList ((if dp then [Api.DNS_POLLUTION] else [])
                         ++ (if rs then [Api.TLS_RESET] else [])
                         ++ (if tf then [Api.TCP_FAILED] else [])))
          /\ (dp = true <-> 1 < size (address_set (r_dns r)))
          /\ (rs = true
              <-> exists ip, record_get r ip "tls" = Some (VStr "TLS-Reset"))
          /\ (tf = true
              <-> forall ip c, r_connectivity r !! ip = Some c ->
                    get_truthy (c !! "tcp_80") = false
                    /\ get_truthy (c !! "tcp_443") = false)).
Proof.
  exact (blocked_indicators_characterised E_closed "example.com" []
           env_io_closed).
Defined.

(** X8: on a finished run [is_blocked] is true exactly when the list of
    indicators is not empty, the conclusion is one of two fixed strings
    chosen by [is_blocked], and several resolved addresses alone make
    [is_blocked] true. *)
Theorem verdict_follows_indicators (E : env) (domain : string)
    (log : list call) :
  env_io E ->
  exists r log',
    Api.check_domain domain E log = (Ok r, log')
    /\ (size (address_set (r_dns r)) <> 0 ->
        exists (l : list string) (b : bool),
          summary_get r "blocked_indicators" = Some (VList l)
          /\ summary_get r "is_blocked" = Some (VBool b)
          /\ summary_get r "conclusion"
             = Some (VStr (if b then "域名疑似被墙" else "未发现明显封锁"))
          /\ (b = true <-> l <> [])
          /\ (1 < size (address_set (r_dns r)) -> b = true)).
Proof.
  intros HE.
  destruct (api_check_domain_returns E domain HE log) as (r & log' & Hrun & Hr).
  exists r, log'. split; [done |]. intros Hsize.
  destruct Hr as [(Hzero & _) | (_ & _ & el & Hsum)]; [done |].
  destruct (final_summary_lookup (address_set (r_dns r)) (r_connectivity r) el)
    as (_ & Hind & Hisb & _).
  destruct (final_summary_conclusion (address_set (r_dns r))
              (r_connectivity r) el) as [Hconc _].
  eexists _, _. unfold summary_get. rewrite Hsum. simpl.
  split; [exact Hind |]. split; [exact Hisb |]. split; [exact Hconc |].
  split.
  - rewrite bool_decide_eq_true.
    destruct (Api.blocked_indicators _ _); simpl; split; (done || lia).
  - intros Hmany. apply bool_decide_eq_true. unfold Api.blocked_indicators.
    rewrite (bool_decide_eq_true_2 _ Hmany). simpl. lia.
Qed.

Lemma verdict_follows_indicators_witness :
  exists r log',
    Api.check_domain "example.com" E_closed [] = (Ok r, log')
    /\ (size (address_set (r_dns r)) <> 0 ->
        exists (l : list string) (b : bool),
          summary_get r "blocked_indicators" = Some (VList l)
          /\ summary_get r "is_blocked" = Some (VBool b)
          /\ summary_get r "conclusion"
             = Some (VStr (if b then "域名疑似被墙" else "未发现明显封锁"))
          /\ (b = true <-> l <> [])
          /\ (1 < size (address_set (r_dns r)) -> b = true)).
Proof.
  exact (verdict_follows_indicators E_closed "example.com" [] env_io_closed).
Defined.

(** X9: the summary's [all_ips] lists, without repetition, exactly the
    addresses that occur in the resolvers' answers, on finished runs and on
    runs cut short alike. *)
Theorem all_ips_lists_the_answers (E : env) (domain : string)
    (log : list call) :
  env_io E ->
  exists r log' l,
    Api.check_domain domain E log = (Ok r, log')
    /\ summary_get r "all_ips" = Some (VList l)
    /\ NoDup l
    /\ forall ip, ip ∈ l
         <-> exists name ips, r_dns r !! name = Some ips /\ ip ∈ ips.
Proof.
  intros HE.
  destruct (api_check_domain_returns E domain HE log) as (r & log' & Hrun & Hr).
  exists r, log', (elements (address_set (r_dns r))).
  split; [done |]. split; [| split].
  - unfold summary_get.
    destruct Hr as [(_ & _ & el & ->) | (_ & _ & el & ->)]; simpl.
    + rewrite !lookup_insert_ne by done. apply dns_summary_lookup.
    + apply final_summary_conclusion.
  - apply NoDup_elements.
  - intros ip. rewrite elem_of_elements. apply elem_of_address_set.
Qed.

Lemma all_ips_lists_the_answers_witness :
  exists r log' l,
    Api.check_domain "example.com" E_closed [] = (Ok r, log')
    /\ summary_get r "all_ips" = Some (VList l)
    /\ NoDup l
    /\ forall ip, ip ∈ l
         <-> exists name ips, r_dns r !! name = Some ips /\ ip ∈ ips.
Proof.
  exact (all_ips_lists_the_answers E_closed "example.com" [] env_io_closed).
Defined.

(** X10: a run that returns has read the clock twice, then queried each
    configured resolver exactly once, in some order, then made only calls
    of connectivity probes, then read the clock once more: no resolver is
    queried twice and none after the DNS stage. *)
Theorem one_query_per_resolver (E : env) (domain : string)
    (log : list call) :
  env_io E ->
  exists r digs mid,
    Api.check_domain domain E log
    = (Ok r, (log ++ [CTime; CTime] ++ digs ++ mid) ++ [CTime])
    /\ Permutation digs
         [CDig domain "8.8.8.8" 4; CDig domain "1.1.1.1" 4;
          CDig domain "223.5.5.5" 4; CDig domain "114.114.114.114" 4]
    /\ Forall probe_call mid.
Proof.
  intros HE.
  destruct (api_check_domain_run_io E domain log HE)
    as (r & mid & Hrun & Hmid & _).
  exists r, (dig_calls domain), mid. split; [done |]. by split.
Qed.

Lemma one_query_per_resolver_witness :
  exists r digs mid,
    Api.check_domain "example.com" E_closed []
    = (Ok r, ([] ++ [CTime; CTime] ++ digs ++ mid) ++ [CTime])
    /\ Permutation digs
         [CDig "example.com" "8.8.8.8" 4; CDig "example.com" "1.1.1.1" 4;
          CDig "example.com" "223.5.5.5" 4;
          CDig "example.com" "114.114.114.114" 4]
    /\ Forall probe_call mid.
Proof.
  exact (one_query_per_resolver E_closed "example.com" [] env_io_closed).
Defined.

(** X11: whatever the subtraction and the rounding of floats return,
    [timestamp] is the second clock reading of the run, and [elapsed_time]
    is computed from the last reading and the first, which is taken before
    anything else: their difference as it is on a run cut short, the
    difference rounded on a finished run. *)
Theorem timestamp_and_elapsed_time (fsub : Q -> Q -> Q) (fround2 : Q -> Q)
    (E : env) (domain : string) (log : list call) :
  env_io E ->
  exists r log',
    ApiFloat.check_domain fsub fround2 domain E log = (Ok r, log' ++ [CTime])
    /\ r_timestamp r = Some (clock E (log ++ [CTime]))
    /\ summary_get r "elapsed_time"
       = Some (VFloat
                 (if bool_decide (size (address_set (r_dns r)) = 0)
                  then fsub (clock E log') (clock E log)
                  else fround2 (fsub (clock E log') (clock E log)))).
Proof.
  intros HE.
  destruct (api_float_check_domain_run_io fsub fround2 E domain log HE)
    as (r & mid & Hrun & _ & Hts & Hel).
  exists r, (log ++ [CTime; CTime] ++ dig_calls domain ++ mid).
  split; [done |]. split; [done |]. rewrite Hel. simpl.
  by destruct (bool_decide _).
Qed.

Lemma timestamp_and_elapsed_time_witness :
  exists r log',
    ApiFloat.check_domain Qminus py_round2 "example.com" E_closed []
    = (Ok r, log' ++ [CTime])
    /\ r_timestamp r = Some (clock E_closed ([] ++ [CTime]))
    /\ summary_get r "elapsed_time"
       = Some (VFloat
                 (if bool_decide (size (address_set (r_dns r)) = 0)
                  then Qminus (clock E_closed log') (clock E_closed [])
                  else py_round2
                         (Qminus (clock E_closed log') (clock E_closed [])))).
Proof.
  exact (timestamp_and_elapsed_time Qminus py_round2 E_closed "example.com" []
           env_io_closed).
Defined.

(** ** Further properties of the probes *)

(** X12: an entry the resolver probe returns is one line of [dig]'s
    output: in the service it is not blank, in the script it is not empty;
    and on the same output the service's answer is the script's answer
    without its blank entries. *)
Theorem dig_query_entries (E : env) (domain dns : string)
    (log : list call) :
  (forall l, fst (Api.dig_query domain dns E log) = Ok l ->
     Forall (fun r => strip r <> "" /\ r <> "" /\ one_line r) l)
  /\ (forall l, fst (Cli.dig_query domain dns E log) = Ok l ->
        Forall (fun r => r <> "" /\ one_line r) l
        /\ fst (Api.dig_query domain dns E log)
           = Ok (filter (fun r => nonempty (strip r)) l)).
Proof.
  rewrite api_dig_query_run, cli_dig_query_run. simpl.
  assert (forall s, nonempty s <-> s <> "") as Hne.
  { intros s. unfold nonempty. destruct (String.eqb_spec s ""); simpl.
    - split; [done | by intros []].
    - by split. }
  destruct (dig_out E log domain dns) as [out | e].
  - split.
    + intros l [= <-]. apply Forall_forall. intros r Hr.
      apply list_elem_of_filter in Hr as [Hr Hin].
      apply andb_prop_elim in Hr as [Hr1 Hr2].
      split; [by apply Hne |]. split; [by apply Hne |].
      pose proof (split_lines_one_line (strip out)) as Hlines.
      rewrite Forall_forall in Hlines. by apply Hlines.
    + intros l [= <-]. split.
      * apply Forall_forall. intros r Hr.
        apply list_elem_of_filter in Hr as [Hr Hin].
        split; [by apply Hne |].
        pose proof (split_lines_one_line (strip out)) as Hlines.
        rewrite Forall_forall in Hlines. by apply Hlines.
      * f_equal. rewrite list_filter_filter. apply list_filter_iff.
        intros r. rewrite andb_True. tauto.
  - unfold absorbed. destruct (isinstance e Exception); [| by split].
    split.
    + by intros l [= <-].
    + intros l [= <-]. by split.
Qed.

(** X13: the probes of the script absorb every [Exception], as those of
    the service do: the resolver probe returns the empty list, the
    reachability and HTTP probes [False], the TLS probe ["TLS-Reset"] or
    [False]. *)
Theorem cli_probes_absorb_exceptions (E : env) (domain dns ip : string)
    (port : Z) (log : list call) (e : exn) :
  isinstance e Exception = true ->
  (dig_out E log domain dns = Raise e ->
   fst (Cli.dig_query domain dns E log) = Ok [])
  /\ (connect_out E log ip port = Some e ->
      fst (Cli.tcp_connect ip port E log) = Ok false)
  /\ (http_raises ip Cli.head_request E log e ->
      fst (Cli.http_head ip E log) = Ok false)
  /\ (forall ph, tls_out E log domain = Some (ph, e) ->
      fst (Cli.tls_handshake domain E log)
      = Ok (if isinstance e SSLError then VStr "TLS-Reset" else VBool false)).
Proof.
  intros He. split; [| split; [| split]].
  - intros Hdig. rewrite cli_dig_query_run, Hdig. unfold absorbed.
    by rewrite He.
  - intros Hconn. rewrite cli_tcp_connect_run, api_tcp_connect_run, Hconn.
    unfold absorbed. by rewrite He.
  - intros Hhttp. rewrite cli_http_head_run. unfold http_steps, absorbed.
    destruct Hhttp as [Hc | [[Hc Hs] | (Hc & Hs & Hr)]].
    + by rewrite Hc, He.
    + by rewrite Hc, Hs, He.
    + by rewrite Hc, Hs, Hr, He.
  - intros ph Htls.
    change (Cli.tls_handshake domain E log)
      with (Api.tls_handshake domain E log).
    rewrite api_tls_handshake_run, Htls. unfold absorbed. rewrite He.
    by destruct (isinstance e SSLError).
Qed.

Lemma cli_probes_absorb_exceptions_witness :
  fst (Cli.dig_query "example.com" "8.8.8.8" (E_raising SSLEOFError) [])
  = Ok []
  /\ fst (Cli.tcp_connect "1.2.3.4" 443 (E_raising SSLEOFError) [])
     = Ok false
  /\ fst (Cli.http_head "1.2.3.4" (E_raising SSLEOFError) []) = Ok false
  /\ fst (Cli.tls_handshake "example.com" (E_raising SSLEOFError) [])
     = Ok (VStr "TLS-Reset").
Proof.
  destruct (cli_probes_absorb_exceptions (E_raising SSLEOFError)
              "example.com" "8.8.8.8" "1.2.3.4" 443 [] SSLEOFError eq_refl)
    as (Hdig & Htcp & Hhttp & Htls).
  split; [by apply Hdig |]. split; [by apply Htcp |].
  split; [apply Hhttp; by left |]. by apply (Htls TlsHandshake).
Defined.

(** X14: an exception that is not an [Exception] ([KeyboardInterrupt],
    [SystemExit]) is not absorbed: each probe of the service raises it to
    its caller. *)
Theorem probes_raise_what_is_no_exception (E : env)
    (domain dns ip : string) (port : Z) (log : list call) (e : exn) :
  isinstance e Exception = false ->
  (dig_out E log domain dns = Raise e ->
   fst (Api.dig_query domain dns E log) = Raise e)
  /\ (connect_out E log ip port = Some e ->
      fst (Api.tcp_connect ip port E log) = Raise e)
  /\ (http_raises ip (Api.head_request domain) E log e ->
      fst (Api.http_head ip domain E log) = Raise e)
  /\ (forall ph, tls_out E log domain = Some (ph, e) ->
      fst (Api.tls_handshake domain E log) = Raise e).
Proof.
  intros He. split; [| split; [| split]].
  - intros Hdig. rewrite api_dig_query_run, Hdig. unfold absorbed.
    by rewrite He.
  - intros Hconn. rewrite api_tcp_connect_run, Hconn. unfold absorbed.
    by rewrite He.
  - intros Hhttp. rewrite api_http_head_run. unfold http_steps, absorbed.
    destruct Hhttp as [Hc | [[Hc Hs] | (Hc & Hs & Hr)]].
    + by rewrite Hc, He.
    + by rewrite Hc, Hs, He.
    + by rewrite Hc, Hs, Hr, He.
  - intros ph Htls. rewrite api_tls_handshake_run, Htls. unfold absorbed.
    rewrite He.
    destruct (isinstance e SSLError) eqn:Hssl; [| done].
    apply sslerror_is_exception in Hssl. congruence.
Qed.

Lemma probes_raise_what_is_no_exception_witness :
  fst (Api.dig_query "example.com" "8.8.8.8" (E_raising KeyboardInterrupt) [])
  = Raise KeyboardInterrupt
  /\ fst (Api.tcp_connect "1.2.3.4" 443 (E_raising KeyboardInterrupt) [])
     = Raise KeyboardInterrupt
  /\ fst (Api.http_head "1.2.3.4" "example.com"
            (E_raising KeyboardInterrupt) [])
     = Raise KeyboardInterrupt
  /\ fst (Api.tls_handshake "example.com" (E_raising KeyboardInterrupt) [])
     = Raise KeyboardInterrupt.
Proof.
  destruct (probes_raise_what_is_no_exception (E_raising KeyboardInterrupt)
              "example.com" "8.8.8.8" "1.2.3.4" 443 [] KeyboardInterrupt
              eq_refl)
    as (Hdig & Htcp & Hhttp & Htls).
  split; [by apply Hdig |]. split; [by apply Htcp |].
  split; [apply Hhttp; by left |]. by apply (Htls TlsHandshake).
Defined.

(** ** Properties of the script *)



(** X16: on any environment, whether the script's [run] returns or
    raises, every call it makes is a [dig] of the domain at a configured
    resolver, a connection to port 80 or 443 (or its close), the fixed
    [HEAD] request, a [recv] of 50 bytes or a TLS attempt at the domain,
    all with the timeout 4, and never a clock reading; and when the run
    returns, every host it contacted is an address of the report's address
    set. *)
Theorem cli_calls_disciplined (E : env) (domain : string) (log : list call) :
  exists ext,
    snd (Cli.run domain E log) = log ++ ext
    /\ Forall (cli_allowed domain (fun _ => True)) ext
    /\ forall r, fst (Cli.run domain E log) = Ok r ->
         Forall (cli_allowed domain (fun ip => ip ∈ address_set (r_dns r)))
                ext.
Proof. exact (cli_run_hoare E domain log). Qed.

(** ** Properties of the routes *)

(** X17: a domain that is empty or all white space is refused by both
    routes with status 400, before the clock is read or any probe is
    made. *)
Theorem blank_domain_is_refused (str : exn -> string) (E : env)
    (d : string) (log : list call) :
  strip d = "" ->
  ApiRoutes.check_domain_get str d E log
  = (ApiRoutes.HTTPException 400 ApiRoutes.EMPTY_DOMAIN, log)
  /\ ApiRoutes.check_domain_post str {| ApiRoutes.domain := d |} E log
     = (ApiRoutes.HTTPException 400 ApiRoutes.EMPTY_DOMAIN, log).
Proof.
  intros Hblank.
  unfold ApiRoutes.check_domain_get, ApiRoutes.check_domain_post. simpl.
  rewrite Hblank. simpl. by rewrite orb_true_r.
Qed.

Lemma blank_domain_is_refused_witness :
  ApiRoutes.check_domain_get (fun _ => "") "  " (E_open "1.2.3.4" "" None) []
  = (ApiRoutes.HTTPException 400 ApiRoutes.EMPTY_DOMAIN, [])
  /\ ApiRoutes.check_domain_post (fun _ => "") {| ApiRoutes.domain := "  " |}
       (E_open "1.2.3.4" "" None) []
     = (ApiRoutes.HTTPException 400 ApiRoutes.EMPTY_DOMAIN, []).
Proof.
  apply (blank_domain_is_refused (fun _ => "") (E_open "1.2.3.4" "" None)
           "  " []).
  reflexivity.
Defined.

(** X18: the two routes answer alike: [GET /check] with a domain and
    [POST /check] with that domain in the body give the same outcome and
    make the same calls, on every environment. *)
Theorem get_and_post_agree (str : exn -> string) (E : env) (d : string)
    (log : list call) :
  ApiRoutes.check_domain_get str d E log
  = ApiRoutes.check_domain_post str {| ApiRoutes.domain := d |} E log.
Proof.
  unfold ApiRoutes.check_domain_get, ApiRoutes.check_domain_post. simpl.
  destruct (nonempty d) eqn:Hd; simpl; [done |].
  unfold nonempty in Hd. apply negb_false_iff, String.eqb_eq in Hd.
  subst d. by rewrite strip_empty.
Qed.

(** X19: for a domain that is not blank, on an environment that raises
    only [Exception]s, a route answers with the report of [check_domain]
    run on the domain stripped of the white space around it, never with an
    error status. *)
Theorem route_answers_with_the_report (str : exn -> string) (E : env)
    (d : string) (log : list call) :
  env_io E -> strip d <> "" ->
  exists r log',
    ApiRoutes.check_domain_get str d E log = (ApiRoutes.Json r, log')
    /\ Api.check_domain (strip d) E log = (Ok r, log')
    /\ r_domain r = strip d.
Proof.
  intros HE Hd.
  destruct (api_check_domain_returns E (strip d) HE log)
    as (r & log' & Hrun & _).
  destruct (api_check_domain_hoare E (strip d) log) as (ext & _ & _ & Hr).
  rewrite Hrun in Hr. destruct (Hr r eq_refl) as [(Hdom & _) _].
  exists r, log'. split; [| by split].
  unfold ApiRoutes.check_domain_get.
  assert (nonempty (strip d) = true) as Hs.
  { unfold nonempty. apply negb_true_iff. by apply String.eqb_neq. }
  assert (nonempty d = true) as Hn.
  { unfold nonempty. apply negb_true_iff, String.eqb_neq.
    intros ->. by rewrite strip_empty in Hd. }
  rewrite Hs, Hn. simpl. by rewrite Hrun.
Qed.

Lemma route_answers_with_the_report_witness :
  exists r log',
    ApiRoutes.check_domain_get (fun _ => "") " example.com " E_closed []
    = (ApiRoutes.Json r, log')
    /\ Api.check_domain (strip " example.com ") E_closed [] = (Ok r, log')
    /\ r_domain r = strip " example.com ".
Proof.
  apply (route_answers_with_the_report (fun _ => "") E_closed
           " example.com " [] env_io_closed).
  intros Hblank. vm_compute in Hblank. discriminate Hblank.
Defined.

(** ** Properties of the GUI's worker *)

(** The probes of the GUI absorb whatever is raised,
    [KeyboardInterrupt] and [SystemExit] included: the resolver probe
    returns the empty list, the reachability probe [False], the TLS probe
    ["TLS-Reset"] for an [ssl.SSLError] and [False] otherwise. *)
Lemma gui_probes_absorb_everything (E : env) (domain dns ip : string)
    (port : Z) (log : list call) (e : exn) :
  (dig_out E log domain dns = Raise e ->
   fst (Gui.dig_query domain dns E log) = Ok [])
  /\ (connect_out E log ip port = Some e ->
      fst (Gui.tcp_connect ip port E log) = Ok false)
  /\ (forall ph, tls_out E log domain = Some (ph, e) ->
      fst (Gui.tls_handshake domain E log)
      = Ok (if isinstance e SSLError then VStr "TLS-Reset" else VBool false)).
Proof.
  split; [| split].
  - intros Hdig. by rewrite gui_dig_query_run, Hdig.
  - intros Hconn. by rewrite gui_tcp_connect_run, Hconn.
  - intros ph Htls. by rewrite gui_tls_handshake_run, Htls.
Qed.

(** X20: the local test returns on every environment, whatever its probes
    meet.  Its result has an answer for each configured resolver, lists
    under [all_ips] the addresses of the answers, and holds a record for
    each of them and for no other address; a record has booleans under
    [tcp_80] and [tcp_443], possibly a TLS result under [tls], and no other
    key. *)
Theorem gui_local_test_total (E : env) (domain : string) (log : list call) :
  exists r log',
    Gui.local_test domain E log = (Ok r, log')
    /\ Gui.l_all_ips r = elements (address_set (Gui.l_dns r))
    /\ (forall name,
          is_Some (Gui.l_dns r !! name)
          <-> name ∈ ["Google(8.8.8.8)"; "Cloudflare(1.1.1.1)";
                      "AliDNS(223.5.5.5)"; "114DNS(114.114.114.114)"])
    /\ (forall ip, ip ∈ Gui.l_all_ips r
                   <-> is_Some (Gui.l_connectivity r !! ip))
    /\ forall ip c, Gui.l_connectivity r !! ip = Some c -> gui_record c.
Proof.
  destruct (gui_local_test_returns E domain log)
    as (r & log' & Hrun & Hall & Hdns & Hdom & Hrec).
  exists r, log'. split; [done |]. split; [done |]. split; [exact Hdns |].
  by split.
Qed.

(** X21: [compare] concludes that nothing is blocked exactly when the
    addresses resolved locally are, as a set, the addresses in the [dns]
    answers of the remote replies; otherwise it concludes that the domain is
    blocked. *)
Theorem compare_verdict (local : Gui.local_result)
    (overseas : gmap string (option (gmap string (list string)))) :
  (Gui.conclusion (Gui.compare local overseas) = "未发现明显封锁"
   \/ Gui.conclusion (Gui.compare local overseas) = "域名疑似被墙")
  /\ (Gui.conclusion (Gui.compare local overseas) = "未发现明显封锁"
      <-> forall ip,
            ip ∈ Gui.l_all_ips local
            <-> exists api dns name ips,
                  overseas !! api = Some (Some dns)
                  /\ dns !! name = Some ips /\ ip ∈ ips).
Proof.
  unfold Gui.compare. simpl.
  assert ((list_to_set (Gui.l_all_ips local) : gset string)
          = Gui.overseas_set overseas
          <-> forall ip,
                ip ∈ Gui.l_all_ips local
                <-> exists api dns name ips,
                      overseas !! api = Some (Some dns)
                      /\ dns !! name = Some ips /\ ip ∈ ips) as Hsets.
  { rewrite set_eq. split; intros Heq ip; specialize (Heq ip).
    - rewrite elem_of_list_to_set, elem_of_overseas_set in Heq.
      rewrite Heq. split.
      + intros (api & dns & Ho & Hip).
        apply elem_of_address_set in Hip as (name & ips & Hd & Hip).
        by exists api, dns, name, ips.
      + intros (api & dns & name & ips & Ho & Hd & Hip). exists api, dns.
        split; [done |]. apply elem_of_address_set. by exists name, ips.
    - rewrite elem_of_list_to_set, elem_of_overseas_set, Heq. split.
      + intros (api & dns & name & ips & Ho & Hd & Hip). exists api, dns.
        split; [done |]. apply elem_of_address_set. by exists name, ips.
      + intros (api & dns & Ho & Hip).
        apply elem_of_address_set in Hip as (name & ips & Hd & Hip).
        by exists api, dns, name, ips. }
  case_bool_decide as Hne.
  - split; [by right |]. split; [intros Heq; discriminate Heq |].
    intros Hall. destruct Hne. by apply Hsets.
  - split; [by left |]. split; [| done].
    intros _. by apply Hsets.
Qed.

(** X22: when no remote reply carries a [dns] answer (every remote
    service was out of reach or answered with an error), [compare] reports
    the domain as blocked exactly when the local test resolved some
    address. *)
Theorem compare_without_overseas (local : Gui.local_result)
    (overseas : gmap string (option (gmap string (list string)))) :
  (forall api reply, overseas !! api = Some reply -> reply = None) ->
  Gui.overseas_ips (Gui.compare local overseas) = []
  /\ (Gui.conclusion (Gui.compare local overseas) = "域名疑似被墙"
      <-> Gui.l_all_ips local <> []).
Proof.
  intros Hnone.
  assert (Gui.overseas_set overseas = ∅) as Hempty.
  { apply set_eq. intros ip. rewrite elem_of_overseas_set. split.
    - intros (api & dns & Ho & _). by specialize (Hnone api _ Ho).
    - intros Hin. by apply not_elem_of_empty in Hin. }
  unfold Gui.compare. simpl. rewrite Hempty, elements_empty.
  split; [done |].
  assert ((list_to_set (Gui.l_all_ips local) : gset string) = ∅
          <-> Gui.l_all_ips local = []) as Hlocal.
  { split; [| by intros ->].
    destruct (Gui.l_all_ips local) as [| ip l]; [done |].
    intros Heq. assert (ip ∈ (∅ : gset string)) as Hin.
    { rewrite <- Heq. apply elem_of_list_to_set. by left. }
    by apply not_elem_of_empty in Hin. }
  case_bool_decide as Hne.
  - split; [| done]. intros _ Hnil. apply Hne. by apply Hlocal.
  - split; [intros Heq; discriminate Heq |].
    intros Hnil. destruct Hnil. by apply Hlocal.
Qed.

Lemma compare_without_overseas_witness :
  Gui.overseas_ips
    (Gui.compare {| Gui.l_dns := ∅; Gui.l_connectivity := ∅;
                    Gui.l_all_ips := ["1.2.3.4"] |}
                 {["http://localhost:8000/check?domain=" := None]}) = []
  /\ (Gui.conclusion
        (Gui.compare {| Gui.l_dns := ∅; Gui.l_connectivity := ∅;
                        Gui.l_all_ips := ["1.2.3.4"] |}
                     {["http://localhost:8000/check?domain=" := None]})
      = "域名疑似被墙"
      <-> ["1.2.3.4"] <> []).
Proof.
  apply (compare_without_overseas
           {| Gui.l_dns := ∅; Gui.l_connectivity := ∅;
              Gui.l_all_ips := ["1.2.3.4"] |}
           {["http://localhost:8000/check?domain=" := None]}).
  intros api reply Hreply.
  apply lookup_singleton_Some in Hreply as [_ <-]. reflexivity.
Defined.
